(** * YAIB: model wrappers and recipe steps

    A shallow embedding of
    - [icu_benchmarks/models/wrappers.py] ([DLWrapper], [MLWrapper]) and
    - [icu_benchmarks/recipes/step.py] ([Step] and its four subclasses),
    followed by the properties proved about them.

    Conventions of the embedding.
    - Python numbers that carry losses, labels and weights are exact
      rationals ([Q]); [float("inf")] is the extra value [Inf] of [pyfloat].
      Rounding, NaN and the overflow of integer casts are outside the
      embedding.
    - Calls to [logging] and to the TensorBoard writers are left out: they
      change nothing that the methods read back.
    - A Python call that can raise returns a [result]; the exception is the
      left injection.  [x <- e ;; k] is sequencing: the first exception wins.
    - [self] is a record that every method takes and returns.
    - External collaborators (torch, ignite, pandas, sklearn) are fields of a
      backend record, so that every definition stays executable once a
      backend is supplied. *)

From Stdlib Require Import List String ZArith QArith Bool Lia Lqa DecimalString.
Import ListNotations.

Set Implicit Arguments.
Close Scope Q_scope.

(* ================================================================== *)
(** ** Python preliminaries *)
(* ================================================================== *)

Module Py.

(** The exceptions the two source files can surface. *)
Inductive exn : Type :=
| Exception (msg : string)
| UnboundLocalError (name : string)
| AttributeError (attr : string)
| TypeError (what : string)
| RuntimeError (what : string)
| IndexError
| KeyError (key : string)
| FileNotFoundError (path : string).

Definition result (A : Type) : Type := (exn + A)%type.

Definition Ok {A : Type} (a : A) : result A := inr a.
Definition Raise {A : Type} (e : exn) : result A := inl e.

Definition bind {A B : Type} (r : result A) (k : A -> result B) : result B :=
  match r with
  | inl e => inl e
  | inr a => k a
  end.

Definition raises {A : Type} (r : result A) : Prop :=
  match r with inl _ => True | inr _ => False end.

(** [for x in xs: acc = body(acc, x)] with exceptions. *)
Fixpoint for_each {A S : Type} (body : S -> A -> result S) (xs : list A) (acc : S)
  : result S :=
  match xs with
  | [] => Ok acc
  | x :: rest => bind (body acc x) (for_each body rest)
  end.

(** A [dict] with string keys: insertion-ordered, keys unique. *)
Definition dict (V : Type) : Type := list (string * V).

Fixpoint dict_get {V : Type} (d : dict V) (k : string) : option V :=
  match d with
  | [] => None
  | (k', v) :: rest => if String.eqb k k' then Some v else dict_get rest k
  end.

(** [d[k] = v]: overwrite in place when the key exists, else append. *)
Fixpoint dict_set {V : Type} (d : dict V) (k : string) (v : V) : dict V :=
  match d with
  | [] => [(k, v)]
  | (k', v') :: rest =>
      if String.eqb k k' then (k', v) :: rest else (k', v') :: dict_set rest k v
  end.

Definition keys {V : Type} (d : dict V) : list string := map fst d.

(** A Python float that is either finite or [float("inf")]. *)
Inductive pyfloat : Type :=
| Fin (q : Q)
| Inf.

(** [x - d] for a finite [d]. *)
Definition float_sub (x : pyfloat) (d : Q) : pyfloat :=
  match x with
  | Fin q => Fin (q - d)
  | Inf => Inf
  end.

(** [v <= x] for a finite [v]. *)
Definition float_leb (v : Q) (x : pyfloat) : bool :=
  match x with
  | Fin q => Qle_bool v q
  | Inf => true
  end.


(** Conversion of a float to an integer: truncation toward zero. *)
Definition trunc (q : Q) : Z := Z.quot (Qnum q) (Z.pos (Qden q)).

(** [range(n)] for a Python int [n]. *)
Definition range (n : Z) : list nat := seq 0 (Z.to_nat n).

End Py.

Import Py.

Declare Scope py_scope.
Notation "x <- e ;; k" := (bind e (fun x => k))
  (at level 61, e at next level, right associativity) : py_scope.
Notation "' pat <- e ;; k" := (bind e (fun x => match x with pat => k end))
  (at level 61, pat pattern, e at next level, right associativity) : py_scope.
Open Scope py_scope.
Open Scope string_scope.
Open Scope list_scope.

(* ================================================================== *)
(** ** Collaborators of [DLWrapper]: torch and ignite *)
(* ================================================================== *)

Inductive device : Type := cuda | mps | cpu.

(** The [weight] argument of [train] and [test]: [None], a Python list, a
    string such as ["balanced"], or a tensor placed on a device. *)
Inductive weight : Type :=
| WNone
| WList (l : list Q)
| WStr (s : string)
| WTensor (dev : device) (l : list Q).

(** A tensor seen through its last dimension: [rows] enumerates the leading
    positions (batch and time, flattened), each row having [width] entries. *)
Record tensor2 : Type := { width : nat; rows : list (list Q) }.

(** What [self.encoder(data)] returns: a tensor, or a pair of a tensor and an
    auxiliary loss. *)
Inductive enc_out : Type :=
| EncTensor (out : tensor2)
| EncTuple (out : tensor2) (aux_loss : Q).

(** The two ways [step_fn] calls [self.loss]. *)
Inductive loss_call : Type :=
| LossClass (out_flat : tensor2) (label_long : list Z) (w : weight)
| LossRegr (out_col0 : list Q) (label_float : list Q).

(** A label scaler: only [inverse_transform] is used. *)
Record Scaler : Type := { inverse_transform : list Q -> list Q }.

(** The ignite metric objects [DLWrapper.set_metrics] instantiates. *)
Inductive metric : Type :=
| AveragePrecision
| ROC_AUC
| PrecisionRecallCurve
| RocCurve
| CalibrationCurve
| MAE (invert_transform : list Q -> list Q)
| MeanAbsoluteError
| Accuracy
| BalancedAccuracy.

(** What an output transform hands to [metric.update]: the predictions are a
    vector (one score per position) or still a tensor with a class dimension. *)
Inductive preds : Type :=
| PVec (v : list Q)
| PMat (t : tensor2).

(** A computed metric: a float, or curve data. *)
Inductive metric_value : Type :=
| MFloat (x : pyfloat)
| MCurve (pts : list (list Q)).

Definition results : Type := dict metric_value.

(** One element delivered by a [DataLoader]: a tuple of tensors. *)
Inductive item (Data : Type) : Type :=
| ItemData (d : Data)
| ItemTensor (t : list Q)
| ItemMask (m : list bool).

Arguments ItemData {Data} d.
Arguments ItemTensor {Data} t.
Arguments ItemMask {Data} m.

Definition element (Data : Type) : Type := list (item Data).

(** A dataset as the wrappers use it: [loader batch_size shuffle] is the
    sequence of elements one pass of [DataLoader(ds, batch_size, shuffle)]
    delivers ([shuffle = Some e]: the order drawn for pass [e];
    [None]: [shuffle=False]), and [get_balance()]. *)
Record dataset (Data : Type) : Type := {
  loader : Z -> option nat -> list (element Data);
  get_balance : list Q
}.

(** The encoder, loss, optimizer and metric computations. [Model] is the
    state that [save_model] stores: encoder parameters and optimizer state. *)
Class Torch : Type := {
  Model : Type;
  Data : Type;
  (** [encoder.logit.out_features] *)
  out_features : Model -> nat;
  (** [self.encoder(data)]; the flag is true in [train()] mode *)
  forward : Model -> bool -> Data -> enc_out;
  (** [self.loss(...)] *)
  loss_fn : loss_call -> Q;
  (** [loss.backward(); optimizer.step(); optimizer.zero_grad()] for the loss
      of one element *)
  backward_step : Model -> element Data -> weight -> Model;
  (** [torch.softmax(row)] along the class dimension *)
  softmax : list Q -> list Q;
  (** [metric.compute()] after the given updates *)
  metric_compute : metric -> list (preds * list Q) -> result metric_value
}.

(* ================================================================== *)
(** ** [DLWrapper] *)
(* ================================================================== *)

Module DLWrapper.

(** The output transforms defined in [set_metrics]. *)
Inductive transform : Type :=
| softmax_binary_output_transform
| identity_output_transform        (* [lambda x: x] *)
| softmax_multi_output_transform.

Section WithTorch.
Context {T : Torch}.

Record t : Type := {
  device_of : device;
  pin_memory : bool;
  n_worker : nat;
  encoder : Model;
  scaler : option Scaler;
  logdir : option string;               (* [None]: attribute not set yet *)
  metrics : option (dict metric);       (* [None]: attribute not set yet *)
  output_transform : option transform   (* [None]: attribute not set yet *)
}.

(** Files under the log directory and its parent. *)
Record files : Type := {
  model_torch : option (nat * Model);         (* <logdir>/model.torch *)
  best_metrics_json : option results;         (* <logdir>/best_metrics.json *)
  test_metrics_json : option results;         (* <logdir>/test_metrics.json *)
  val_metrics_shared : list (Z * results);    (* <logdir>/../val_metrics.json *)
  test_metrics_shared : list (Z * results)    (* <logdir>/../test_metrics.json *)
}.

(** [__init__] *)
Definition init (cuda_available mps_available : bool) (enc : Model) (train_on_cpu : bool) : t :=
  let '(dev, pin, workers) :=
    if cuda_available && negb train_on_cpu then (cuda, true, 1)
    else if mps_available && negb train_on_cpu then (mps, true, 1)
    else (cpu, false, 8) in
  {| device_of := dev; pin_memory := pin; n_worker := workers; encoder := enc;
     scaler := None; logdir := None; metrics := None; output_transform := None |}.

Definition set_logdir (self : t) (dir : string) : t :=
  {| device_of := device_of self; pin_memory := pin_memory self; n_worker := n_worker self;
     encoder := encoder self; scaler := scaler self; logdir := Some dir;
     metrics := metrics self; output_transform := output_transform self |}.

Definition set_scaler (self : t) (s : Scaler) : t :=
  {| device_of := device_of self; pin_memory := pin_memory self; n_worker := n_worker self;
     encoder := encoder self; scaler := Some s; logdir := logdir self;
     metrics := metrics self; output_transform := output_transform self |}.

Definition set_encoder (self : t) (m : Model) : t :=
  {| device_of := device_of self; pin_memory := pin_memory self; n_worker := n_worker self;
     encoder := m; scaler := scaler self; logdir := logdir self;
     metrics := metrics self; output_transform := output_transform self |}.

(** [set_metrics] *)
Definition set_metrics (self : t) : t :=
  let '(tr, ms) :=
    if Nat.eqb (out_features (encoder self)) 2 then
      (softmax_binary_output_transform,
       [("PR", AveragePrecision); ("AUC", ROC_AUC); ("PR_Curve", PrecisionRecallCurve);
        ("ROC_Curve", RocCurve); ("Calibration_Curve", CalibrationCurve)])
    else if Nat.eqb (out_features (encoder self)) 1 then
      (identity_output_transform,
       match scaler self with
       | Some s => [("MAE", MAE (inverse_transform s))]
       | None => [("MAE", MeanAbsoluteError)]
       end)
    else
      (softmax_multi_output_transform,
       [("Accuracy", Accuracy); ("BalancedAccuracy", BalancedAccuracy)]) in
  {| device_of := device_of self; pin_memory := pin_memory self; n_worker := n_worker self;
     encoder := encoder self; scaler := scaler self; logdir := logdir self;
     metrics := Some ms; output_transform := Some tr |}.

(** [y_pred[:, -1]] *)
Fixpoint last_column (rs : list (list Q)) : result (list Q) :=
  match rs with
  | [] => Ok []
  | r :: rest =>
      match rev r with
      | [] => Raise IndexError
      | x :: _ => xs <- last_column rest ;; Ok (x :: xs)
      end
  end.

Definition softmax_dim1 (y_pred : tensor2) : tensor2 :=
  {| width := width y_pred; rows := map softmax (rows y_pred) |}.

(** [self.output_transform((preds, target))] *)
Definition apply_transform (tr : transform) (output : tensor2 * list Q)
  : result (preds * list Q) :=
  let '(y_pred, y) := output in
  match tr with
  | softmax_binary_output_transform =>
      col <- last_column (rows (softmax_dim1 y_pred)) ;; Ok (PVec col, y)
  | identity_output_transform => Ok (PMat y_pred, y)
  | softmax_multi_output_transform => Ok (PMat (softmax_dim1 y_pred), y)
  end.

(** [torch.ones_like(labels).bool()] *)
Definition ones_like (labels : list Q) : list bool := map (fun _ => true) labels.

(** [torch.masked_select(x, mask)] on tensors of the same shape. *)
Fixpoint masked_select {A : Type} (xs : list A) (mask : list bool) : result (list A) :=
  match xs, mask with
  | [], [] => Ok []
  | x :: xs', b :: mask' =>
      sel <- masked_select xs' mask' ;; Ok (if b then x :: sel else sel)
  | _, _ => Raise (RuntimeError "shape mismatch in masked_select")
  end.

(** [label_flat.long()]: truncation toward zero. *)
Definition long (q : Q) : Z := trunc q.

(** [out_flat[:, 0]] *)
Fixpoint column0 (rs : list (list Q)) : result (list Q) :=
  match rs with
  | [] => Ok []
  | [] :: _ => Raise IndexError
  | (x :: _) :: rest => xs <- column0 rest ;; Ok (x :: xs)
  end.

Definition as_data (i : item Data) : result Data :=
  match i with
  | ItemData d => Ok d
  | _ => Raise (TypeError "features expected")
  end.

Definition as_labels (i : item Data) : result (list Q) :=
  match i with
  | ItemTensor l => Ok l
  | _ => Raise (TypeError "label tensor expected")
  end.

Definition as_mask (i : item Data) : result (list bool) :=
  match i with
  | ItemMask m => Ok m
  | _ => Raise (RuntimeError "masked_select expects a bool mask")
  end.

(** The part of [step_fn] after the element has been unpacked (lines 131-143). *)
Definition step_masked (self : t) (training : bool) (data : Data) (labels : list Q)
    (mask : list bool) (loss_weight : weight) : result (Q * tensor2 * list Q) :=
  let '(out, aux_loss) :=
    match forward (encoder self) training data with
    | EncTuple out aux => (out, aux)
    | EncTensor out => (out, 0%Q)
    end in
  sel <- masked_select (rows out) mask ;;
  let out_flat := {| width := width out; rows := sel |} in
  label_flat <- masked_select labels mask ;;
  if Nat.ltb 1 (width out_flat) then
    Ok ((loss_fn (LossClass out_flat (map long label_flat) loss_weight) + aux_loss)%Q,
        out_flat, label_flat)
  else
    col <- column0 (rows out_flat) ;;
    Ok ((loss_fn (LossRegr col label_flat) + aux_loss)%Q, out_flat, label_flat).

(** [step_fn] *)
Definition step_fn (self : t) (training : bool) (elem : element Data) (loss_weight : weight)
  : result (Q * tensor2 * list Q) :=
  match elem with
  | [e0; e1] =>
      labels <- as_labels e1 ;;
      data <- as_data e0 ;;
      step_masked self training data labels (ones_like labels) loss_weight
  | [e0; e1; e2] =>
      labels <- as_labels e1 ;;
      mask <- as_mask e2 ;;
      data <- as_data e0 ;;
      step_masked self training data labels mask loss_weight
  | _ => Raise (Exception "Loader should return either (data, label) or (data, label, mask)")
  end.

(** The body of [for name, metric in metrics.items(): metric.update(...)]:
    every metric receives the same transformed pair, so the pass keeps one
    list of updates; with no metric the transform is not called. *)
Definition metric_update (self : t) (ms : dict metric) (out_flat : tensor2) (label_flat : list Q)
    (updates : list (preds * list Q)) : result (list (preds * list Q)) :=
  match ms with
  | [] => Ok updates
  | _ :: _ =>
      match output_transform self with
      | None => Raise (AttributeError "output_transform")
      | Some tr => u <- apply_transform tr (out_flat, label_flat) ;; Ok (updates ++ [u])
      end
  end.

(** [{name: metric.compute() for name, metric in metrics.items()}] *)
Definition compute_metrics (ms : dict metric) (updates : list (preds * list Q)) : result results :=
  for_each (fun (res : results) (nm : string * metric) =>
              v <- metric_compute (snd nm) updates ;; Ok (dict_set res (fst nm) v))
           ms [].

Definition Qsum (l : list Q) : Q := fold_left Qplus l 0%Q.

(** [float(sum(losses) / (i + 1))], [i] being the last index of the loop:
    the name is unbound when the loader delivered nothing. *)
Definition mean_loss (index_name : string) (losses : list Q) : result Q :=
  match losses with
  | [] => Raise (UnboundLocalError index_name)
  | _ :: _ => Ok (Qsum losses / inject_Z (Z.of_nat (List.length losses)))%Q
  end.

(** [evaluate] *)
Definition evaluate (self : t) (eval_loader : list (element Data)) (ms : dict metric)
    (w : weight) : result (Q * results) :=
  '(eval_loss, updates) <-
    for_each (fun (acc : list Q * list (preds * list Q)) elem =>
                '(loss, out_flat, label_flat) <- step_fn self false elem w ;;
                updates' <- metric_update self ms out_flat label_flat (snd acc) ;;
                Ok (fst acc ++ [loss], updates'))
             eval_loader ([], []) ;;
  eval_metric_results <- compute_metrics ms updates ;;
  eval_loss' <- mean_loss "v" eval_loss ;;
  Ok (eval_loss', eval_metric_results).

(** [_do_training] *)
Definition _do_training (self : t) (train_loader : list (element Data)) (w : weight)
    (ms : dict metric) : result (t * Q * results) :=
  '(self', train_loss, updates) <-
    for_each (fun (acc : t * list Q * list (preds * list Q)) elem =>
                let '(self0, losses, updates0) := acc in
                '(loss, out_flat, label_flat) <- step_fn self0 true elem w ;;
                let self1 := set_encoder self0 (backward_step (encoder self0) elem w) in
                updates1 <- metric_update self1 ms out_flat label_flat updates0 ;;
                Ok (self1, losses ++ [loss], updates1))
             train_loader (self, [], []) ;;
  train_metric_results <- compute_metrics ms updates ;;
  train_loss' <- mean_loss "t" train_loss ;;
  Ok (self', train_loss', train_metric_results).

(** Modelled from the spec: [icu_benchmarks.models.utils.save_model], which
    is not among the source files. It persists the checkpoint (encoder and
    optimizer state, with the epoch) at the given path, replacing what was
    there. *)
Definition save_model (m : Model) (epoch : nat) (fs : files) : files :=
  {| model_torch := Some (epoch, m); best_metrics_json := best_metrics_json fs;
     test_metrics_json := test_metrics_json fs; val_metrics_shared := val_metrics_shared fs;
     test_metrics_shared := test_metrics_shared fs |}.

(** Modelled from the spec: [icu_benchmarks.models.utils.load_model_state],
    which is not among the source files. It reloads the checkpoint stored at
    the path into the live encoder and optimizer. *)
Definition load_model_state (fs : files) : result Model :=
  match model_torch fs with
  | Some (_, m) => Ok m
  | None => Raise (FileNotFoundError "model.torch")
  end.

(** Modelled from the spec: [icu_benchmarks.models.utils.append_results],
    which is not among the source files. It appends one [{seed: metrics}]
    record to the shared file and keeps the records of the other seeds. *)
Definition append_results (shared : list (Z * results)) (res : results) (seed : Z)
  : list (Z * results) :=
  filter (fun r => negb (Z.eqb (fst r) seed)) shared ++ [(seed, res)].

(** [save_weights(epoch, save_path)] *)
Definition do_save_weights (self : t) (epoch : nat) (fs : files) : files :=
  save_model (encoder self) epoch fs.

(** [load_weights(load_path)] *)
Definition do_load_weights (self : t) (fs : files) : result t :=
  m <- load_model_state fs ;; Ok (set_encoder self m).

(** The keyword arguments of [train]. *)
Record train_args : Type := {
  epochs : Z;
  batch_size : Z;
  patience : Z;
  min_delta : Q;
  save_weights : bool
}.

Definition default_args : train_args :=
  {| epochs := 1000; batch_size := 64; patience := 10; min_delta := (1 # 10000)%Q;
     save_weights := true |}.

(** The local variables of [train] that the epoch loop reads and writes,
    with [self] and the files. [best_metrics] and [val_metric_results] are
    [None] while the Python name is unbound. [best_is_current] holds when
    both names refer to the same dict object. *)
Record loop_state : Type := {
  self_of : t;
  files_of : files;
  best_loss : pyfloat;
  epoch_no_improvement : Z;
  best_metrics : option results;
  val_metric_results : option results;
  best_is_current : bool
}.

(** The test of line 218: [val_loss <= best_loss - min_delta]. *)
Definition improves (args : train_args) (val_loss : Q) (best : pyfloat) : bool :=
  float_leb val_loss (float_sub best (min_delta args)).

(** The early-stopping block of one epoch (lines 218-227). *)
Definition early_stopping (args : train_args) (epoch : nat) (val_loss : Q) (val_res : results)
    (st : loop_state) : loop_state :=
  if improves args val_loss (best_loss st) then
    {| self_of := self_of st;
       files_of := if save_weights args then do_save_weights (self_of st) epoch (files_of st)
                   else files_of st;
       best_loss := Fin val_loss;
       epoch_no_improvement := 0;
       best_metrics := Some val_res;
       val_metric_results := Some val_res;
       best_is_current := true |}
  else
    {| self_of := self_of st;
       files_of := files_of st;
       best_loss := best_loss st;
       epoch_no_improvement := epoch_no_improvement st + 1;
       best_metrics := best_metrics st;
       val_metric_results := Some val_res;
       best_is_current := false |}.

(** The test of line 228: [epoch_no_improvement >= patience]. *)
Definition stops (args : train_args) (st : loop_state) : bool :=
  Z.leb (patience args) (epoch_no_improvement st).

(** What one executed epoch leaves behind: its index, its validation loss
    and the loop state after the early-stopping block. *)
Record epoch_record : Type := {
  er_epoch : nat;
  er_val_loss : Q;
  er_after : loop_state
}.

Definition with_self (st : loop_state) (self : t) : loop_state :=
  {| self_of := self; files_of := files_of st; best_loss := best_loss st;
     epoch_no_improvement := epoch_no_improvement st; best_metrics := best_metrics st;
     val_metric_results := val_metric_results st; best_is_current := best_is_current st |}.

(** [for epoch in range(epochs): ...] over the epochs still to run. The
    result lists the epochs that were executed, in order. *)
Fixpoint train_epochs (args : train_args) (train_dataset val_dataset : dataset Data)
    (w : weight) (ms : dict metric) (todo : list nat) (st : loop_state)
  : result (loop_state * list epoch_record) :=
  match todo with
  | [] => Ok (st, [])
  | epoch :: rest =>
      '(self1, train_loss, train_metric_results) <-
        _do_training (self_of st) (loader train_dataset (batch_size args) (Some epoch)) w ms ;;
      '(val_loss, val_res) <-
        evaluate self1 (loader val_dataset (batch_size args) None) ms w ;;
      let st1 := early_stopping args epoch val_loss val_res (with_self st self1) in
      let rec := {| er_epoch := epoch; er_val_loss := val_loss; er_after := st1 |} in
      if stops args st1 then Ok (st1, [rec])
      else
        '(st2, recs) <- train_epochs args train_dataset val_dataset w ms rest st1 ;;
        Ok (st2, rec :: recs)
  end.

(** Lines 200-203: the weight that [train] hands to the loss. *)
Definition train_weight (self : t) (train_dataset : dataset Data) (w : weight) : weight :=
  match w with
  | WList l => WTensor (device_of self) l
  | WStr s => if String.eqb s "balanced"
              then WTensor (device_of self) (get_balance train_dataset)
              else w
  | _ => w
  end.

(** Lines 268-269: the weight that [test] hands to the loss. *)
Definition test_weight (self : t) (w : weight) : weight :=
  match w with
  | WList l => WTensor (device_of self) l
  | _ => w
  end.

Definition require {A : Type} (o : option A) (e : exn) : result A :=
  match o with
  | Some a => Ok a
  | None => Raise e
  end.

(** [train]. Returns [self], the files, and the epochs executed. *)
Definition train (self : t) (fs : files) (train_dataset val_dataset : dataset Data)
    (w : weight) (seed : Z) (args : train_args)
  : result (t * files * list epoch_record) :=
  let self0 := set_metrics self in
  ms <- require (metrics self0) (AttributeError "metrics") ;;
  let w' := train_weight self0 train_dataset w in
  _ <- require (logdir self0) (AttributeError "logdir") ;;
  let st0 := {| self_of := self0; files_of := fs; best_loss := Inf;
                epoch_no_improvement := 0; best_metrics := None;
                val_metric_results := None; best_is_current := false |} in
  '(st, executed) <-
    train_epochs args train_dataset val_dataset w' ms (range (epochs args)) st0 ;;
  bm <- require (best_metrics st) (UnboundLocalError "best_metrics") ;;
  let bm' := dict_set bm "loss" (MFloat (best_loss st)) in
  vm <- require (val_metric_results st) (UnboundLocalError "val_metric_results") ;;
  let vm' := if best_is_current st then bm' else vm in
  let fs1 :=
    {| model_torch := model_torch (files_of st);
       best_metrics_json := Some bm';
       test_metrics_json := test_metrics_json (files_of st);
       val_metrics_shared := append_results (val_metrics_shared (files_of st)) vm' seed;
       test_metrics_shared := test_metrics_shared (files_of st) |} in
  self1 <- do_load_weights (self_of st) fs1 ;;
  Ok (self1, fs1, executed).

(** [test] *)
Definition test (self : t) (fs : files) (ds : dataset Data) (seed : Z) (w : weight)
  : result (t * files) :=
  let self0 := set_metrics self in
  let w' := test_weight self0 w in
  ms <- require (metrics self0) (AttributeError "metrics") ;;
  '(test_loss, test_metrics) <- evaluate self0 (loader ds 1 None) ms w' ;;
  let test_metrics' := dict_set test_metrics "loss" (MFloat (Fin test_loss)) in
  _ <- require (logdir self0) (AttributeError "logdir") ;;
  Ok (self0,
      {| model_torch := model_torch fs;
         best_metrics_json := best_metrics_json fs;
         test_metrics_json := Some test_metrics';
         val_metrics_shared := val_metrics_shared fs;
         test_metrics_shared := append_results (test_metrics_shared fs) test_metrics' seed |}).

End WithTorch.
End DLWrapper.

(* ================================================================== *)
(** ** [MLWrapper] *)
(* ================================================================== *)

Module MLWrapper.

(** What [self.model] is: a [lightgbm.basic.Booster] (a boosting model
    reloaded from its text file), or any other estimator. *)
Inductive model_kind : Type := Booster | Estimator.

(** The sklearn metric functions [set_metrics] refers to. *)
Inductive metric_fn : Type :=
| average_precision_score
| roc_auc_score
| roc_curve
| precision_recall_curve
| accuracy_score
| balanced_accuracy_score
| mean_absolute_error.

(** The lambdas [set_metrics] stores in [output_transform] and
    [label_transform]. The last one reads [self.scaler] when it is called. *)
Inductive transform : Type :=
| identity                  (* [lambda x: x] *)
| positive_column           (* [lambda x: x[:, 1]] *)
| argmax_last_axis          (* [lambda x: np.argmax(x, axis=-1)] *)
| scaler_inverse_transform. (* [lambda x: self.scaler.inverse_transform(x.reshape(-1, 1))] *)

Record t : Type := {
  model : model_kind;
  scaler : option Scaler;
  logdir : option string;
  output_transform : option transform;
  label_transform : option transform;
  metrics : option (dict metric_fn)
}.

(** [__init__] *)
Definition init (m : model_kind) : t :=
  {| model := m; scaler := None; logdir := None; output_transform := None;
     label_transform := None; metrics := None |}.

Definition set_scaler (self : t) (s : Scaler) : t :=
  {| model := model self; scaler := Some s; logdir := logdir self;
     output_transform := output_transform self; label_transform := label_transform self;
     metrics := metrics self |}.

(** [np.unique(labels)]: the distinct values (numpy also sorts them; only
    their number is used). *)
Fixpoint np_unique (labels : list Q) : list Q :=
  match labels with
  | [] => []
  | x :: rest =>
      let u := np_unique rest in
      if existsb (Qeq_bool x) u then u else x :: u
  end.

(** One entry of [labels.astype(int) == labels]. *)
Definition equals_its_int_cast (x : Q) : bool := Qeq_bool (inject_Z (trunc x)) x.

(** [np.all(labels[:10].astype(int) == labels[:10])] *)
Definition first_ten_are_ints (labels : list Q) : bool :=
  forallb equals_its_int_cast (firstn 10 labels).

Definition ranking_metrics : dict metric_fn :=
  [("PR", average_precision_score); ("AUC", roc_auc_score); ("ROC", roc_curve);
   ("PRC", precision_recall_curve)].

Definition accuracy_metrics : dict metric_fn :=
  [("Accuracy", accuracy_score); ("BalancedAccuracy", balanced_accuracy_score)].

Definition regression_metrics : dict metric_fn := [("MAE", mean_absolute_error)].

Definition with_metrics (self : t) (out lab : transform) (ms : dict metric_fn) : t :=
  {| model := model self; scaler := scaler self; logdir := logdir self;
     output_transform := Some out; label_transform := Some lab; metrics := Some ms |}.

(** [set_metrics] *)
Definition set_metrics (self : t) (labels : list Q) : t :=
  if Nat.eqb (List.length (np_unique labels)) 2 then
    with_metrics self
      (match model self with Booster => identity | Estimator => positive_column end)
      identity ranking_metrics
  else if first_ten_are_ints labels then
    with_metrics self argmax_last_axis identity accuracy_metrics
  else
    match scaler self with
    | Some _ => with_metrics self scaler_inverse_transform scaler_inverse_transform
                  regression_metrics
    | None => with_metrics self identity identity regression_metrics
    end.

(** A numpy array of predictions or labels: one- or two-dimensional. *)
Inductive ndarray : Type :=
| Arr1 (v : list Q)
| Arr2 (rs : list (list Q)).

(** Index of the first maximum of a row, with the maximum so far. *)
Fixpoint argmax_from (best_i : nat) (best : Q) (i : nat) (r : list Q) : nat :=
  match r with
  | [] => best_i
  | x :: rest =>
      if Qle_bool x best then argmax_from best_i best (S i) rest
      else argmax_from i x (S i) rest
  end.

Definition argmax (r : list Q) : result nat :=
  match r with
  | [] => Raise (Exception "attempt to get argmax of an empty sequence")
  | x :: rest => Ok (argmax_from 0 x 1 rest)
  end.

(** [r[1]] *)
Definition require_nth (r : list Q) : result Q :=
  match nth_error r 1 with
  | Some x => Ok x
  | None => Raise IndexError
  end.

Fixpoint map_result {A B : Type} (f : A -> result B) (l : list A) : result (list B) :=
  match l with
  | [] => Ok []
  | a :: rest => b <- f a ;; bs <- map_result f rest ;; Ok (b :: bs)
  end.

Definition flatten (x : ndarray) : list Q :=
  match x with
  | Arr1 v => v
  | Arr2 rs => List.concat rs
  end.

(** Calling a stored lambda on an array. *)
Definition apply_transform (self : t) (tr : transform) (x : ndarray) : result ndarray :=
  match tr with
  | identity => Ok x
  | positive_column =>
      match x with
      | Arr1 _ => Raise IndexError
      | Arr2 rs =>
          col <- map_result require_nth rs ;; Ok (Arr1 col)
      end
  | argmax_last_axis =>
      match x with
      | Arr1 v => i <- argmax v ;; Ok (Arr1 [inject_Z (Z.of_nat i)])
      | Arr2 rs =>
          idx <- map_result argmax rs ;;
          Ok (Arr1 (map (fun i => inject_Z (Z.of_nat i)) idx))
      end
  | scaler_inverse_transform =>
      match scaler self with
      | None => Raise (AttributeError "inverse_transform")
      | Some s => Ok (Arr2 (map (fun y => [y]) (inverse_transform s (flatten x))))
      end
  end.

End MLWrapper.

(* ================================================================== *)
(** ** Methods that mutate objects: state and exceptions *)
(* ================================================================== *)

(** A method body over a store [W]: it returns the store as it is when the
    body ends or raises, with the value or the exception. *)
Definition M (W A : Type) : Type := W -> W * result A.

Definition ret {W A : Type} (a : A) : M W A := fun w => (w, Ok a).

Definition raise {W A : Type} (e : exn) : M W A := fun w => (w, Raise e).

Definition bindM {W A B : Type} (m : M W A) (k : A -> M W B) : M W B :=
  fun w =>
    match m w with
    | (w', inl e) => (w', inl e)
    | (w', inr a) => k a w'
    end.

(** A computation that only reads. *)
Definition lift {W A : Type} (r : result A) : M W A := fun w => (w, r).

Definition modify {W : Type} (f : W -> W) : M W unit := fun w => (f w, Ok tt).

Notation "x <~ e ;; k" := (bindM e (fun x => k))
  (at level 61, e at next level, right associativity) : py_scope.
Notation "e ;;; k" := (bindM e (fun _ => k))
  (at level 61, right associativity) : py_scope.

(** [for x in xs: body(x)] *)
Fixpoint for_in {W A : Type} (xs : list A) (body : A -> M W unit) : M W unit :=
  match xs with
  | [] => ret tt
  | x :: rest => body x ;;; for_in rest body
  end.

(* ================================================================== *)
(** ** Collaborators of the recipe steps: pandas and sklearn *)
(* ================================================================== *)

(** A column of a table; [None] is a missing value. *)
Definition column : Type := list (option Q).

(** A table: its columns, and the roles recorded for each column. *)
Record frame : Type := { cols : dict column; roles : dict (list string) }.

(** What a step receives: the table itself, or the table grouped by a key
    (a group-by object, whose [.obj] is the table). [keys] gives the group of
    each row. *)
Inductive table : Type :=
| Plain (f : frame)
| Grouped (keys : list nat) (obj : frame).

(** A selector: called on a table, it returns column names. *)
Definition selector : Type := table -> result (list string).

(** The argument of an sklearn [fit] or [transform]: one column ([data[col]])
    or several ([data[columns]]). *)
Inductive xarg : Type :=
| Series (c : column)
| Columns (cs : list column).

Class Tabular : Type := {
  (** [grouped[cols].fillna(value, method=method, axis=0, limit=limit)] *)
  fillna : list nat -> list column -> option Q -> option string -> option Z
           -> result (list column);
  (** [grouped[cols].cummax(skipna=True)] and [cummin] *)
  cummax : list nat -> list column -> list column;
  cummin : list nat -> list column -> list column;
  (** a fitted [StandardScaler] *)
  FittedScaler : Type;
  (** [StandardScaler(copy=True, with_mean, with_std).fit(values[:, None])] *)
  standard_scaler_fit : bool -> bool -> column -> result FittedScaler;
  (** [sclr.transform(values[:, None])] *)
  standard_scaler_transform : FittedScaler -> column -> result column;
  (** an sklearn transformer object, with its fitted state *)
  Transformer : Type;
  (** [t.__class__.__name__] *)
  class_name : Transformer -> string;
  (** [t.fit(X)]: the object after fitting *)
  transformer_fit : Transformer -> xarg -> result Transformer;
  (** [t.transform(X)]: the columns of the returned array *)
  transformer_transform : Transformer -> xarg -> result (list column)
}.

(** [frame[c]] *)
Definition getitem (f : frame) (c : string) : result column :=
  match dict_get (cols f) c with
  | Some col => Ok col
  | None => Raise (KeyError c)
  end.

(** [frame[cs]] for a list of names *)
Fixpoint getitems (f : frame) (cs : list string) : result (list column) :=
  match cs with
  | [] => Ok []
  | c :: rest => col <- getitem f c ;; others <- getitems f rest ;; Ok (col :: others)
  end.

(** [frame[c] = col] *)
Definition setitem (f : frame) (c : string) (col : column) : frame :=
  {| cols := dict_set (cols f) c col; roles := roles f |}.

(** [frame[names] = values]: as many columns as names. *)
Fixpoint setitems (f : frame) (names : list string) (values : list column) : result frame :=
  match names, values with
  | [], [] => Ok f
  | c :: names', col :: values' => setitems (setitem f c col) names' values'
  | _, _ => Raise (Exception "Columns must be same length as key")
  end.

(** Modelled from the spec: [add_role] of the table class, which is not
    among the source files. It tags the column with the role in the table's
    column-role metadata. *)
Definition add_role (f : frame) (c : string) (role : string) : frame :=
  {| cols := cols f;
     roles := dict_set (roles f) c
                (match dict_get (roles f) c with
                 | Some rs => rs ++ [role]
                 | None => [role]
                 end) |}.

(* ================================================================== *)
(** ** Recipe steps *)
(* ================================================================== *)

Module Recipes.
Section WithTabular.
Context {B : Tabular}.

(** The attributes a subclass adds; the constructor is the object's class.
    [None] in [scalers] and [_transformers]: the attribute is not set yet. *)
Inductive fields : Type :=
| IsStep
| IsStepImputeFill (value : option Q) (method : option string) (limit : option Z)
| IsStepScale (with_mean with_std : bool) (scalers : option (dict FittedScaler))
| IsStepHistorical (fun_ : string) (suffix : string) (role : string)
| IsStepSklearn (sklearn_transform : Transformer) (columnwise is_in_place : bool)
                (_transformers : option (dict Transformer)).

(** A [Step] object. *)
Record step : Type := {
  sel : selector;
  columns : list string;
  _trained : bool;
  _group : bool;
  fields_of : fields
}.

(** The store of a method call: the step and the table it was handed. *)
Record world : Type := { self : step; data : table }.

Definition trained (s : step) : bool := _trained s.
Definition group (s : step) : bool := _group s.

Definition set_columns (cs : list string) : M world unit :=
  modify (fun w =>
    {| self := {| sel := sel (self w); columns := cs; _trained := _trained (self w);
                  _group := _group (self w); fields_of := fields_of (self w) |};
       data := data w |}).

Definition set_trained (b : bool) : M world unit :=
  modify (fun w =>
    {| self := {| sel := sel (self w); columns := columns (self w); _trained := b;
                  _group := _group (self w); fields_of := fields_of (self w) |};
       data := data w |}).

Definition set_fields (fs : fields) : M world unit :=
  modify (fun w =>
    {| self := {| sel := sel (self w); columns := columns (self w);
                  _trained := _trained (self w); _group := _group (self w);
                  fields_of := fs |};
       data := data w |}).

Definition set_data (d : table) : M world unit :=
  modify (fun w => {| self := self w; data := d |}).

Definition get_self : M world step := fun w => (w, Ok (self w)).
Definition get_data : M world table := fun w => (w, Ok (data w)).

(** [data.obj] *)
Definition obj_of (d : table) : result frame :=
  match d with
  | Grouped _ f => Ok f
  | Plain _ => Raise (AttributeError "obj")
  end.

Definition keys_of (d : table) : list nat :=
  match d with
  | Grouped ks _ => ks
  | Plain _ => []
  end.

(** Rebinding the table behind a handle after an in-place assignment. *)
Definition with_frame (d : table) (f : frame) : table :=
  match d with
  | Grouped ks _ => Grouped ks f
  | Plain _ => Plain f
  end.

Definition frame_of (d : table) : frame :=
  match d with
  | Grouped _ f => f
  | Plain f => f
  end.

(** [data[c].values] on an ungrouped table *)
Definition column_values (d : table) (c : string) : result column :=
  match d with
  | Plain f => getitem f c
  | Grouped _ f => _ <- getitem f c ;; Raise (AttributeError "values")
  end.

(** [Step.__init__] *)
Definition Step_init (s : selector) : step :=
  {| sel := s; columns := []; _trained := false; _group := true; fields_of := IsStep |}.

(** [Step.fit]: [pass] *)
Definition Step_fit : M world unit := ret tt.

(** [Step.transform]: [pass], so the call returns [None] *)
Definition Step_transform : M world (option table) := ret None.

(** [StepImputeFill.__init__] *)
Definition StepImputeFill_init (s : selector) (value : option Q) (method : option string)
    (limit : option Z) : step :=
  {| sel := s; columns := []; _trained := false; _group := true;
     fields_of := IsStepImputeFill value method limit |}.

(** [StepImputeFill.fit] *)
Definition StepImputeFill_fit : M world unit :=
  s <~ get_self ;; d <~ get_data ;;
  obj <~ lift (obj_of d) ;;
  cs <~ lift (sel s (Plain obj)) ;;
  set_columns cs ;;;
  set_trained true.

(** [StepImputeFill.transform] *)
Definition StepImputeFill_transform (value : option Q) (method : option string)
    (limit : option Z) : M world (option table) :=
  s <~ get_self ;; d <~ get_data ;;
  new_data <~ lift (obj_of d) ;;
  selected <~ lift (getitems new_data (columns s)) ;;
  filled <~ lift (fillna (keys_of d) selected value method limit) ;;
  new_data' <~ lift (setitems new_data (columns s) filled) ;;
  set_data (with_frame d new_data') ;;;
  ret (Some (Plain new_data')).

(** [StepScale.__init__] *)
Definition StepScale_init (s : selector) (with_mean with_std : bool) : step :=
  {| sel := s; columns := []; _trained := false; _group := false;
     fields_of := IsStepScale with_mean with_std None |}.

(** [StepScale.fit] *)
Definition StepScale_fit (with_mean with_std : bool) : M world unit :=
  s <~ get_self ;; d <~ get_data ;;
  cs <~ lift (sel s d) ;;
  set_columns cs ;;;
  scalers <~ lift (for_each (fun (acc : dict FittedScaler) c =>
                               col <- column_values d c ;;
                               f <- standard_scaler_fit with_mean with_std col ;;
                               Ok (dict_set acc c f))
                            cs []) ;;
  set_fields (IsStepScale with_mean with_std (Some scalers)) ;;;
  set_trained true.

(** [StepScale.transform] *)
Definition StepScale_transform (scalers : option (dict FittedScaler))
  : M world (option table) :=
  scs <~ lift (match scalers with
               | Some scs => Ok scs
               | None => Raise (AttributeError "scalers")
               end) ;;
  for_in scs (fun c_sclr =>
    d <~ get_data ;;
    col <~ lift (column_values d (fst c_sclr)) ;;
    col' <~ lift (standard_scaler_transform (snd c_sclr) col) ;;
    set_data (with_frame d (setitem (frame_of d) (fst c_sclr) col'))) ;;;
  d <~ get_data ;;
  ret (Some d).

(** [StepHistorical.__init__] *)
Definition StepHistorical_init (s : selector) (fun_ : string) (suffix : option string)
    (role : string) : step :=
  {| sel := s; columns := []; _trained := false; _group := true;
     fields_of := IsStepHistorical fun_
                    (match suffix with Some sfx => sfx | None => fun_ end) role |}.

(** [StepHistorical.fit] *)
Definition StepHistorical_fit : M world unit :=
  s <~ get_self ;; d <~ get_data ;;
  obj <~ lift (obj_of d) ;;
  cs <~ lift (sel s (Plain obj)) ;;
  set_columns cs ;;;
  set_trained true.

(** [StepHistorical.transform] *)
Definition StepHistorical_transform (fun_ suffix role : string) : M world (option table) :=
  s <~ get_self ;; d <~ get_data ;;
  new_data <~ lift (obj_of d) ;;
  let new_columns := map (fun c => String.append c (String.append "_" suffix)) (columns s) in
  res <~ lift (if String.eqb fun_ "max" then
                 selected <- getitems new_data (columns s) ;;
                 Ok (Some (cummax (keys_of d) selected))
               else if String.eqb fun_ "min" then
                 selected <- getitems new_data (columns s) ;;
                 Ok (Some (cummin (keys_of d) selected))
               else Ok None) ;;
  res' <~ lift (match res with
                | Some r => Ok r
                | None => Raise (UnboundLocalError "res")
                end) ;;
  new_data' <~ lift (setitems new_data new_columns res') ;;
  set_data (with_frame d new_data') ;;;
  for_in new_columns (fun nc =>
    d' <~ get_data ;;
    set_data (with_frame d' (add_role (frame_of d') nc role))) ;;;
  d'' <~ get_data ;;
  ret (Some (Plain (frame_of d''))).

(** [data[col]] handed to sklearn: a column of an ungrouped table (sklearn
    rejects a group-by selection). *)
Definition sklearn_input (d : table) (c : string) : result column :=
  match d with
  | Plain f => getitem f c
  | Grouped _ f => _ <- getitem f c ;; Raise (TypeError "group-by selection")
  end.

(** [data[columns]] handed to sklearn. *)
Definition sklearn_inputs (d : table) (cs : list string) : result (list column) :=
  match d with
  | Plain f => getitems f cs
  | Grouped _ f => _ <- getitems f cs ;; Raise (TypeError "group-by selection")
  end.

(** [StepSklearn.__init__] *)
Definition StepSklearn_init (s : selector) (sklearn_transform : Transformer)
    (columnwise is_in_place : bool) : step :=
  {| sel := s; columns := []; _trained := false; _group := false;
     fields_of := IsStepSklearn sklearn_transform columnwise is_in_place None |}.

(** The body of the loop of [StepSklearn.fit]:
    [self._transformers[col] = deepcopy(self.sklearn_transform.fit(data[col]))] *)
Definition StepSklearn_fit_column (col : string) : M world unit :=
  s <~ get_self ;; d <~ get_data ;;
  match fields_of s with
  | IsStepSklearn t cw ip trs =>
      x <~ lift (sklearn_input d col) ;;
      t' <~ lift (transformer_fit t (Series x)) ;;
      match trs with
      | Some fitted => set_fields (IsStepSklearn t' cw ip (Some (dict_set fitted col t')))
      | None => set_fields (IsStepSklearn t' cw ip None) ;;;
                raise (AttributeError "_transformers")
      end
  | _ => raise (AttributeError "sklearn_transform")
  end.

(** [StepSklearn.fit] *)
Definition StepSklearn_fit (sklearn_transform : Transformer) (columnwise is_in_place : bool)
    (_transformers : option (dict Transformer)) : M world unit :=
  s <~ get_self ;; d <~ get_data ;;
  cs <~ lift (sel s d) ;;
  set_columns cs ;;;
  (if columnwise then
     set_fields (IsStepSklearn sklearn_transform columnwise is_in_place (Some [])) ;;;
     for_in cs StepSklearn_fit_column
   else
     x <~ lift (sklearn_inputs d cs) ;;
     t' <~ lift (transformer_fit sklearn_transform (Columns x)) ;;
     set_fields (IsStepSklearn t' columnwise is_in_place _transformers)) ;;;
  set_trained true.

(** Decimal digits of a natural number, as [str] prints it. *)
Definition str_of_nat (n : nat) : string := NilEmpty.string_of_uint (Nat.to_uint n).

(** [[f'{prefix}_{i+1}' for i in range(n)]] *)
Definition numbered (prefix : string) (n : nat) : list string :=
  map (fun i => String.append prefix (String.append "_" (str_of_nat (i + 1)))) (seq 0 n).

(** The body of the columnwise loop of [StepSklearn.transform]. *)
Definition StepSklearn_transform_column (is_in_place : bool) (col : string) : M world unit :=
  s <~ get_self ;; d <~ get_data ;;
  match fields_of s with
  | IsStepSklearn t _ _ trs =>
      fitted <~ lift (match trs with
                      | Some fitted => Ok fitted
                      | None => Raise (AttributeError "_transformers")
                      end) ;;
      tc <~ lift (match dict_get fitted col with
                  | Some tc => Ok tc
                  | None => Raise (KeyError col)
                  end) ;;
      x <~ lift (sklearn_input d col) ;;
      new_cols <~ lift (transformer_transform tc (Series x)) ;;
      let col_names :=
        if is_in_place then [col]
        else numbered (String.append (class_name t) (String.append "_" col))
                      (List.length new_cols) in
      f' <~ lift (setitems (frame_of d) col_names new_cols) ;;
      set_data (with_frame d f')
  | _ => raise (AttributeError "sklearn_transform")
  end.

(** [StepSklearn.transform] *)
Definition StepSklearn_transform (sklearn_transform : Transformer)
    (columnwise is_in_place : bool) : M world (option table) :=
  s <~ get_self ;;
  (if columnwise then
     for_in (columns s) (StepSklearn_transform_column is_in_place)
   else
     d <~ get_data ;;
     x <~ lift (sklearn_inputs d (columns s)) ;;
     new_cols <~ lift (transformer_transform sklearn_transform (Columns x)) ;;
     let col_names :=
       if is_in_place then columns s
       else numbered (class_name sklearn_transform) (List.length new_cols) in
     f' <~ lift (setitems (frame_of d) col_names new_cols) ;;
     set_data (with_frame d f')) ;;;
  d' <~ get_data ;;
  ret (Some d').

(** [self.fit(data)]: the method of the object's class. *)
Definition fit : M world unit :=
  s <~ get_self ;;
  match fields_of s with
  | IsStep => Step_fit
  | IsStepImputeFill _ _ _ => StepImputeFill_fit
  | IsStepScale with_mean with_std _ => StepScale_fit with_mean with_std
  | IsStepHistorical _ _ _ => StepHistorical_fit
  | IsStepSklearn t cw ip trs => StepSklearn_fit t cw ip trs
  end.

(** [self.transform(data)]: the method of the object's class. *)
Definition transform : M world (option table) :=
  s <~ get_self ;;
  match fields_of s with
  | IsStep => Step_transform
  | IsStepImputeFill value method limit => StepImputeFill_transform value method limit
  | IsStepScale _ _ scalers => StepScale_transform scalers
  | IsStepHistorical fun_ suffix role => StepHistorical_transform fun_ suffix role
  | IsStepSklearn t cw ip _ => StepSklearn_transform t cw ip
  end.

(** [Step.fit_transform], which no subclass overrides. *)
Definition fit_transform : M world (option table) :=
  fit ;;; transform.

End WithTabular.
End Recipes.

(* ================================================================== *)
(** ** What the properties below speak about *)
(* ================================================================== *)

Module DLSpec.
Section WithTorch.
Context {T : Torch}.

(** The validation loss of the wrapper's current encoder: one [evaluate]
    pass over the validation loader, as [train] runs it. *)
Definition validation_loss (self : DLWrapper.t) (val_dataset : dataset Data)
    (args : DLWrapper.train_args) (w : weight) : result Q :=
  ms <- DLWrapper.require (DLWrapper.metrics self) (AttributeError "metrics") ;;
  '(l, _) <- DLWrapper.evaluate self
               (loader val_dataset (DLWrapper.batch_size args) None) ms w ;;
  Ok l.




(** [b] is [a] with possibly another encoder state: training changes
    nothing else of the wrapper. *)
Definition same_frame (a b : DLWrapper.t) : Prop :=
  DLWrapper.set_encoder a (DLWrapper.encoder b) = b.

(** What the epoch loop of [train] maintains, for a run started from the
    wrapper [self0] (metrics set) with the resolved weight [w]:
    the wrapper changes in its encoder only; once [best_metrics] is bound the
    best loss is finite; and, when weights are saved, the checkpoint file
    holds an encoder state whose validation loss is the best loss. *)
Definition loop_invariant (args : DLWrapper.train_args) (val_dataset : dataset Data)
    (w : weight) (ms : dict metric) (self0 : DLWrapper.t) (st : DLWrapper.loop_state) : Prop :=
  same_frame self0 (DLWrapper.self_of st) /\
  (DLWrapper.best_metrics st <> None -> exists b, DLWrapper.best_loss st = Fin b) /\
  (DLWrapper.save_weights args = true ->
   forall b, DLWrapper.best_loss st = Fin b ->
     exists e m res,
       DLWrapper.model_torch (DLWrapper.files_of st) = Some (e, m) /\
       DLWrapper.evaluate (DLWrapper.set_encoder self0 m)
         (loader val_dataset (DLWrapper.batch_size args) None) ms w = Ok (b, res)).


End WithTorch.
End DLSpec.

Module MLSpec.





End MLSpec.

Module RecipeSpec.
Section WithTabular.
Context {B : Tabular}.
Import Recipes.





(** A method body that leaves the selector, the resolved columns and the
    trained flag of the step as they are. *)
Definition keeps_resolution {A : Type} (m : M world A) : Prop :=
  forall w,
    sel (self (fst (m w))) = sel (self w) /\
    columns (self (fst (m w))) = columns (self w) /\
    _trained (self (fst (m w))) = _trained (self w).


End WithTabular.
End RecipeSpec.

(* ================================================================== *)
(** ** Concrete collaborators, for running the definitions *)
(* ================================================================== *)

(** An encoder with one output unit whose prediction after [m] optimizer
    steps is the [m]-th entry of [curve]; the loss of a batch is the
    prediction itself. *)
Definition curve_torch (curve : list Q) : Torch :=
  {| Model := nat;
     Data := unit;
     out_features := fun _ => 1;
     forward := fun m _ _ => EncTensor {| width := 1; rows := [[nth (pred m) curve 0%Q]] |};
     loss_fn := fun c => match c with
                         | LossRegr col _ => DLWrapper.Qsum col
                         | LossClass _ _ _ => 0%Q
                         end;
     backward_step := fun m _ _ => S m;
     softmax := fun r => r;
     metric_compute := fun _ _ => Ok (MFloat (Fin 0%Q)) |}.

(** A dataset whose loader delivers one [(features, labels)] element. *)
Definition one_batch : dataset unit :=
  {| loader := fun _ _ => [[ItemData tt; ItemTensor [0%Q]]];
     get_balance := [(1 # 2)%Q; 2%Q] |}.

Definition no_files {T : Torch} : DLWrapper.files :=
  {| DLWrapper.model_torch := None; DLWrapper.best_metrics_json := None;
     DLWrapper.test_metrics_json := None; DLWrapper.val_metrics_shared := [];
     DLWrapper.test_metrics_shared := [] |}.

(** A fresh wrapper on the CPU with its log directory set. *)
Definition fresh_wrapper (curve : list Q) : @DLWrapper.t (curve_torch curve) :=
  DLWrapper.set_logdir (@DLWrapper.init (curve_torch curve) false false 0 false) "run".

Definition run_curve (curve : list Q) (args : DLWrapper.train_args) :=
  @DLWrapper.train (curve_torch curve) (fresh_wrapper curve) no_files one_batch one_batch
    WNone 0%Z args.

(** Keyword arguments of the example runs. *)
Definition args_of (n_epochs patience_ : Z) (delta : Q) : DLWrapper.train_args :=
  {| DLWrapper.epochs := n_epochs; DLWrapper.batch_size := 64;
     DLWrapper.patience := patience_; DLWrapper.min_delta := delta;
     DLWrapper.save_weights := true |}.


(** A stub encoder with [n] output units: it emits one all-zero row, and its
    loss reports which weight it was handed (the sum of a weight tensor, and
    [-1] for a weight that is still a string). *)
Definition stub_torch (n : nat) : Torch :=
  {| Model := unit;
     Data := unit;
     out_features := fun _ => n;
     forward := fun _ _ _ => EncTensor {| width := n; rows := [repeat 0%Q n] |};
     loss_fn := fun c => match c with
                         | LossClass _ _ (WTensor _ l) => DLWrapper.Qsum l
                         | LossClass _ _ (WStr _) => (-1)%Q
                         | _ => 0%Q
                         end;
     backward_step := fun m _ _ => m;
     softmax := fun r => r;
     metric_compute := fun _ _ => Ok (MFloat (Fin 0%Q)) |}.

Definition stub_wrapper (n : nat) : @DLWrapper.t (stub_torch n) :=
  DLWrapper.set_logdir (@DLWrapper.init (stub_torch n) false false tt false) "run".

(** The recorded value is a finite float equal to [q]. *)
Definition is_loss (o : option metric_value) (q : Q) : Prop :=
  match o with
  | Some (MFloat (Fin x)) => (x == q)%Q
  | _ => False
  end.

(** The loss that a [test] run wrote to [test_metrics.json]. *)
Definition recorded_test_loss {T : Torch} (r : result (DLWrapper.t * DLWrapper.files))
  : option metric_value :=
  match r with
  | inr (_, fs) =>
      match DLWrapper.test_metrics_json fs with
      | Some res => dict_get res "loss"
      | None => None
      end
  | inl _ => None
  end.

(** The loss that a [train] run wrote to [best_metrics.json]. *)
Definition recorded_best_loss {T : Torch}
    (r : result (DLWrapper.t * DLWrapper.files * list DLWrapper.epoch_record))
  : option metric_value :=
  match r with
  | inr (_, fs, _) =>
      match DLWrapper.best_metrics_json fs with
      | Some res => dict_get res "loss"
      | None => None
      end
  | inl _ => None
  end.




(** The running maximum of a column, missing values skipped. *)
Fixpoint running_max (best : option Q) (col : column) : column :=
  match col with
  | [] => []
  | None :: rest => None :: running_max best rest
  | Some x :: rest =>
      let m := match best with
               | Some b => if Qle_bool x b then b else x
               | None => x
               end in
      Some m :: running_max (Some m) rest
  end.

(** Small stand-ins for pandas and sklearn: filling with the value,
    running extrema over the whole column, a scaler that subtracts the first
    value present, and a transformer that adds its parameter, fitted to 1. *)
Definition toy_tabular : Tabular :=
  {| fillna := fun _ cs v _ _ =>
       Ok (map (map (fun c : option Q => match c with Some x => Some x | None => v end)) cs);
     cummax := fun _ cs => map (running_max None) cs;
     cummin := fun _ cs => cs;
     FittedScaler := Q;
     standard_scaler_fit := fun _ _ col =>
       match filter (fun c : option Q => match c with Some _ => true | None => false end) col
       with
       | Some x :: _ => Ok x
       | _ => Raise (Exception "no value to fit")
       end;
     standard_scaler_transform := fun m col =>
       Ok (map (option_map (fun x => (x - m)%Q)) col);
     Transformer := Q;
     class_name := fun _ => "Shift";
     transformer_fit := fun _ _ => Ok 1%Q;
     transformer_transform := fun t x =>
       match x with
       | Series c => Ok [map (option_map (Qplus t)) c]
       | Columns cs => Ok (map (map (option_map (Qplus t))) cs)
       end |}.

(** A selector that picks every column of the table. *)
Definition all_columns : selector :=
  fun d => Ok (keys (cols (match d with Plain f => f | Grouped _ f => f end))).


Definition vitals : frame :=
  {| cols := [("hr", [Some 3%Q; None; Some 4%Q; Some 1%Q]);
              ("bp", [None; Some 2%Q; None; Some 5%Q])];
     roles := [("hr", ["predictor"]); ("bp", ["predictor"])] |}.

Definition grouped_vitals : table := Grouped [0; 0; 1; 1] vitals.

Definition impute_world : @Recipes.world toy_tabular :=
  {| Recipes.self := @Recipes.StepImputeFill_init toy_tabular all_columns (Some 0%Q) None None;
     Recipes.data := grouped_vitals |}.

Definition scale_world : @Recipes.world toy_tabular :=
  {| Recipes.self := @Recipes.StepScale_init toy_tabular all_columns true true;
     Recipes.data := Plain vitals |}.

Definition historical_world : @Recipes.world toy_tabular :=
  {| Recipes.self := @Recipes.StepHistorical_init toy_tabular all_columns "max" None "predictor";
     Recipes.data := grouped_vitals |}.

Definition sklearn_world (columnwise : bool) : @Recipes.world toy_tabular :=
  {| Recipes.self := @Recipes.StepSklearn_init toy_tabular all_columns 0%Q columnwise true;
     Recipes.data := Plain vitals |}.

(* ================================================================== *)
(** ** Further notions used by the properties of [DLWrapper] *)
(* ================================================================== *)

Module DLMore.
Section WithTorch.
Context {T : Torch}.

(** The tensor part of what the encoder returns. *)
Definition out_of (o : enc_out) : tensor2 :=
  match o with
  | EncTensor out => out
  | EncTuple out _ => out
  end.

(** The encoder of the wrapper has at most one output unit, whatever it is
    given. *)
Definition single_output (self : DLWrapper.t) : Prop :=
  forall (training : bool) (d : Data),
    width (out_of (forward (DLWrapper.encoder self) training d)) <= 1.

(** Two tensors of the same shape agree wherever the mask is true. *)
Fixpoint agree_where {A : Type} (mask : list bool) (xs ys : list A) : Prop :=
  match mask, xs, ys with
  | [], [], [] => True
  | b :: mask', x :: xs', y :: ys' => (b = true -> x = y) /\ agree_where mask' xs' ys'
  | _, _, _ => False
  end.

(** The optimizer steps of one pass over the loader, in order. *)
Definition optimizer_steps (m : Model) (batches : list (element Data)) (w : weight) : Model :=
  fold_left (fun m' elem => backward_step m' elem w) batches m.

(** The counter of an executed epoch. *)
Definition counter_of (r : DLWrapper.epoch_record) : Z :=
  DLWrapper.epoch_no_improvement (DLWrapper.er_after r).

End WithTorch.
End DLMore.

(** Keyword arguments of an example run that does not save weights. *)
Definition args_without_saving (n_epochs : Z) : DLWrapper.train_args :=
  {| DLWrapper.epochs := n_epochs; DLWrapper.batch_size := 64; DLWrapper.patience := 10;
     DLWrapper.min_delta := 0; DLWrapper.save_weights := false |}.

(** Files in which an earlier run left the checkpoint of its epoch 7, an
    encoder after 42 optimizer steps. *)
Definition stale_files (curve : list Q) : @DLWrapper.files (curve_torch curve) :=
  {| DLWrapper.model_torch := Some (7, (42 : @Model (curve_torch curve)));
     DLWrapper.best_metrics_json := None;
     DLWrapper.test_metrics_json := None; DLWrapper.val_metrics_shared := [];
     DLWrapper.test_metrics_shared := [] |}.

(* ================================================================== *)
(** ** Further notions used by the properties of the recipe steps *)
(* ================================================================== *)

Module RecipeMore.
Section WithTabular.
Context {B : Tabular}.
Import Recipes.

(** The object is a [StepImputeFill] or a [StepHistorical]: the two classes
    whose methods read [data.obj]. *)
Definition reads_obj (s : step) : Prop :=
  match fields_of s with
  | IsStepImputeFill _ _ _ | IsStepHistorical _ _ _ => True
  | _ => False
  end.

(** The object is a [StepImputeFill], a [StepScale] or a [StepHistorical]. *)
Definition refits_from_scratch (s : step) : Prop :=
  match fields_of s with
  | IsStepImputeFill _ _ _ | IsStepScale _ _ _ | IsStepHistorical _ _ _ => True
  | _ => False
  end.

(** The names of the columns a [StepHistorical] derives. *)
Definition derived_names (suffix : string) (cs : list string) : list string :=
  map (fun c => String.append c (String.append "_" suffix)) cs.

(** The table after each of the names was tagged with the role, in order. *)
Definition tag_all (role : string) (names : list string) (f : frame) : frame :=
  fold_left (fun f' nc => add_role f' nc role) names f.

(** The table with one column replaced, behind the same handle. *)
Definition with_column (w : world) (c : string) (col : column) : world :=
  {| self := self w; data := with_frame (data w) (setitem (frame_of (data w)) c col) |}.

End WithTabular.
End RecipeMore.

(** An imputation step fitted on a table that also had a column ["spo2"],
    now handed the grouped table without it. *)
Definition impute_world_after_schema_change : @Recipes.world toy_tabular :=
  {| Recipes.self :=
       {| Recipes.sel := all_columns; Recipes.columns := ["hr"; "spo2"];
          Recipes._trained := true; Recipes._group := true;
          Recipes.fields_of := Recipes.IsStepImputeFill (Some 0%Q) None None |};
     Recipes.data := grouped_vitals |}.

(** A scaling step fitted on ["hr"] and ["spo2"], handed the ungrouped table
    without the second column. *)
Definition scale_world_after_schema_change : @Recipes.world toy_tabular :=
  {| Recipes.self :=
       {| Recipes.sel := all_columns; Recipes.columns := ["hr"; "spo2"];
          Recipes._trained := true; Recipes._group := false;
          Recipes.fields_of :=
            @Recipes.IsStepScale toy_tabular true true (Some [("hr", 3%Q); ("spo2", 90%Q)]) |};
     Recipes.data := Plain vitals |}.

(** A transformer step over the whole table that writes its result under
    new names. *)
Definition sklearn_appending_world : @Recipes.world toy_tabular :=
  {| Recipes.self := @Recipes.StepSklearn_init toy_tabular all_columns 0%Q false false;
     Recipes.data := Plain vitals |}.

(* ================================================================== *)
(** ** [MLWrapper]: training, testing and the model files *)
(* ================================================================== *)

(** The object behind [self.model] and the libraries called on it (lightgbm,
    sklearn, joblib, numpy). A method that changes the object returns the
    object after the call. *)
Class Learner : Type := {
  (** what [self.model] can be *)
  Obj : Type;
  (** the features of a dataset *)
  Rep : Type;
  (** the content of a model file *)
  Dump : Type;
  (** [isinstance(model, lightgbm.basic.Booster)] *)
  is_booster : Obj -> bool;
  (** [model.get_params().keys()] *)
  param_names : Obj -> result (list string);
  (** [model.set_params(class_weight=weight)] *)
  set_class_weight : Obj -> weight -> result Obj;
  (** [inspect.getfullargspec(model.fit).args] *)
  fit_args : Obj -> result (list string);
  (** [np.random.get_state()[1][0]] *)
  np_random_state : Z;
  (** [model.set_params(random_state=...)] *)
  set_random_state : Obj -> Z -> result Obj;
  (** [model.fit(X, y, eval_set=(Xv, yv), callbacks=[early_stopping(patience), ...])] *)
  fit_eval_set : Obj -> Rep -> list Q -> Rep -> list Q -> Z -> result Obj;
  (** [model.fit(X, y)] *)
  fit : Obj -> Rep -> list Q -> result Obj;
  (** [list(model.best_score_["valid_0"].values())[0]] *)
  first_best_score : Obj -> result Q;
  (** [model.predict(X)] and [model.predict_proba(X)] *)
  predict : Obj -> Rep -> result MLWrapper.ndarray;
  predict_proba : Obj -> Rep -> result MLWrapper.ndarray;
  (** [metric(labels, predictions)] for an sklearn metric function *)
  metric_call : MLWrapper.metric_fn -> MLWrapper.ndarray -> MLWrapper.ndarray
                -> result metric_value;
  (** [model.booster_.save_model(path)]: the content written *)
  booster_save_model : Obj -> result Dump;
  (** [joblib.dump(model, path)]: the content written *)
  joblib_dump : Obj -> result Dump;
  (** [lightgbm.Booster(model_file=path)], given what the file holds *)
  booster_from_file : option Dump -> result Obj;
  (** [joblib.load(f)] *)
  joblib_load : Dump -> result Obj
}.

Module MLWrapperRun.

(** A file path: the directory and the file name. *)
Record path : Type := { parent : string; name : string }.

Definition path_eqb (p q : path) : bool :=
  String.eqb (parent p) (parent q) && String.eqb (name p) (name q).

(** [os.path.join(dir, file)] for a file name. *)
Definition os_path_join (dir file : string) : path := {| parent := dir; name := file |}.

(** [os.path.join(dir, "..")], as a directory. *)
Definition up (dir : string) : string := String.append dir "/..".

(** [s.rfind(".")], positions counted from [i]. *)
Fixpoint rfind_dot (s : string) (i : nat) : option nat :=
  match s with
  | EmptyString => None
  | String c rest =>
      match rfind_dot rest (S i) with
      | Some j => Some j
      | None => if String.eqb (String c EmptyString) "." then Some i else None
      end
  end.

(** [load_path.suffix] of [pathlib]: the file name from its last dot on,
    unless that dot is its first or its last character. *)
Definition suffix (p : path) : string :=
  match rfind_dot (name p) 0 with
  | Some i =>
      if Nat.ltb 0 i && Nat.ltb i (String.length (name p) - 1)
      then substring i (String.length (name p) - i) (name p)
      else EmptyString
  | None => EmptyString
  end.

(** [k in names] *)
Definition has (k : string) (names : list string) : bool := existsb (String.eqb k) names.

Section WithLearner.
Context {L : Learner}.

Record t : Type := {
  model : Obj;
  scaler : option Scaler;
  logdir : option string;
  output_transform : option MLWrapper.transform;
  label_transform : option MLWrapper.transform;
  metrics : option (dict MLWrapper.metric_fn)
}.

(** The files: model files, the JSON records of a run, and the JSON files
    shared by the seeds. *)
Record files : Type := {
  model_files : path -> option Dump;
  json_files : path -> option results;
  shared_files : path -> list (Z * results)
}.

(** What a dataset gives: [get_data_and_labels()]. *)
Record mldataset : Type := { get_data_and_labels : Rep * list Q }.

Record world : Type := { self : t; files_of : files }.

(** [__init__] *)
Definition init (m : Obj) : t :=
  {| model := m; scaler := None; logdir := None; output_transform := None;
     label_transform := None; metrics := None |}.

Definition set_logdir (s : t) (dir : string) : t :=
  {| model := model s; scaler := scaler s; logdir := Some dir;
     output_transform := output_transform s; label_transform := label_transform s;
     metrics := metrics s |}.

Definition with_model (s : t) (m : Obj) : t :=
  {| model := m; scaler := scaler s; logdir := logdir s;
     output_transform := output_transform s; label_transform := label_transform s;
     metrics := metrics s |}.

(** The wrapper as [set_metrics] and the stored lambdas read it. *)
Definition view (s : t) : MLWrapper.t :=
  {| MLWrapper.model := if is_booster (model s) then MLWrapper.Booster else MLWrapper.Estimator;
     MLWrapper.scaler := scaler s; MLWrapper.logdir := logdir s;
     MLWrapper.output_transform := output_transform s;
     MLWrapper.label_transform := label_transform s;
     MLWrapper.metrics := metrics s |}.

(** [set_metrics] *)
Definition set_metrics (s : t) (labels : list Q) : t :=
  let v := MLWrapper.set_metrics (view s) labels in
  {| model := model s; scaler := scaler s; logdir := logdir s;
     output_transform := MLWrapper.output_transform v;
     label_transform := MLWrapper.label_transform v;
     metrics := MLWrapper.metrics v |}.

Definition get_self : M world t := fun w => (w, Ok (self w)).
Definition get_files : M world files := fun w => (w, Ok (files_of w)).

Definition set_self (s : t) : M world unit :=
  modify (fun w => {| self := s; files_of := files_of w |}).

Definition set_files (fs : files) : M world unit :=
  modify (fun w => {| self := self w; files_of := fs |}).

(** [self.model = m], and a method that changed [self.model] in place. *)
Definition set_model (m : Obj) : M world unit :=
  s <~ get_self ;; set_self (with_model s m).

(** Reading an attribute that may not have been set. *)
Definition attr {A : Type} (o : option A) (a : string) : result A :=
  match o with
  | Some x => Ok x
  | None => Raise (AttributeError a)
  end.

(** Writing the model file at a path. *)
Definition write_model (p : path) (d : Dump) : M world unit :=
  fs <~ get_files ;;
  set_files {| model_files := fun q => if path_eqb q p then Some d else model_files fs q;
               json_files := json_files fs; shared_files := shared_files fs |}.

(** [with open(p, "w") as f: json.dump(res, f, cls=JsonMetricsEncoder)] *)
Definition json_dump (p : path) (res : results) : M world unit :=
  fs <~ get_files ;;
  set_files {| model_files := model_files fs;
               json_files := fun q => if path_eqb q p then Some res else json_files fs q;
               shared_files := shared_files fs |}.

(** [append_results(p, res, seed)] on the shared file at [p]. *)
Definition append_results (p : path) (res : results) (seed : Z) : M world unit :=
  fs <~ get_files ;;
  set_files {| model_files := model_files fs; json_files := json_files fs;
               shared_files := fun q => if path_eqb q p
                                        then DLWrapper.append_results (shared_files fs p) res seed
                                        else shared_files fs q |}.

(** [save_weights(save_path, model_type)] *)
Definition save_weights (save_path : path) (model_type : string) : M world unit :=
  s <~ get_self ;;
  if String.eqb model_type "lgbm" then
    d <~ lift (booster_save_model (model s)) ;; write_model save_path d
  else
    d <~ lift (joblib_dump (model s)) ;; write_model save_path d.

(** [load_weights(load_path)] *)
Definition load_weights (load_path : path) : M world unit :=
  fs <~ get_files ;;
  if String.eqb (suffix load_path) ".txt" then
    m <~ lift (booster_from_file (model_files fs load_path)) ;; set_model m
  else
    match model_files fs load_path with
    | None => raise (FileNotFoundError (name load_path))
    | Some d => m <~ lift (joblib_load d) ;; set_model m
    end.

(** [metric(self.label_transform(label), self.output_transform(pred))] *)
Definition call_metric (s : t) (metric : MLWrapper.metric_fn) (label : list Q)
    (pred : MLWrapper.ndarray) : result metric_value :=
  lt <- attr (label_transform s) "label_transform" ;;
  y <- MLWrapper.apply_transform (view s) lt (MLWrapper.Arr1 label) ;;
  ot <- attr (output_transform s) "output_transform" ;;
  p <- MLWrapper.apply_transform (view s) ot pred ;;
  metric_call metric y p.

(** The metric loop of [train]; the accumulator holds
    [train_metric_results] and [val_metric_results]. The log strings built
    along the way are not modelled. *)
Definition train_metrics (s : t) (ms : dict MLWrapper.metric_fn)
    (train_label : list Q) (train_pred : MLWrapper.ndarray)
    (val_label : list Q) (val_pred : MLWrapper.ndarray)
    (acc : results * results) : result (results * results) :=
  for_each (fun (acc : results * results) (nm : string * MLWrapper.metric_fn) =>
              tv <- call_metric s (snd nm) train_label train_pred ;;
              vv <- call_metric s (snd nm) val_label val_pred ;;
              Ok (dict_set (fst acc) (fst nm) tv, dict_set (snd acc) (fst nm) vv))
           ms acc.

(** The metric loop of [test]. *)
Definition test_metrics (s : t) (ms : dict MLWrapper.metric_fn)
    (test_label : list Q) (test_pred : MLWrapper.ndarray) (acc : results) : result results :=
  for_each (fun (acc : results) (nm : string * MLWrapper.metric_fn) =>
              v <- call_metric s (snd nm) test_label test_pred ;;
              Ok (dict_set acc (fst nm) v))
           ms acc.

(** The fitting part of [train]: the validation loss and [model_type]. *)
Definition fit_model (train_rep : Rep) (train_label : list Q) (val_rep : Rep)
    (val_label : list Q) (patience : Z) : M world (Q * string) :=
  s <~ get_self ;;
  args <~ lift (fit_args (model s)) ;;
  if has "eval_set" args then
    m1 <~ lift (set_random_state (model s) np_random_state) ;;
    set_model m1 ;;;
    m2 <~ lift (fit_eval_set m1 train_rep train_label val_rep val_label patience) ;;
    set_model m2 ;;;
    val_loss <~ lift (first_best_score m2) ;;
    ret (val_loss, "lgbm")
  else
    m1 <~ lift (fit (model s) train_rep train_label) ;;
    set_model m1 ;;;
    ret (0%Q, "sklearn").

(** [train] *)
Definition train (train_dataset val_dataset : mldataset) (w : weight) (seed : Z)
    (patience : Z) (save : bool) : M world unit :=
  let train_rep := fst (get_data_and_labels train_dataset) in
  let train_label := snd (get_data_and_labels train_dataset) in
  let val_rep := fst (get_data_and_labels val_dataset) in
  let val_label := snd (get_data_and_labels val_dataset) in
  s <~ get_self ;;
  set_self (set_metrics s train_label) ;;;
  s <~ get_self ;;
  ms <~ lift (attr (metrics s) "metrics") ;;
  names <~ lift (param_names (model s)) ;;
  (if has "class_weight" names then
     m <~ lift (set_class_weight (model s) w) ;; set_model m
   else ret tt) ;;;
  fitted <~ fit_model train_rep train_label val_rep val_label patience ;;
  s <~ get_self ;;
  ms' <~ lift (attr (metrics s) "metrics") ;;
  preds <~ lift (if has "MAE" (keys ms') then
                   val_pred <- predict (model s) val_rep ;;
                   train_pred <- predict (model s) train_rep ;;
                   Ok (val_pred, train_pred)
                 else
                   val_pred <- predict_proba (model s) val_rep ;;
                   train_pred <- predict_proba (model s) train_rep ;;
                   Ok (val_pred, train_pred)) ;;
  res <~ lift (train_metrics s ms train_label (snd preds) val_label (fst preds)
                 ([], [("loss", MFloat (Fin (fst fitted)))])) ;;
  (if save then
     dir <~ lift (attr (logdir s) "logdir") ;;
     if String.eqb (snd fitted) "lgbm"
     then save_weights (os_path_join dir "model.txt") (snd fitted)
     else save_weights (os_path_join dir "model.joblib") (snd fitted)
   else ret tt) ;;;
  dir <~ lift (attr (logdir s) "logdir") ;;
  json_dump (os_path_join dir "val_metrics.json") (snd res) ;;;
  dir' <~ lift (attr (logdir s) "logdir") ;;
  append_results (os_path_join (up dir') "val_metrics.json") (snd res) seed.

(** [test] *)
Definition test (dataset : mldataset) (seed : Z) (w : weight) : M world unit :=
  let test_rep := fst (get_data_and_labels dataset) in
  let test_label := snd (get_data_and_labels dataset) in
  s <~ get_self ;;
  set_self (set_metrics s test_label) ;;;
  s <~ get_self ;;
  ms <~ lift (attr (metrics s) "metrics") ;;
  test_pred <~ lift (if has "MAE" (keys ms) || is_booster (model s)
                     then predict (model s) test_rep
                     else predict_proba (model s) test_rep) ;;
  res <~ lift (test_metrics s ms test_label test_pred []) ;;
  dir <~ lift (attr (logdir s) "logdir") ;;
  json_dump (os_path_join dir "test_metrics.json") res ;;;
  dir' <~ lift (attr (logdir s) "logdir") ;;
  append_results (os_path_join (up dir') "test_metrics.json") res seed.

End WithLearner.
End MLWrapperRun.

(** Small stand-ins for lightgbm, sklearn and joblib: a boosting classifier,
    a plain estimator and a reloaded booster; the features are one score per
    row, and every metric is the number of predictions it is given. *)
Inductive toy_model : Type :=
| ToyLGBM (fitted : bool)
| ToyRidge (fitted : bool)
| ToyBooster.

Definition toy_learner : Learner :=
  {| Obj := toy_model;
     Rep := list Q;
     Dump := toy_model;
     is_booster := fun m => match m with ToyBooster => true | _ => false end;
     param_names := fun m =>
       match m with
       | ToyLGBM _ => Ok ["class_weight"; "random_state"]
       | ToyRidge _ => Ok ["alpha"]
       | ToyBooster => Raise (AttributeError "get_params")
       end;
     set_class_weight := fun m _ => Ok m;
     fit_args := fun m =>
       match m with
       | ToyLGBM _ => Ok ["self"; "X"; "y"; "eval_set"]
       | ToyRidge _ => Ok ["self"; "X"; "y"]
       | ToyBooster => Raise (AttributeError "fit")
       end;
     np_random_state := 0%Z;
     set_random_state := fun m _ => Ok m;
     fit_eval_set := fun m _ _ _ _ _ =>
       match m with
       | ToyLGBM _ => Ok (ToyLGBM true)
       | _ => Raise (TypeError "eval_set")
       end;
     fit := fun m _ _ =>
       match m with
       | ToyLGBM _ => Ok (ToyLGBM true)
       | ToyRidge _ => Ok (ToyRidge true)
       | ToyBooster => Raise (AttributeError "fit")
       end;
     first_best_score := fun _ => Ok (1 # 4)%Q;
     predict := fun _ x => Ok (MLWrapper.Arr1 x);
     predict_proba := fun m x =>
       match m with
       | ToyBooster => Raise (AttributeError "predict_proba")
       | _ => Ok (MLWrapper.Arr2 (map (fun p => [(1 - p)%Q; p]) x))
       end;
     metric_call := fun _ _ p =>
       Ok (MFloat (Fin (inject_Z (Z.of_nat (List.length (MLWrapper.flatten p))))));
     booster_save_model := fun m =>
       match m with
       | ToyLGBM true => Ok ToyBooster
       | _ => Raise (AttributeError "booster_")
       end;
     joblib_dump := fun m => Ok m;
     booster_from_file := fun d =>
       match d with
       | Some ToyBooster => Ok ToyBooster
       | _ => Raise (Exception "could not load the model file")
       end;
     joblib_load := fun d => Ok d |}.

Definition no_ml_files : @MLWrapperRun.files toy_learner :=
  {| MLWrapperRun.model_files := fun _ => None;
     MLWrapperRun.json_files := fun _ => None;
     MLWrapperRun.shared_files := fun _ => [] |}.

(** Two rows with labels 0 and 1. *)
Definition binary_rows : @MLWrapperRun.mldataset toy_learner :=
  {| MLWrapperRun.get_data_and_labels :=
       (([(1 # 4)%Q; (3 # 4)%Q] : @Rep toy_learner), [0%Q; 1%Q]) |}.

(** A wrapper around the object [m], its log directory set to ["run/seed_0"]. *)
Definition ml_world (m : toy_model) : @MLWrapperRun.world toy_learner :=
  {| MLWrapperRun.self :=
       MLWrapperRun.set_logdir (@MLWrapperRun.init toy_learner m) "run/seed_0";
     MLWrapperRun.files_of := no_ml_files |}.

(** The same wrapper before [set_logdir] was called. *)
Definition ml_world_without_logdir (m : toy_model) : @MLWrapperRun.world toy_learner :=
  {| MLWrapperRun.self := @MLWrapperRun.init toy_learner m;
     MLWrapperRun.files_of := no_ml_files |}.

(* ================================================================== *)
(** ** Further notions used by the properties of [MLWrapper] *)
(* ================================================================== *)

Module MLMore.
Section WithLearner.
Context {L : Learner}.
Import MLWrapperRun.

(** The object on which [train] calls [fit]: [self.model], after its class
    weight was set if it has that parameter. *)
Definition object_to_fit (s : t) (w : weight) : result Obj :=
  names <- param_names (model s) ;;
  if has "class_weight" names then set_class_weight (model s) w else Ok (model s).

(** Whether the [fit] that [train] calls takes [eval_set]: the test by which
    [train] tells a boosting model from any other. *)
Definition takes_eval_set (s : t) (w : weight) : result bool :=
  m0 <- object_to_fit s w ;;
  args <- fit_args m0 ;;
  Ok (has "eval_set" args).

(** The model file [train] writes into the directory. *)
Definition model_file (dir : string) (lgbm : bool) : path :=
  os_path_join dir (if lgbm then "model.txt" else "model.joblib").

(** The store after [self.model = m]. *)
Definition with_loaded (w : world) (m : Obj) : world :=
  {| self := with_model (self w) m; files_of := files_of w |}.

End WithLearner.
End MLMore.

(* ================================================================== *)
(** * Properties *)
(* ================================================================== *)

(** ** Sequencing *)

Lemma bind_ok {A B : Type} (r : result A) (k : A -> result B) (b : B) :
  bind r k = inr b -> exists a, r = inr a /\ k a = inr b.
Proof.
  destruct r as [e | a]; simpl; intros H.
  - discriminate.
  - exists a; split; [reflexivity | exact H].
Qed.

Lemma bind_congr {A B : Type} (r : result A) (k k' : A -> result B) :
  (forall a, k a = k' a) -> bind r k = bind r k'.
Proof.
  intros H; destruct r as [e | a]; simpl; [reflexivity | apply H].
Qed.

Lemma bind_raise {A B : Type} (r : result A) (k : A -> result B) :
  raises r -> raises (bind r k).
Proof.
  destruct r; simpl; intros H; [exact I | destruct H].
Qed.

(** A property that every loop body preserves holds when the loop returns. *)
Lemma for_each_preserves {A S : Type} (P : S -> Prop) (body : S -> A -> result S) :
  (forall acc x acc', P acc -> body acc x = inr acc' -> P acc') ->
  forall xs acc acc', P acc -> for_each body xs acc = inr acc' -> P acc'.
Proof.
  intros Hbody xs; induction xs as [| x rest IH]; simpl; intros acc acc' HP H.
  - injection H as <-; exact HP.
  - apply bind_ok in H; destruct H as (acc1 & Hx & Hrest).
    eapply IH; [eapply Hbody; eassumption | exact Hrest].
Qed.


(** ** Order on losses *)




(** ** The epoch loop of [DLWrapper.train] *)

Section TrainLoop.
Import DLWrapper DLSpec.
Context {T : Torch}.

Lemma set_encoder_twice (a : DLWrapper.t) (m m' : Model) :
  set_encoder (set_encoder a m) m' = set_encoder a m'.
Proof. reflexivity. Qed.

Lemma same_frame_refl (a : DLWrapper.t) : same_frame a a.
Proof. destruct a; reflexivity. Qed.

Lemma same_frame_step (a b : DLWrapper.t) (m : Model) :
  same_frame a b -> same_frame a (set_encoder b m).
Proof.
  unfold same_frame; intros H; rewrite <- H; reflexivity.
Qed.

(** A training pass changes the encoder state and nothing else. *)
Lemma _do_training_same_frame (self self' : DLWrapper.t) (l : list (element Data))
    (w : weight) (ms : dict metric) (loss : Q) (res : results) :
  _do_training self l w ms = inr (self', loss, res) -> same_frame self self'.
Proof.
  unfold _do_training; intros H.
  apply bind_ok in H; destruct H as ([[s1 losses] ups] & Hloop & H).
  apply bind_ok in H; destruct H as (r1 & _ & H).
  apply bind_ok in H; destruct H as (l1 & _ & H).
  injection H as <- _ _.
  refine (@for_each_preserves _ _
            (fun acc : DLWrapper.t * list Q * list (preds * list Q) =>
               same_frame self (fst (fst acc)))
            _ _ _ (self, [], []) (s1, losses, ups) (same_frame_refl self) Hloop).
  intros [[s0 ls0] us0] x [[s2 ls2] us2] HP Hbody; simpl in *.
  apply bind_ok in Hbody; destruct Hbody as ([[lx ox] tx] & _ & Hbody).
  apply bind_ok in Hbody; destruct Hbody as (u1 & _ & Hbody).
  injection Hbody as <- _ _.
  apply same_frame_step, HP.
Qed.

Variable args : train_args.
Variables train_dataset val_dataset : dataset Data.
Variable w : weight.
Variable ms : dict metric.
Variable self0 : DLWrapper.t.

Let Inv := loop_invariant args val_dataset w ms self0.
Let val_loader := loader val_dataset (batch_size args) None.

(** The early-stopping block keeps the invariant. *)
Lemma early_stopping_invariant (st : loop_state) (self1 : DLWrapper.t) (epoch : nat)
    (val_loss : Q) (val_res : results) :
  Inv st ->
  same_frame self0 self1 ->
  evaluate self1 val_loader ms w = inr (val_loss, val_res) ->
  Inv (early_stopping args epoch val_loss val_res (with_self st self1)).
Proof.
  intros (Hframe & Hbound & Hckpt) Hsame Heval.
  unfold early_stopping.
  destruct (improves args val_loss (best_loss (with_self st self1))) eqn:Himp;
    (split; [| split]); simpl.
  - exact Hsame.
  - intros _; exists val_loss; reflexivity.
  - intros Hsave b Hb; injection Hb as <-.
    rewrite Hsave; simpl.
    exists epoch, (encoder self1), val_res; split; [reflexivity |].
    rewrite Hsame; exact Heval.
  - exact Hsame.
  - exact Hbound.
  - exact Hckpt.
Qed.





End TrainLoop.

(** ** C1: which checkpoint [train] loads back *)

Section BestCheckpoint.
Import DLWrapper DLSpec.




End BestCheckpoint.

(** ** C2 and C10: early stopping *)

Section EarlyStopping.
Import DLWrapper DLSpec.


Context {T : Torch}.







End EarlyStopping.

Section EarlyStoppingRuns.
Import DLWrapper DLSpec.



End EarlyStoppingRuns.

(** ** C3: how the weight is resolved *)

Section WeightResolution.
Import DLWrapper DLSpec.

(** C3: [train] resolves ["balanced"] to the training dataset's balance and
    both methods turn a list into a tensor on the device, but [test] leaves
    ["balanced"] as it is: the string itself reaches the loss. On the stub
    with two output units, [train] with ["balanced"] records the loss computed
    from the balance vector [1/2, 2], [test] with the list [1/2, 2] records
    the same, and [test] with ["balanced"] records the loss of a string
    weight. *)
Theorem C3_test_hands_balanced_string_to_loss :
  (forall (T : Torch) (self : DLWrapper.t) (ds : dataset Data) (l : list Q),
      train_weight self ds (WStr "balanced") = WTensor (device_of self) (get_balance ds) /\
      train_weight self ds (WList l) = WTensor (device_of self) l /\
      test_weight self (WList l) = WTensor (device_of self) l /\
      test_weight self (WStr "balanced") = WStr "balanced" /\
      test_weight self (WStr "balanced") <> WTensor (device_of self) (get_balance ds)) /\
  is_loss (recorded_best_loss
             (train (stub_wrapper 2) no_files one_batch one_batch (WStr "balanced") 0%Z
                (args_of 1 10 (1 # 100))))
          (5 # 2) /\
  is_loss (recorded_test_loss
             (test (stub_wrapper 2) no_files one_batch 0%Z (WList [(1 # 2)%Q; 2%Q])))
          (5 # 2) /\
  is_loss (recorded_test_loss
             (test (stub_wrapper 2) no_files one_batch 0%Z (WStr "balanced")))
          (-1).
Proof.
  split; [| split; [| split]].
  - intros T self ds l; repeat split.
    intros H; discriminate H.
  - vm_compute; reflexivity.
  - vm_compute; reflexivity.
  - vm_compute; reflexivity.
Qed.

End WeightResolution.

(** ** C4: the metric set of [DLWrapper.set_metrics] *)

Section DLMetrics.
Import DLWrapper DLSpec.

(** On rows with two entries the last column is the second entry: the
    score of the positive class. *)
Lemma last_column_pairs (ps : list (Q * Q)) :
  last_column (map (fun p => [fst p; snd p]) ps) = inr (map snd ps).
Proof.
  induction ps as [| p rest IH]; simpl; [reflexivity |].
  rewrite IH; reflexivity.
Qed.


End DLMetrics.


(** ** C6: the element handed to [step_fn] *)

Section StepFn.
Import DLWrapper DLSpec.
Context {T : Torch}.






End StepFn.


(** ** C5 and C9: the metric set of [MLWrapper.set_metrics] *)

Section MLMetrics.
Import MLWrapper MLSpec.











End MLMetrics.



(** ** C7 and C8: the state of a recipe step *)

Section StepState.
Import Recipes RecipeSpec.
Context {B : Tabular}.

(** *** Bodies that keep the resolution of the step *)







Lemma keeps_set_data (d : table) : keeps_resolution (set_data d).
Proof. intros w; simpl; auto. Qed.




(** *** Bodies that ignore the selector and the trained flag *)
















End StepState.

Section StepContract.
Import Recipes RecipeSpec.
Context {B : Tabular}.


Lemma dict_set_fresh_key {V : Type} (d : dict V) (k : string) (v : V) :
  ~ In k (keys d) -> keys (dict_set d k v) = keys d ++ [k].
Proof.
  induction d as [| [k' v'] rest IH]; simpl; intros Hfresh; [reflexivity |].
  destruct (String.eqb k k') eqn:Hk.
  - apply String.eqb_eq in Hk; exfalso; apply Hfresh; left; symmetry; exact Hk.
  - simpl; f_equal; apply IH; intros Hin; apply Hfresh; right; exact Hin.
Qed.



(** C7: [fit_transform(data)] is [fit(data)] followed, when [fit] returned,
    by [transform(data)] on the step and table that [fit] left: the table,
    the returned value and the step's state are those of the two calls in
    sequence, for an object of any of the five classes. *)
Theorem C7_fit_transform_is_fit_then_transform (w : world) :
  fit_transform w =
  match fit w with
  | (w1, inl e) => (w1, inl e)
  | (w1, inr _) => transform w1
  end.
Proof.
  unfold fit_transform, bindM.
  destruct (fit w) as [w1 [e | u]]; reflexivity.
Qed.


End StepContract.


(** The composition on the example imputation step: the value returned by
    [fit_transform] is the one [transform] returns after [fit], the missing
    values are filled, and the step ends trained with its columns
    resolved. *)
Lemma C7_witness :
  Recipes.fit_transform impute_world = Recipes.transform (fst (Recipes.fit impute_world)) /\
  snd (Recipes.fit_transform impute_world) =
    inr (Some (Plain {| cols := [("hr", [Some 3%Q; Some 0%Q; Some 4%Q; Some 1%Q]);
                                 ("bp", [Some 0%Q; Some 2%Q; Some 0%Q; Some 5%Q])];
                        roles := [("hr", ["predictor"]); ("bp", ["predictor"])] |})) /\
  Recipes.trained (Recipes.self (fst (Recipes.fit_transform impute_world))) = true /\
  Recipes.columns (Recipes.self (fst (Recipes.fit_transform impute_world))) = ["hr"; "bp"].
Proof.
  split; [exact (@C7_fit_transform_is_fit_then_transform toy_tabular impute_world) |].
  repeat split.
Defined.

(* ================================================================== *)
(** * Further properties *)
(* ================================================================== *)

(** ** Passes over a loader *)

Section LoaderPasses.
Import DLWrapper DLSpec DLMore.
Context {T : Torch}.

(** X1: a pass over a loader that delivers nothing never returns: after
    the metrics are computed the mean divides by the index of the last batch,
    a name that was never bound. So [evaluate] and [_do_training] raise on an
    empty loader (the unbound-name error when the metrics compute), [test]
    raises on a dataset whose loader is empty, and [train] with at least one
    epoch raises when the first training pass or the validation pass is
    empty. *)
Theorem X1_empty_loader_never_returns (self : DLWrapper.t) (ms : dict metric) (w : weight) :
  raises (evaluate self [] ms w) /\
  raises (_do_training self [] w ms) /\
  (forall res, compute_metrics ms [] = inr res ->
     evaluate self [] ms w = inl (UnboundLocalError "v") /\
     _do_training self [] w ms = inl (UnboundLocalError "t")) /\
  (forall (fs : files) (ds : dataset Data) (seed : Z),
     loader ds 1 None = [] -> raises (test self fs ds seed w)) /\
  (forall (fs : files) (train_dataset val_dataset : dataset Data) (seed : Z)
          (args : train_args),
     (1 <= epochs args)%Z ->
     loader train_dataset (batch_size args) (Some 0) = [] \/
     loader val_dataset (batch_size args) None = [] ->
     raises (train self fs train_dataset val_dataset w seed args)).
Proof.
  assert (forall s ms' w', raises (evaluate s [] ms' w')) as Heval.
  { intros s ms' w'; unfold evaluate; simpl.
    destruct (compute_metrics ms' []); simpl; exact I. }
  assert (forall s ms' w', raises (_do_training s [] w' ms')) as Htrain.
  { intros s ms' w'; unfold _do_training; simpl.
    destruct (compute_metrics ms' []); simpl; exact I. }
  split; [apply Heval |].
  split; [apply Htrain |].
  split.
  { intros res Hres; unfold evaluate, _do_training; simpl; rewrite Hres; simpl; auto. }
  split.
  { intros fs ds seed Hempty; unfold test.
    destruct (require (metrics (set_metrics self)) _) as [e | ms0]; simpl; [exact I |].
    rewrite Hempty; apply bind_raise, Heval. }
  intros fs train_dataset val_dataset seed args Hepochs Hempty; unfold train.
  destruct (require (metrics (set_metrics self)) _) as [e | ms0]; simpl; [exact I |].
  destruct (require (logdir (set_metrics self)) _) as [e | dir]; simpl; [exact I |].
  apply bind_raise.
  unfold range.
  destruct (Z.to_nat (epochs args)) as [| n] eqn:Hn; [lia |].
  simpl.
  destruct Hempty as [Hempty | Hempty].
  - rewrite Hempty; apply bind_raise, Htrain.
  - destruct (_do_training _ _ _ _) as [e | [[s1 tl] tr]]; simpl; [exact I |].
    rewrite Hempty; apply bind_raise, Heval.
Qed.

(** The loop of [_do_training] takes one optimizer step per element. *)
Lemma training_loop_steps (w : weight) (ms : dict metric) (batches : list (element Data)) :
  forall (s0 s1 : DLWrapper.t) (ls0 ls1 : list Q) (us0 us1 : list (preds * list Q)),
    for_each (fun (acc : DLWrapper.t * list Q * list (preds * list Q)) elem =>
                let '(self0, losses, updates0) := acc in
                '(loss, out_flat, label_flat) <- step_fn self0 true elem w ;;
                let self1 := set_encoder self0 (backward_step (encoder self0) elem w) in
                updates1 <- metric_update self1 ms out_flat label_flat updates0 ;;
                Ok (self1, losses ++ [loss], updates1))
             batches (s0, ls0, us0) = inr (s1, ls1, us1) ->
    encoder s1 = optimizer_steps (encoder s0) batches w /\
    List.length ls1 = List.length ls0 + List.length batches.
Proof.
  induction batches as [| elem rest IH]; simpl; intros s0 s1 ls0 ls1 us0 us1 H.
  - injection H as <- <- _; split; [reflexivity | lia].
  - apply bind_ok in H; destruct H as ([[s2 ls2] us2] & Hbody & Hrest).
    apply bind_ok in Hbody; destruct Hbody as ([[l o] t] & _ & Hbody).
    apply bind_ok in Hbody; destruct Hbody as (u & _ & Hbody).
    injection Hbody as <- <- _.
    destruct (IH _ _ _ _ _ _ Hrest) as (Henc & Hlen).
    split; [exact Henc |].
    rewrite Hlen, length_app; simpl; lia.
Qed.

(** X2: when a training pass returns, the encoder and optimizer state is
    the one reached by one optimizer step per delivered element, in the
    order of delivery, and the loader delivered at least one element; nothing
    else of the wrapper (device, scaler, log directory, metrics, output
    transform) has changed. *)
Theorem X2_training_pass_steps_once_per_element (self self' : DLWrapper.t)
    (batches : list (element Data)) (w : weight) (ms : dict metric) (loss : Q)
    (res : results) :
  _do_training self batches w ms = inr (self', loss, res) ->
  encoder self' = optimizer_steps (encoder self) batches w /\
  batches <> [] /\
  device_of self' = device_of self /\
  scaler self' = scaler self /\
  logdir self' = logdir self /\
  metrics self' = metrics self /\
  output_transform self' = output_transform self.
Proof.
  intros H.
  pose proof (_do_training_same_frame _ _ _ _ H) as Hframe.
  unfold _do_training in H.
  apply bind_ok in H; destruct H as ([[s1 losses] ups] & Hloop & H).
  apply bind_ok in H; destruct H as (r1 & _ & H).
  apply bind_ok in H; destruct H as (l1 & Hmean & H).
  injection H as <- _ _.
  destruct (training_loop_steps _ _ _ _ _ _ Hloop) as (Henc & Hlen).
  split; [exact Henc |].
  split.
  { intros ->; simpl in Hlen.
    destruct losses; [discriminate Hmean | discriminate Hlen]. }
  unfold same_frame in Hframe; rewrite <- Hframe; simpl; auto.
Qed.

End LoaderPasses.

(** The two properties on the stub with two output units and on the curve
    encoder. *)
Lemma X1_witness :
  raises (DLWrapper.test (stub_wrapper 2) no_files
            {| loader := fun _ _ => []; get_balance := [] |} 0%Z WNone).
Proof.
  refine (proj1 (proj2 (proj2 (proj2
            (@X1_empty_loader_never_returns (stub_torch 2) (stub_wrapper 2) [] WNone))))
            no_files {| loader := fun _ _ => []; get_balance := [] |} 0%Z _).
  reflexivity.
Defined.

Lemma X2_witness :
  exists self' loss res,
    DLWrapper._do_training (fresh_wrapper [1%Q])
      [[ItemData tt; ItemTensor [0%Q]]; [ItemData tt; ItemTensor [0%Q]]] WNone []
      = inr (self', loss, res) /\
    DLWrapper.encoder self' = 2.
Proof.
  do 3 eexists.
  split; [vm_compute; reflexivity |].
  etransitivity;
    [ refine (proj1 (@X2_training_pass_steps_once_per_element (curve_torch [1%Q])
                       (fresh_wrapper [1%Q]) _
                       [[ItemData tt; ItemTensor [0%Q]]; [ItemData tt; ItemTensor [0%Q]]]
                       WNone [] _ _ _));
      vm_compute; reflexivity
    | reflexivity ].
Defined.

(** ** What [step_fn] reads *)

Section StepFnReads.
Import DLWrapper DLSpec DLMore.
Context {T : Torch}.

Lemma masked_select_agree {A : Type} (mask : list bool) :
  forall xs ys : list A,
    agree_where mask xs ys -> masked_select xs mask = masked_select ys mask.
Proof.
  induction mask as [| b mask IH]; intros [| x xs] [| y ys]; simpl; intros H;
    try destruct H; try reflexivity.
  rewrite (IH xs ys) by assumption.
  destruct b; [| reflexivity].
  rewrite H by reflexivity; reflexivity.
Qed.

(** X3: label values at masked-out positions are never read: two elements
    with the same features and mask whose labels agree wherever the mask is
    true give the same loss, the same selected outputs and the same selected
    labels (or the same exception). *)
Theorem X3_masked_out_labels_are_ignored (self : DLWrapper.t) (training : bool) (d : Data)
    (labels labels' : list Q) (mask : list bool) (w : weight) :
  agree_where mask labels labels' ->
  step_fn self training [ItemData d; ItemTensor labels; ItemMask mask] w =
  step_fn self training [ItemData d; ItemTensor labels'; ItemMask mask] w.
Proof.
  intros Hagree; simpl; unfold step_masked.
  rewrite (masked_select_agree mask labels labels' Hagree); reflexivity.
Qed.

Lemma set_metrics_encoder (self : DLWrapper.t) :
  encoder (set_metrics self) = encoder self.
Proof.
  unfold set_metrics.
  destruct (Nat.eqb (out_features (encoder self)) 2); [reflexivity |].
  destruct (Nat.eqb (out_features (encoder self)) 1); reflexivity.
Qed.

Lemma for_each_ext {A S : Type} (body body' : S -> A -> result S) :
  (forall acc x, body acc x = body' acc x) ->
  forall xs acc, for_each body xs acc = for_each body' xs acc.
Proof.
  intros Hext xs; induction xs as [| x rest IH]; simpl; intros acc; [reflexivity |].
  rewrite Hext; destruct (body' acc x); simpl; [reflexivity | apply IH].
Qed.

Lemma step_masked_single_output (self : DLWrapper.t) (training : bool) (d : Data)
    (labels : list Q) (mask : list bool) (w w' : weight) :
  single_output self ->
  step_masked self training d labels mask w = step_masked self training d labels mask w'.
Proof.
  intros Hone; unfold step_masked.
  specialize (Hone training d).
  destruct (forward (encoder self) training d) as [out | out aux]; simpl in *;
    destruct (masked_select (rows out) mask); simpl; try reflexivity;
    destruct (masked_select labels mask); simpl; try reflexivity;
    destruct (Nat.ltb_spec 1 (width out)); try lia; reflexivity.
Qed.

(** X4: for an encoder with a single output unit the loss is called without
    a weight, so the weight argument has no effect: [step_fn], [evaluate]
    and [test] give the same result (or exception) for any two weights, a
    list, ["balanced"] or none alike. *)
Theorem X4_weight_has_no_effect_on_single_output (self : DLWrapper.t) (w w' : weight) :
  single_output self ->
  (forall (training : bool) (elem : element Data),
      step_fn self training elem w = step_fn self training elem w') /\
  (forall (batches : list (element Data)) (ms : dict metric),
      evaluate self batches ms w = evaluate self batches ms w') /\
  (forall (fs : files) (ds : dataset Data) (seed : Z),
      test self fs ds seed w = test self fs ds seed w').
Proof.
  intros Hone.
  assert (forall s w1 w2 training elem,
             single_output s -> step_fn s training elem w1 = step_fn s training elem w2)
    as Hstep.
  { intros s w1 w2 training elem Hs.
    destruct elem as [| e0 [| e1 [| e2 [| e3 rest]]]]; simpl; try reflexivity.
    - destruct (as_labels e1); simpl; [reflexivity |].
      destruct (as_data e0); simpl; [reflexivity |].
      apply step_masked_single_output, Hs.
    - destruct (as_labels e1); simpl; [reflexivity |].
      destruct (as_mask e2); simpl; [reflexivity |].
      destruct (as_data e0); simpl; [reflexivity |].
      apply step_masked_single_output, Hs. }
  assert (forall s w1 w2 batches ms,
             single_output s -> evaluate s batches ms w1 = evaluate s batches ms w2)
    as Heval.
  { intros s w1 w2 batches ms Hs; unfold evaluate.
    rewrite (for_each_ext
               (fun (acc : list Q * list (preds * list Q)) elem =>
                  '(loss, out_flat, label_flat) <- step_fn s false elem w1 ;;
                  updates' <- metric_update s ms out_flat label_flat (snd acc) ;;
                  Ok (fst acc ++ [loss], updates'))
               (fun (acc : list Q * list (preds * list Q)) elem =>
                  '(loss, out_flat, label_flat) <- step_fn s false elem w2 ;;
                  updates' <- metric_update s ms out_flat label_flat (snd acc) ;;
                  Ok (fst acc ++ [loss], updates'))); [reflexivity |].
    intros acc x; rewrite (Hstep s w1 w2 false x Hs); reflexivity. }
  split; [intros training elem; apply Hstep, Hone |].
  split; [intros batches ms; apply Heval, Hone |].
  intros fs ds seed; unfold test.
  apply bind_congr; intros ms.
  rewrite (Heval (set_metrics self) (test_weight (set_metrics self) w)
             (test_weight (set_metrics self) w') (loader ds 1 None) ms); [reflexivity |].
  intros training d; rewrite set_metrics_encoder; apply Hone.
Qed.

End StepFnReads.

Lemma X3_witness :
  DLWrapper.step_fn (stub_wrapper 2) false
    [ItemData tt; ItemTensor [7%Q]; ItemMask [false]] WNone =
  DLWrapper.step_fn (stub_wrapper 2) false
    [ItemData tt; ItemTensor [9%Q]; ItemMask [false]] WNone.
Proof.
  apply (@X3_masked_out_labels_are_ignored (stub_torch 2)).
  simpl; split; [intros H; discriminate H | exact I].
Defined.

Lemma X4_witness :
  DLWrapper.test (stub_wrapper 1) no_files one_batch 0%Z (WStr "balanced") =
  DLWrapper.test (stub_wrapper 1) no_files one_batch 0%Z WNone.
Proof.
  refine (proj2 (proj2 (@X4_weight_has_no_effect_on_single_output (stub_torch 1)
                          (stub_wrapper 1) (WStr "balanced") WNone _))
            no_files one_batch 0%Z).
  intros training d; simpl; apply le_n.
Defined.

(** ** How [train] and [test] end *)

Section TrainEnds.
Import DLWrapper DLSpec DLMore.
Context {T : Torch}.

Lemma set_metrics_logdir (self : DLWrapper.t) : logdir (set_metrics self) = logdir self.
Proof.
  unfold set_metrics.
  destruct (Nat.eqb (out_features (encoder self)) 2); [reflexivity |].
  destruct (Nat.eqb (out_features (encoder self)) 1); reflexivity.
Qed.

Lemma set_metrics_sets_metrics (self : DLWrapper.t) :
  exists ms, metrics (set_metrics self) = Some ms.
Proof.
  unfold set_metrics.
  destruct (Nat.eqb (out_features (encoder self)) 2); [eexists; reflexivity |].
  destruct (Nat.eqb (out_features (encoder self)) 1); eexists; reflexivity.
Qed.

(** X5: [__init__] does not set the log directory. A wrapper on which
    [set_logdir] was never called makes [train] fail on the missing attribute
    before any epoch is run, and makes [test] fail as well (after the
    evaluation pass, when that pass returns). With the log directory set and
    [epochs <= 0] no epoch is run and [train] fails on the name
    [best_metrics], which only an improving epoch binds. *)
Theorem X5_train_needs_logdir_and_an_epoch (self : DLWrapper.t) (fs : files)
    (train_dataset val_dataset : dataset Data) (w : weight) (seed : Z) (args : train_args) :
  (logdir self = None ->
   train self fs train_dataset val_dataset w seed args = inl (AttributeError "logdir") /\
   raises (test self fs val_dataset seed w) /\
   (forall loss res ms,
       metrics (set_metrics self) = Some ms ->
       evaluate (set_metrics self) (loader val_dataset 1 None) ms
         (test_weight (set_metrics self) w) = inr (loss, res) ->
       test self fs val_dataset seed w = inl (AttributeError "logdir"))) /\
  (logdir self <> None -> (epochs args <= 0)%Z ->
   train self fs train_dataset val_dataset w seed args
     = inl (UnboundLocalError "best_metrics")).
Proof.
  split.
  - intros Hdir.
    destruct (set_metrics_sets_metrics self) as (ms & Hms).
    split; [| split].
    + unfold train; rewrite Hms, set_metrics_logdir, Hdir; reflexivity.
    + unfold test; rewrite Hms, set_metrics_logdir, Hdir; simpl.
      destruct (evaluate _ _ _ _) as [e | [l r]]; simpl; exact I.
    + intros loss res ms0 Hms0 Heval.
      unfold test; rewrite Hms0, set_metrics_logdir, Hdir; simpl.
      rewrite Heval; reflexivity.
  - intros Hdir Hepochs.
    destruct (set_metrics_sets_metrics self) as (ms & Hms).
    unfold train; rewrite Hms, set_metrics_logdir.
    destruct (logdir self) as [dir |]; [| exfalso; apply Hdir; reflexivity].
    unfold range.
    replace (Z.to_nat (epochs args)) with 0 by lia.
    reflexivity.
Qed.

Lemma firstn_seq_prefix (k n start : nat) :
  k <= n -> firstn k (seq start n) = seq start k.
Proof.
  revert n start; induction k as [| k IH]; intros n start Hk; [reflexivity |].
  destruct n as [| n]; [lia |]; simpl.
  f_equal; apply IH; lia.
Qed.

(** The epochs the loop executes are the first ones of those it was given;
    every executed epoch but the last leaves the stop test false, and when
    some epoch was not executed the last executed one made the test true. *)
Lemma train_epochs_shape (args : train_args) (train_dataset val_dataset : dataset Data)
    (w : weight) (ms : dict metric) (todo : list nat) :
  forall st st' executed,
    train_epochs args train_dataset val_dataset w ms todo st = inr (st', executed) ->
    map er_epoch executed = firstn (List.length executed) todo /\
    List.length executed <= List.length todo /\
    (forall pre r post, executed = pre ++ r :: post -> post <> [] ->
                        stops args (er_after r) = false) /\
    (List.length executed < List.length todo ->
     exists pre r, executed = pre ++ [r] /\ stops args (er_after r) = true).
Proof.
  induction todo as [| epoch rest IH]; simpl; intros st st' executed H.
  - injection H as _ <-; simpl.
    split; [reflexivity |]. split; [lia |].
    split; [intros [| x pre] r post Hc; discriminate Hc | lia].
  - apply bind_ok in H; destruct H as ([[self1 tl] tr] & _ & H).
    apply bind_ok in H; destruct H as ([vl vr] & _ & H).
    set (st1 := early_stopping args epoch vl vr (with_self st self1)) in *.
    destruct (stops args st1) eqn:Hstop.
    + injection H as _ <-; simpl.
      split; [reflexivity |]. split; [lia |].
      split.
      * intros [| x [| y pre]] r post Hc Hpost; simpl in Hc; injection Hc as _ Hc;
          try discriminate Hc; subst post; exfalso; apply Hpost; reflexivity.
      * intros _; exists [], {| er_epoch := epoch; er_val_loss := vl; er_after := st1 |}.
        split; [reflexivity | exact Hstop].
    + apply bind_ok in H; destruct H as ([st2 recs] & Hrest & H).
      injection H as _ <-; simpl.
      destruct (IH _ _ _ Hrest) as (Hmap & Hlen & Hmid & Hlast).
      split; [f_equal; exact Hmap |]. split; [lia |].
      split.
      * intros [| x pre] r post Hc Hpost; simpl in Hc; injection Hc as Hr Hc.
        -- subst r; exact Hstop.
        -- apply (Hmid pre r post Hc Hpost).
      * intros Hshort.
        destruct Hlast as (pre & r & Hrecs & Hr); [lia |].
        exists ({| er_epoch := epoch; er_val_loss := vl; er_after := st1 |} :: pre), r.
        split; [rewrite Hrecs; reflexivity | exact Hr].
Qed.

(** The counter stays between 0 and [patience]. *)
Lemma train_epochs_counter (args : train_args) (train_dataset val_dataset : dataset Data)
    (w : weight) (ms : dict metric) (todo : list nat) :
  (1 <= patience args)%Z ->
  forall st st' executed,
    train_epochs args train_dataset val_dataset w ms todo st = inr (st', executed) ->
    (0 <= epoch_no_improvement st < patience args)%Z ->
    forall r, In r executed -> (0 <= counter_of r <= patience args)%Z.
Proof.
  intros Hpat; induction todo as [| epoch rest IH]; simpl; intros st st' executed H Hst r Hin.
  - injection H as _ <-; destruct Hin.
  - apply bind_ok in H; destruct H as ([[self1 tl] tr] & _ & H).
    apply bind_ok in H; destruct H as ([vl vr] & _ & H).
    set (st1 := early_stopping args epoch vl vr (with_self st self1)) in *.
    assert (0 <= epoch_no_improvement st1 <= patience args)%Z as Hst1.
    { subst st1; unfold early_stopping.
      destruct (improves args vl (best_loss (with_self st self1))); simpl; lia. }
    destruct (stops args st1) eqn:Hstop.
    + injection H as _ <-.
      destruct Hin as [<- | []]; exact Hst1.
    + apply bind_ok in H; destruct H as ([st2 recs] & Hrest & H).
      injection H as _ <-.
      destruct Hin as [<- | Hin]; [exact Hst1 |].
      apply (IH _ _ _ Hrest); [| exact Hin].
      unfold stops in Hstop; apply Z.leb_gt in Hstop; lia.
Qed.

(** X6: when [train] returns, the executed epochs are epochs
    [0, 1, ..., n-1] for some [1 <= n <= epochs]; after every executed epoch
    but the last the counter is below [patience]; if fewer than [epochs]
    epochs were executed, the counter had reached [patience] after the last
    one; and, for [patience >= 1], the counter never leaves the range
    [0 .. patience]: no more than [patience] epochs in a row go without an
    improvement. *)
Theorem X6_executed_epochs_and_counter (self : DLWrapper.t) (fs : files)
    (train_dataset val_dataset : dataset Data) (w : weight) (seed : Z) (args : train_args)
    (self' : DLWrapper.t) (fs' : files) (executed : list epoch_record) :
  train self fs train_dataset val_dataset w seed args = inr (self', fs', executed) ->
  map er_epoch executed = seq 0 (List.length executed) /\
  1 <= List.length executed <= Z.to_nat (epochs args) /\
  (forall pre r post, executed = pre ++ r :: post -> post <> [] ->
                      (counter_of r < patience args)%Z) /\
  (List.length executed < Z.to_nat (epochs args) ->
   exists pre r, executed = pre ++ [r] /\ (patience args <= counter_of r)%Z) /\
  ((1 <= patience args)%Z ->
   forall r, In r executed -> (0 <= counter_of r <= patience args)%Z).
Proof.
  intros Htrain.
  unfold train in Htrain.
  apply bind_ok in Htrain; destruct Htrain as (ms & _ & Htrain).
  apply bind_ok in Htrain; destruct Htrain as (dir & _ & Htrain).
  apply bind_ok in Htrain; destruct Htrain as ([st ex] & Hloop & Htrain).
  apply bind_ok in Htrain; destruct Htrain as (bm & Hbm & Htrain).
  apply bind_ok in Htrain; destruct Htrain as (vm & _ & Htrain).
  apply bind_ok in Htrain; destruct Htrain as (self1 & _ & Htrain).
  injection Htrain as _ _ <-.
  destruct (train_epochs_shape _ _ _ _ _ _ _ Hloop) as (Hmap & Hlen & Hmid & Hlast).
  unfold range in *; rewrite length_seq in *.
  split.
  { rewrite Hmap; apply firstn_seq_prefix; exact Hlen. }
  split.
  { split; [| exact Hlen].
    destruct ex as [| r ex']; simpl; [| lia].
    exfalso.
    destruct (Z.to_nat (epochs args)) as [| n]; simpl in Hloop.
    - injection Hloop as <- ; discriminate Hbm.
    - apply bind_ok in Hloop; destruct Hloop as ([[s1 tl] tr] & _ & Hloop).
      apply bind_ok in Hloop; destruct Hloop as ([vl vr] & _ & Hloop).
      destruct (stops args _); [discriminate Hloop |].
      apply bind_ok in Hloop; destruct Hloop as ([st2 recs] & _ & Hloop).
      discriminate Hloop. }
  split.
  { intros pre r post Hex Hpost.
    specialize (Hmid pre r post Hex Hpost).
    unfold stops in Hmid; apply Z.leb_gt in Hmid; exact Hmid. }
  split.
  { intros Hshort; destruct (Hlast Hshort) as (pre & r & Hex & Hr).
    exists pre, r; split; [exact Hex |].
    unfold stops in Hr; apply Z.leb_le in Hr; exact Hr. }
  intros Hpat r Hin.
  eapply train_epochs_counter; [exact Hpat | exact Hloop | simpl; lia | exact Hin].
Qed.

End TrainEnds.

Lemma X5_witness :
  DLWrapper.train (@DLWrapper.init (curve_torch [1%Q]) false false 0 false) no_files
    one_batch one_batch WNone 0%Z (args_of 3 10 0)
    = inl (AttributeError "logdir") /\
  run_curve [1%Q] (args_of 0 10 0) = inl (UnboundLocalError "best_metrics").
Proof.
  split.
  - apply (proj1 (@X5_train_needs_logdir_and_an_epoch (curve_torch [1%Q])
                    (@DLWrapper.init (curve_torch [1%Q]) false false 0 false) no_files
                    one_batch one_batch WNone 0%Z (args_of 3 10 0))).
    reflexivity.
  - apply (proj2 (@X5_train_needs_logdir_and_an_epoch (curve_torch [1%Q])
                    (fresh_wrapper [1%Q]) no_files
                    one_batch one_batch WNone 0%Z (args_of 0 10 0))).
    + intros H; discriminate H.
    + intros H; discriminate H.
Defined.

Lemma X6_witness :
  exists self' fs' executed,
    run_curve [1%Q; (9 # 10)%Q; (91 # 100)%Q; (92 # 100)%Q; 0%Q] (args_of 1000 2 (1 # 100))
      = inr (self', fs', executed) /\
    map DLWrapper.er_epoch executed = seq 0 (List.length executed) /\
    1 <= List.length executed <= Z.to_nat 1000 /\
    (forall pre r post, executed = pre ++ r :: post -> post <> [] ->
                        (DLMore.counter_of r < 2)%Z) /\
    (List.length executed < Z.to_nat 1000 ->
     exists pre r, executed = pre ++ [r] /\ (2 <= DLMore.counter_of r)%Z) /\
    ((1 <= 2)%Z ->
     forall r, In r executed -> (0 <= DLMore.counter_of r <= 2)%Z).
Proof.
  do 3 eexists.
  split; [vm_compute; reflexivity |].
  eapply (@X6_executed_epochs_and_counter
            (curve_torch [1%Q; (9 # 10)%Q; (91 # 100)%Q; (92 # 100)%Q; 0%Q])
            (fresh_wrapper [1%Q; (9 # 10)%Q; (91 # 100)%Q; (92 # 100)%Q; 0%Q])
            no_files one_batch one_batch WNone 0%Z (args_of 1000 2 (1 # 100))).
  vm_compute; reflexivity.
Defined.

(** ** What [train] and [test] write *)

Section TrainWrites.
Import DLWrapper DLSpec DLMore.
Context {T : Torch}.

Lemma dict_get_set {V : Type} (d : dict V) (k : string) (v : V) :
  dict_get (dict_set d k v) k = Some v.
Proof.
  induction d as [| [k' v'] rest IH]; simpl.
  - rewrite String.eqb_refl; reflexivity.
  - destruct (String.eqb k k') eqn:Hk; simpl; rewrite Hk; [reflexivity | exact IH].
Qed.

(** The loop keeps its invariant, whatever [min_delta] is. *)
Lemma train_epochs_keeps_invariant (args : train_args)
    (train_dataset val_dataset : dataset Data) (w : weight) (ms : dict metric)
    (self0 : DLWrapper.t) (todo : list nat) :
  forall st st' executed,
    train_epochs args train_dataset val_dataset w ms todo st = inr (st', executed) ->
    loop_invariant args val_dataset w ms self0 st ->
    loop_invariant args val_dataset w ms self0 st'.
Proof.
  induction todo as [| epoch rest IH]; simpl; intros st st' executed H HInv.
  - injection H as <- _; exact HInv.
  - apply bind_ok in H; destruct H as ([[self1 tl] tr] & Htrain & H).
    apply bind_ok in H; destruct H as ([vl vr] & Heval & H).
    assert (same_frame self0 self1) as Hsame.
    { destruct HInv as (Hframe & _).
      apply _do_training_same_frame in Htrain.
      unfold same_frame in *; rewrite <- Htrain, <- Hframe; reflexivity. }
    pose proof (early_stopping_invariant epoch HInv Hsame Heval) as HInv1.
    destruct (stops args _).
    + injection H as <- _; exact HInv1.
    + apply bind_ok in H; destruct H as ([st2 recs] & Hrest & H).
      injection H as <- _.
      apply (IH _ _ _ Hrest HInv1).
Qed.

(** The loop writes the checkpoint file only, and only when weights are
    saved. *)
Lemma train_epochs_files (args : train_args) (train_dataset val_dataset : dataset Data)
    (w : weight) (ms : dict metric) (todo : list nat) :
  forall st st' executed,
    train_epochs args train_dataset val_dataset w ms todo st = inr (st', executed) ->
    best_metrics_json (files_of st') = best_metrics_json (files_of st) /\
    test_metrics_json (files_of st') = test_metrics_json (files_of st) /\
    val_metrics_shared (files_of st') = val_metrics_shared (files_of st) /\
    test_metrics_shared (files_of st') = test_metrics_shared (files_of st) /\
    (save_weights args = false -> model_torch (files_of st') = model_torch (files_of st)).
Proof.
  induction todo as [| epoch rest IH]; simpl; intros st st' executed H.
  - injection H as <- _; auto.
  - apply bind_ok in H; destruct H as ([[self1 tl] tr] & _ & H).
    apply bind_ok in H; destruct H as ([vl vr] & _ & H).
    set (st1 := early_stopping args epoch vl vr (with_self st self1)) in *.
    assert (best_metrics_json (files_of st1) = best_metrics_json (files_of st) /\
            test_metrics_json (files_of st1) = test_metrics_json (files_of st) /\
            val_metrics_shared (files_of st1) = val_metrics_shared (files_of st) /\
            test_metrics_shared (files_of st1) = test_metrics_shared (files_of st) /\
            (save_weights args = false ->
             model_torch (files_of st1) = model_torch (files_of st))) as Hst1.
    { subst st1; unfold early_stopping.
      destruct (improves args vl (best_loss (with_self st self1))); simpl; auto.
      destruct (save_weights args); simpl; auto.
      repeat split; intros Hc; discriminate Hc. }
    destruct (stops args st1).
    + injection H as <- _; exact Hst1.
    + apply bind_ok in H; destruct H as ([st2 recs] & Hrest & H).
      injection H as <- _.
      destruct (IH _ _ _ Hrest) as (H1 & H2 & H3 & H4 & H5).
      destruct Hst1 as (G1 & G2 & G3 & G4 & G5).
      repeat split; try congruence.
      intros Hsave; rewrite (H5 Hsave); apply G5, Hsave.
Qed.

(** X7: when [train] returns and weights are saved, the loss written under
    ["loss"] in [best_metrics.json] is the validation loss of the model that
    was loaded back, and the checkpoint file holds that model: the record
    and the reloaded weights describe the same epoch. *)
Theorem X7_recorded_best_loss_is_the_loaded_model_loss (self : DLWrapper.t) (fs : files)
    (train_dataset val_dataset : dataset Data) (w : weight) (seed : Z) (args : train_args)
    (self' : DLWrapper.t) (fs' : files) (executed : list epoch_record) :
  train self fs train_dataset val_dataset w seed args = inr (self', fs', executed) ->
  save_weights args = true ->
  exists (L : Q) (bm : results) (e : nat),
    best_metrics_json fs' = Some bm /\
    dict_get bm "loss" = Some (MFloat (Fin L)) /\
    model_torch fs' = Some (e, encoder self') /\
    validation_loss self' val_dataset args
      (train_weight (set_metrics self) train_dataset w) = inr L.
Proof.
  intros Htrain Hsave.
  unfold train in Htrain.
  apply bind_ok in Htrain; destruct Htrain as (ms & Hms & Htrain).
  apply bind_ok in Htrain; destruct Htrain as (dir & _ & Htrain).
  apply bind_ok in Htrain; destruct Htrain as ([st ex] & Hloop & Htrain).
  apply bind_ok in Htrain; destruct Htrain as (bm & Hbm & Htrain).
  apply bind_ok in Htrain; destruct Htrain as (vm & _ & Htrain).
  apply bind_ok in Htrain; destruct Htrain as (self1 & Hload & Htrain).
  injection Htrain as <- <- _.
  set (self0 := set_metrics self) in *.
  eapply train_epochs_keeps_invariant with (self0 := self0) in Hloop.
  2:{ split; [apply same_frame_refl |].
      split; simpl; [intros Hc; exfalso; apply Hc; reflexivity |].
      intros _ b Hb; discriminate. }
  destruct Hloop as (Hframe & Hfin & Hckpt).
  destruct Hfin as (L & HL).
  { destruct (best_metrics st); [discriminate | discriminate]. }
  destruct (Hckpt Hsave L HL) as (e & m & res & Hfile & Heval).
  assert (self1 = set_encoder self0 m) as ->.
  { unfold do_load_weights, load_model_state in Hload; simpl in Hload.
    rewrite Hfile in Hload; simpl in Hload.
    injection Hload as <-.
    unfold same_frame in Hframe; rewrite <- Hframe; reflexivity. }
  exists L, (dict_set bm "loss" (MFloat (best_loss st))), e; simpl.
  split; [reflexivity |].
  split; [rewrite dict_get_set, HL; reflexivity |].
  split; [exact Hfile |].
  unfold validation_loss.
  change (metrics (set_encoder self0 m)) with (metrics self0).
  destruct (metrics self0) as [ms0 |]; simpl in *; [| discriminate].
  injection Hms as ->.
  rewrite Heval; reflexivity.
Qed.

(** X9: with [save_weights] false the loop never writes the checkpoint
    file, and [train] still ends by loading it: the weights it returns with
    are those of whatever checkpoint the file held before the call, not the
    trained ones, and without such a file [train] cannot return. *)
Theorem X9_without_saving_the_old_checkpoint_is_loaded (self : DLWrapper.t) (fs : files)
    (train_dataset val_dataset : dataset Data) (w : weight) (seed : Z) (args : train_args) :
  save_weights args = false ->
  (model_torch fs = None ->
   raises (train self fs train_dataset val_dataset w seed args)) /\
  (forall self' fs' executed,
      train self fs train_dataset val_dataset w seed args = inr (self', fs', executed) ->
      exists e0, model_torch fs = Some (e0, encoder self') /\
                 model_torch fs' = model_torch fs).
Proof.
  intros Hsave.
  assert (forall self' fs' executed,
             train self fs train_dataset val_dataset w seed args = inr (self', fs', executed) ->
             exists e0, model_torch fs = Some (e0, encoder self') /\
                        model_torch fs' = model_torch fs) as Hret.
  { intros self' fs' executed Htrain.
    unfold train in Htrain.
    apply bind_ok in Htrain; destruct Htrain as (ms & _ & Htrain).
    apply bind_ok in Htrain; destruct Htrain as (dir & _ & Htrain).
    apply bind_ok in Htrain; destruct Htrain as ([st ex] & Hloop & Htrain).
    apply bind_ok in Htrain; destruct Htrain as (bm & _ & Htrain).
    apply bind_ok in Htrain; destruct Htrain as (vm & _ & Htrain).
    apply bind_ok in Htrain; destruct Htrain as (self1 & Hload & Htrain).
    injection Htrain as <- <- _.
    apply train_epochs_files in Hloop.
    destruct Hloop as (_ & _ & _ & _ & Hkeep); specialize (Hkeep Hsave); simpl in Hkeep.
    unfold do_load_weights, load_model_state in Hload; simpl in Hload.
    rewrite Hkeep in Hload |- *; simpl.
    destruct (model_torch fs) as [[e0 m0] |]; simpl in Hload; [| discriminate].
    injection Hload as <-.
    exists e0; split; reflexivity. }
  split; [| exact Hret].
  intros Hnone.
  destruct (train self fs train_dataset val_dataset w seed args)
    as [e | [[self' fs'] executed]] eqn:Htrain; simpl; [exact I |].
  destruct (Hret _ _ _ eq_refl) as (e0 & Hfile & _).
  rewrite Hnone in Hfile; discriminate.
Qed.

End TrainWrites.

Lemma X7_witness :
  exists self' fs' executed,
    run_curve [1%Q; (9 # 10)%Q; 2%Q] (args_of 3 10 0) = inr (self', fs', executed) /\
    exists (L : Q) (bm : results) (e : nat),
      DLWrapper.best_metrics_json fs' = Some bm /\
      dict_get bm "loss" = Some (MFloat (Fin L)) /\
      DLWrapper.model_torch fs' = Some (e, DLWrapper.encoder self') /\
      DLSpec.validation_loss self' one_batch (args_of 3 10 0)
        (DLWrapper.train_weight (DLWrapper.set_metrics (fresh_wrapper [1%Q; (9 # 10)%Q; 2%Q]))
           one_batch WNone) = inr L.
Proof.
  do 3 eexists.
  split; [vm_compute; reflexivity |].
  eapply (@X7_recorded_best_loss_is_the_loaded_model_loss
            (curve_torch [1%Q; (9 # 10)%Q; 2%Q]) (fresh_wrapper [1%Q; (9 # 10)%Q; 2%Q])
            no_files one_batch one_batch WNone 0%Z (args_of 3 10 0)).
  - vm_compute; reflexivity.
  - reflexivity.
Defined.

Lemma X9_witness :
  raises (@DLWrapper.train (curve_torch [1%Q]) (fresh_wrapper [1%Q]) no_files one_batch
            one_batch WNone 0%Z (args_without_saving 2)) /\
  exists self' fs' executed,
    @DLWrapper.train (curve_torch [1%Q]) (fresh_wrapper [1%Q]) (stale_files [1%Q]) one_batch
      one_batch WNone 0%Z (args_without_saving 2) = inr (self', fs', executed) /\
    exists e0, DLWrapper.model_torch (stale_files [1%Q]) = Some (e0, DLWrapper.encoder self') /\
               DLWrapper.model_torch fs' = DLWrapper.model_torch (stale_files [1%Q]).
Proof.
  split.
  - apply (proj1 (@X9_without_saving_the_old_checkpoint_is_loaded (curve_torch [1%Q])
                    (fresh_wrapper [1%Q]) no_files one_batch one_batch WNone 0%Z
                    (args_without_saving 2) eq_refl)).
    reflexivity.
  - do 3 eexists.
    split; [vm_compute; reflexivity |].
    eapply (proj2 (@X9_without_saving_the_old_checkpoint_is_loaded (curve_torch [1%Q])
                     (fresh_wrapper [1%Q]) (stale_files [1%Q]) one_batch one_batch WNone 0%Z
                     (args_without_saving 2) eq_refl)).
    vm_compute; reflexivity.
Defined.

(** ** The records [train] and [test] leave *)

Section TrainRecords.
Import DLWrapper DLSpec DLMore.
Context {T : Torch}.

(** What the loop leaves in each executed epoch's state. *)
Lemma train_epochs_records (args : train_args) (train_dataset val_dataset : dataset Data)
    (w : weight) (ms : dict metric) (todo : list nat) :
  forall st st' executed,
    train_epochs args train_dataset val_dataset w ms todo st = inr (st', executed) ->
    (0 <= epoch_no_improvement st)%Z ->
    (executed = [] -> st' = st) /\
    (forall pre r, executed = pre ++ [r] -> st' = er_after r) /\
    (forall r, In r executed ->
       exists vm,
         val_metric_results (er_after r) = Some vm /\
         evaluate (self_of (er_after r)) (loader val_dataset (batch_size args) None) ms w
           = inr (er_val_loss r, vm) /\
         (0 <= counter_of r)%Z /\
         best_is_current (er_after r) = (counter_of r =? 0)%Z /\
         (counter_of r = 0%Z ->
          best_metrics (er_after r) = Some vm /\
          best_loss (er_after r) = Fin (er_val_loss r))).
Proof.
  induction todo as [| epoch rest IH]; simpl; intros st st' executed H Hst.
  - injection H as <- <-.
    split; [reflexivity |].
    split; [intros [| x pre] r Hc; discriminate Hc | intros r []].
  - apply bind_ok in H; destruct H as ([[self1 tl] tr] & _ & H).
    apply bind_ok in H; destruct H as ([vl vr] & Heval & H).
    set (st1 := early_stopping args epoch vl vr (with_self st self1)) in *.
    set (rec := {| er_epoch := epoch; er_val_loss := vl; er_after := st1 |}) in *.
    assert (exists vm,
               val_metric_results (er_after rec) = Some vm /\
               evaluate (self_of (er_after rec)) (loader val_dataset (batch_size args) None)
                 ms w = inr (er_val_loss rec, vm) /\
               (0 <= counter_of rec)%Z /\
               best_is_current (er_after rec) = (counter_of rec =? 0)%Z /\
               (counter_of rec = 0%Z ->
                best_metrics (er_after rec) = Some vm /\
                best_loss (er_after rec) = Fin (er_val_loss rec))) as Hrec.
    { exists vr; subst rec st1; unfold counter_of, early_stopping; simpl.
      destruct (improves args vl (best_loss st)); simpl.
      - repeat split; auto; lia.
      - split; [reflexivity |]. split; [exact Heval |]. split; [lia |].
        split; [symmetry; apply Z.eqb_neq; lia | intros Hc; lia]. }
    assert (0 <= epoch_no_improvement st1)%Z as Hst1
      by (destruct Hrec as (vm & _ & _ & Hc & _); exact Hc).
    destruct (stops args st1).
    + injection H as <- <-.
      split; [intros Hc; discriminate Hc |].
      split.
      * intros pre r Hc.
        change [rec] with ([] ++ [rec]) in Hc; symmetry in Hc.
        apply app_inj_tail in Hc; destruct Hc as (_ & ->); reflexivity.
      * intros r [<- | []]; exact Hrec.
    + apply bind_ok in H; destruct H as ([st2 recs] & Hrest & H).
      injection H as <- <-.
      destruct (IH _ _ _ Hrest Hst1) as (Hnil & Hlast & Hall).
      split; [intros Hc; discriminate Hc |].
      split.
      * intros [| x pre] r Hc; simpl in Hc; injection Hc as Hr Hc.
        -- subst r; rewrite (Hnil Hc); reflexivity.
        -- apply (Hlast pre r Hc).
      * intros r [<- | Hin]; [exact Hrec | apply Hall, Hin].
Qed.

(** X8: when [train] returns, the record appended for the seed to the
    shared [val_metrics.json] is built from the validation metrics of the
    LAST executed epoch, not of the best one. If that epoch reset the counter
    (it is the best one) its metrics dict is the very object that received
    the ["loss"] entry, so the appended record is the content of
    [best_metrics.json]; otherwise the record is the last epoch's metrics as
    [evaluate] returned them. *)
Theorem X8_shared_record_is_the_last_epoch (self : DLWrapper.t) (fs : files)
    (train_dataset val_dataset : dataset Data) (w : weight) (seed : Z) (args : train_args)
    (self' : DLWrapper.t) (fs' : files) (executed : list epoch_record) :
  train self fs train_dataset val_dataset w seed args = inr (self', fs', executed) ->
  exists (ms : dict metric) (pre : list epoch_record) (r : epoch_record) (vm bm : results),
    metrics (set_metrics self) = Some ms /\
    executed = pre ++ [r] /\
    evaluate (self_of (er_after r)) (loader val_dataset (batch_size args) None) ms
      (train_weight (set_metrics self) train_dataset w) = inr (er_val_loss r, vm) /\
    best_metrics_json fs' = Some bm /\
    val_metrics_shared fs' =
      append_results (val_metrics_shared fs) (if (counter_of r =? 0)%Z then bm else vm) seed /\
    (counter_of r = 0%Z -> bm = dict_set vm "loss" (MFloat (Fin (er_val_loss r)))).
Proof.
  intros Htrain.
  unfold train in Htrain.
  apply bind_ok in Htrain; destruct Htrain as (ms & Hms & Htrain).
  apply bind_ok in Htrain; destruct Htrain as (dir & _ & Htrain).
  apply bind_ok in Htrain; destruct Htrain as ([st ex] & Hloop & Htrain).
  apply bind_ok in Htrain; destruct Htrain as (bm & Hbm & Htrain).
  apply bind_ok in Htrain; destruct Htrain as (vm & Hvm & Htrain).
  apply bind_ok in Htrain; destruct Htrain as (self1 & _ & Htrain).
  injection Htrain as _ <- <-.
  pose proof (train_epochs_files _ _ _ _ _ _ _ Hloop) as (_ & _ & Hshared & _).
  apply train_epochs_records in Hloop; [| simpl; lia].
  destruct Hloop as (Hnil & Hlast & Hall).
  destruct (exists_last (l := ex)) as (pre & r & Hex).
  { intros ->; rewrite (Hnil eq_refl) in Hbm; discriminate Hbm. }
  rewrite (Hlast pre r Hex) in *.
  destruct (Hall r) as (vm' & Hvm' & Heval & Hpos & Hflag & Hbest).
  { rewrite Hex; apply in_or_app; right; left; reflexivity. }
  rewrite Hvm' in Hvm; injection Hvm as <-.
  exists ms.
  destruct (metrics (set_metrics self)) as [ms0 |]; simpl in Hms; [| discriminate].
  injection Hms as ->.
  exists pre, r, vm', (dict_set bm "loss" (MFloat (best_loss (er_after r)))); simpl.
  split; [reflexivity |]. split; [exact Hex |]. split; [exact Heval |].
  split; [reflexivity |].
  split; [rewrite Hflag, Hshared; reflexivity |].
  intros Hzero; destruct (Hbest Hzero) as (Hb1 & Hb2).
  rewrite Hb1 in Hbm; injection Hbm as <-.
  rewrite Hb2; reflexivity.
Qed.

(** The dict of computed metrics has the metric names as its keys. *)
Lemma compute_metrics_keys_from (updates : list (preds * list Q)) (ms : dict metric) :
  forall acc res,
    for_each (fun (res : results) (nm : string * metric) =>
                v <- metric_compute (snd nm) updates ;; Ok (dict_set res (fst nm) v))
             ms acc = inr res ->
    NoDup (keys ms) ->
    (forall k, In k (keys ms) -> ~ In k (keys acc)) ->
    keys res = keys acc ++ keys ms.
Proof.
  induction ms as [| [name mt] rest IH]; simpl; intros acc res H Hnodup Hfresh.
  - injection H as <-; rewrite app_nil_r; reflexivity.
  - apply bind_ok in H; destruct H as (acc1 & Hbody & Hrest).
    apply bind_ok in Hbody; destruct Hbody as (v & _ & Hbody).
    injection Hbody as <-.
    inversion Hnodup as [| name' rest' Hnotin Hnodup']; subst.
    rewrite (IH _ _ Hrest Hnodup').
    + rewrite dict_set_fresh_key by (apply Hfresh; left; reflexivity).
      rewrite <- app_assoc; reflexivity.
    + intros k Hk; rewrite dict_set_fresh_key by (apply Hfresh; left; reflexivity).
      intros Hin; apply in_app_or in Hin; destruct Hin as [Hin | [-> | []]].
      * apply (Hfresh k); [right; exact Hk | exact Hin].
      * apply Hnotin, Hk.
Qed.

Lemma evaluate_keys (self : DLWrapper.t) (batches : list (element Data)) (ms : dict metric)
    (w : weight) (loss : Q) (res : results) :
  evaluate self batches ms w = inr (loss, res) ->
  NoDup (keys ms) ->
  keys res = keys ms.
Proof.
  unfold evaluate; intros H Hnodup.
  apply bind_ok in H; destruct H as ([ls ups] & _ & H).
  apply bind_ok in H; destruct H as (r & Hr & H).
  apply bind_ok in H; destruct H as (l & _ & H).
  injection H as _ <-.
  apply (compute_metrics_keys_from ups ms [] Hr Hnodup).
  intros k _ [].
Qed.

(** The metric names [set_metrics] installs are distinct and none is
    ["loss"]. *)
Lemma set_metrics_names (self : DLWrapper.t) (ms : dict metric) :
  metrics (set_metrics self) = Some ms ->
  NoDup (keys ms) /\ ~ In "loss" (keys ms).
Proof.
  unfold set_metrics.
  destruct (Nat.eqb (out_features (encoder self)) 2);
    [| destruct (Nat.eqb (out_features (encoder self)) 1); [destruct (scaler self) |]];
    simpl; intros H; injection H as <-; simpl;
    (split; [repeat constructor; simpl; intuition discriminate | intuition discriminate]).
Qed.

(** The best metrics, once bound, carry the metric names. *)
Lemma train_epochs_best_keys (args : train_args) (train_dataset val_dataset : dataset Data)
    (w : weight) (ms : dict metric) (todo : list nat) :
  NoDup (keys ms) ->
  forall st st' executed,
    train_epochs args train_dataset val_dataset w ms todo st = inr (st', executed) ->
    (forall bm, best_metrics st = Some bm -> keys bm = keys ms) ->
    forall bm, best_metrics st' = Some bm -> keys bm = keys ms.
Proof.
  intros Hnodup; induction todo as [| epoch rest IH]; simpl; intros st st' executed H Hst.
  - injection H as <- _; exact Hst.
  - apply bind_ok in H; destruct H as ([[self1 tl] tr] & _ & H).
    apply bind_ok in H; destruct H as ([vl vr] & Heval & H).
    apply evaluate_keys in Heval; [| exact Hnodup].
    set (st1 := early_stopping args epoch vl vr (with_self st self1)) in *.
    assert (forall bm, best_metrics st1 = Some bm -> keys bm = keys ms) as Hst1.
    { subst st1; unfold early_stopping.
      destruct (improves args vl (best_loss (with_self st self1))); simpl.
      - intros bm Hbm; injection Hbm as <-; exact Heval.
      - exact Hst. }
    destruct (stops args st1).
    + injection H as <- _; exact Hst1.
    + apply bind_ok in H; destruct H as ([st2 recs] & Hrest & H).
      injection H as <- _.
      apply (IH _ _ _ Hrest Hst1).
Qed.

(** X10: the files written have a fixed schema. When [test] returns,
    [test_metrics.json] holds one entry per metric that [set_metrics]
    installed, in that order, followed by ["loss"], and that dict is what is
    appended for the seed to the shared file; when [train] returns,
    [best_metrics.json] has the same keys. *)
Theorem X10_written_records_have_the_metric_names (self : DLWrapper.t) (fs : files)
    (w : weight) (seed : Z) :
  (forall (ds : dataset Data) (self' : DLWrapper.t) (fs' : files),
      test self fs ds seed w = inr (self', fs') ->
      exists ms res,
        metrics (set_metrics self) = Some ms /\
        test_metrics_json fs' = Some res /\
        keys res = keys ms ++ ["loss"] /\
        test_metrics_shared fs' = append_results (test_metrics_shared fs) res seed) /\
  (forall (train_dataset val_dataset : dataset Data) (args : train_args)
          (self' : DLWrapper.t) (fs' : files) (executed : list epoch_record),
      train self fs train_dataset val_dataset w seed args = inr (self', fs', executed) ->
      exists ms bm,
        metrics (set_metrics self) = Some ms /\
        best_metrics_json fs' = Some bm /\
        keys bm = keys ms ++ ["loss"]).
Proof.
  split.
  - intros ds self' fs' Htest.
    unfold test in Htest.
    apply bind_ok in Htest; destruct Htest as (ms & Hms & Htest).
    apply bind_ok in Htest; destruct Htest as ([l res] & Heval & Htest).
    apply bind_ok in Htest; destruct Htest as (dir & _ & Htest).
    injection Htest as _ <-; simpl.
    destruct (metrics (set_metrics self)) as [ms0 |] eqn:Hms0; simpl in Hms; [| discriminate].
    injection Hms as ->.
    destruct (set_metrics_names self Hms0) as (Hnodup & Hloss).
    apply evaluate_keys in Heval; [| exact Hnodup].
    exists ms, (dict_set res "loss" (MFloat (Fin l))).
    split; [reflexivity |]. split; [reflexivity |].
    split; [| reflexivity].
    rewrite dict_set_fresh_key by (rewrite Heval; exact Hloss).
    rewrite Heval; reflexivity.
  - intros train_dataset val_dataset args self' fs' executed Htrain.
    unfold train in Htrain.
    apply bind_ok in Htrain; destruct Htrain as (ms & Hms & Htrain).
    apply bind_ok in Htrain; destruct Htrain as (dir & _ & Htrain).
    apply bind_ok in Htrain; destruct Htrain as ([st ex] & Hloop & Htrain).
    apply bind_ok in Htrain; destruct Htrain as (bm & Hbm & Htrain).
    apply bind_ok in Htrain; destruct Htrain as (vm & _ & Htrain).
    apply bind_ok in Htrain; destruct Htrain as (self1 & _ & Htrain).
    injection Htrain as _ <- _; simpl.
    destruct (metrics (set_metrics self)) as [ms0 |] eqn:Hms0; simpl in Hms; [| discriminate].
    injection Hms as ->.
    destruct (set_metrics_names self Hms0) as (Hnodup & Hloss).
    destruct (best_metrics st) as [bm0 |] eqn:Hbest; simpl in Hbm; [| discriminate].
    injection Hbm as ->.
    assert (keys bm = keys ms) as Hkeys.
    { eapply train_epochs_best_keys; [exact Hnodup | exact Hloop | | exact Hbest].
      simpl; intros b Hb; discriminate Hb. }
    exists ms, (dict_set bm "loss" (MFloat (best_loss st))).
    split; [reflexivity |]. split; [reflexivity |].
    rewrite dict_set_fresh_key by (rewrite Hkeys; exact Hloss).
    rewrite Hkeys; reflexivity.
Qed.

End TrainRecords.

Lemma X8_witness :
  exists self' fs' executed,
    run_curve [1%Q; 2%Q] (args_of 2 10 0) = inr (self', fs', executed) /\
    exists (ms : dict metric) (pre : list DLWrapper.epoch_record) (r : DLWrapper.epoch_record)
           (vm bm : results),
      DLWrapper.metrics (DLWrapper.set_metrics (fresh_wrapper [1%Q; 2%Q])) = Some ms /\
      executed = pre ++ [r] /\
      DLWrapper.evaluate (DLWrapper.self_of (DLWrapper.er_after r))
        (loader one_batch (DLWrapper.batch_size (args_of 2 10 0)) None) ms
        (DLWrapper.train_weight (DLWrapper.set_metrics (fresh_wrapper [1%Q; 2%Q]))
           one_batch WNone) = inr (DLWrapper.er_val_loss r, vm) /\
      DLWrapper.best_metrics_json fs' = Some bm /\
      DLWrapper.val_metrics_shared fs' =
        DLWrapper.append_results
          (DLWrapper.val_metrics_shared (@no_files (curve_torch [1%Q; 2%Q])))
          (if (DLMore.counter_of r =? 0)%Z then bm else vm) 0%Z /\
      (DLMore.counter_of r = 0%Z ->
       bm = dict_set vm "loss" (MFloat (Fin (DLWrapper.er_val_loss r)))).
Proof.
  do 3 eexists.
  split; [vm_compute; reflexivity |].
  eapply (@X8_shared_record_is_the_last_epoch (curve_torch [1%Q; 2%Q])
            (fresh_wrapper [1%Q; 2%Q]) no_files one_batch one_batch WNone 0%Z
            (args_of 2 10 0)).
  vm_compute; reflexivity.
Defined.

Lemma X10_witness :
  exists self' fs' res,
    DLWrapper.test (stub_wrapper 2) no_files one_batch 0%Z WNone = inr (self', fs') /\
    DLWrapper.test_metrics_json fs' = Some res /\
    keys res = ["PR"; "AUC"; "PR_Curve"; "ROC_Curve"; "Calibration_Curve"; "loss"].
Proof.
  destruct (proj1 (@X10_written_records_have_the_metric_names (stub_torch 2)
                     (stub_wrapper 2) no_files WNone 0%Z)
              one_batch
              (fst (match DLWrapper.test (stub_wrapper 2) no_files one_batch 0%Z WNone with
                    | inr p => p
                    | inl _ => (stub_wrapper 2, no_files)
                    end))
              (snd (match DLWrapper.test (stub_wrapper 2) no_files one_batch 0%Z WNone with
                    | inr p => p
                    | inl _ => (stub_wrapper 2, no_files)
                    end))
              eq_refl)
    as (ms & res & Hms & Hfile & Hkeys & _).
  do 3 eexists.
  split; [reflexivity |].
  split; [exact Hfile |].
  rewrite Hkeys.
  vm_compute in Hms; injection Hms as <-; reflexivity.
Defined.

(** ** When the scaler is read *)

Section ScalerBinding.


End ScalerBinding.


(** ** Recipe steps: errors and what a transform touches *)

Section StepEdges.
Import Recipes RecipeSpec RecipeMore.
Context {B : Tabular}.

(** X12: the two group-aware steps only work on grouped data. Handed an
    ungrouped table, [fit], [transform] and [fit_transform] of a
    [StepImputeFill] or [StepHistorical] fail on the missing attribute [obj]
    and leave the step (still untrained if it was) and the table as they
    were. *)
Theorem X12_group_aware_steps_need_grouped_data (s : step) (f : frame) :
  reads_obj s ->
  fit {| self := s; data := Plain f |}
    = ({| self := s; data := Plain f |}, inl (AttributeError "obj")) /\
  transform {| self := s; data := Plain f |}
    = ({| self := s; data := Plain f |}, inl (AttributeError "obj")) /\
  fit_transform {| self := s; data := Plain f |}
    = ({| self := s; data := Plain f |}, inl (AttributeError "obj")).
Proof.
  destruct s as [sl cs tr gr fl]; unfold reads_obj; simpl.
  destruct fl; intros H; try destruct H; repeat split.
Qed.

Lemma getitems_missing (f : frame) (cs : list string) (c : string) :
  In c cs -> dict_get (cols f) c = None ->
  exists c', getitems f cs = inl (KeyError c') /\ In c' cs /\ dict_get (cols f) c' = None.
Proof.
  induction cs as [| x rest IH]; simpl; intros Hin Hnone; [destruct Hin |].
  unfold getitem at 1.
  destruct (dict_get (cols f) x) as [col |] eqn:Hx; simpl.
  - destruct Hin as [-> | Hin]; [congruence |].
    destruct (IH Hin Hnone) as (c' & Hget & Hin' & Hnone').
    exists c'; rewrite Hget; simpl; auto.
  - exists x; auto.
Qed.

(** X13: the columns resolved at [fit] are looked up again at [transform].
    If the grouped table then lacks one of them, the transform of a
    [StepImputeFill] (and of a [StepHistorical] whose function is ["max"] or
    ["min"]) raises [KeyError] for the first missing column and leaves the
    table and the step untouched; so does the transform of a [StepSklearn]
    that is not columnwise, on an ungrouped table. *)
Theorem X13_missing_resolved_column_is_a_KeyError (w : world) (c : string) :
  In c (columns (self w)) ->
  dict_get (cols (frame_of (data w))) c = None ->
  (forall ks obj, data w = Grouped ks obj ->
     (forall value method limit,
         fields_of (self w) = IsStepImputeFill value method limit ->
         exists c', transform w = (w, inl (KeyError c')) /\
                    In c' (columns (self w)) /\ dict_get (cols obj) c' = None) /\
     (forall fun_ suffix role,
         fields_of (self w) = IsStepHistorical fun_ suffix role ->
         fun_ = "max" \/ fun_ = "min" ->
         exists c', transform w = (w, inl (KeyError c')) /\
                    In c' (columns (self w)) /\ dict_get (cols obj) c' = None)) /\
  (forall f t is_in_place trs, data w = Plain f ->
     fields_of (self w) = IsStepSklearn t false is_in_place trs ->
     exists c', transform w = (w, inl (KeyError c')) /\
                In c' (columns (self w)) /\ dict_get (cols f) c' = None).
Proof.
  destruct w as [[sl cs tr gr fl] d]; simpl; intros Hin Hnone.
  split.
  - intros ks obj ->; simpl in Hnone.
    destruct (getitems_missing obj cs c Hin Hnone) as (c' & Hget & Hin' & Hnone').
    split.
    + intros value method limit ->.
      exists c'; split; [| auto].
      unfold transform, StepImputeFill_transform, bindM, get_self, get_data, lift; simpl.
      rewrite Hget; reflexivity.
    + intros fun_ suffix role -> Hfun.
      exists c'; split; [| auto].
      unfold transform, StepHistorical_transform, bindM, get_self, get_data, lift; simpl.
      destruct Hfun as [-> | ->]; simpl; rewrite Hget; reflexivity.
  - intros f t is_in_place trs -> ->; simpl in Hnone.
    destruct (getitems_missing f cs c Hin Hnone) as (c' & Hget & Hin' & Hnone').
    exists c'; split; [| auto].
    unfold transform, StepSklearn_transform, bindM, get_self, get_data, lift; simpl.
    rewrite Hget; reflexivity.
Qed.

(** X14: [StepHistorical] accepts any function name at construction and at
    [fit], but its [transform] only binds the result for ["max"] and
    ["min"]: with any other name, [fit_transform] on grouped data fits the
    step (it ends trained, when the selector answers) and then fails on the
    unbound name [res], the table untouched. *)
Theorem X14_historical_with_unknown_function (s : selector) (fun_ : string)
    (suffix : option string) (role : string) (ks : list nat) (obj : frame)
    (cs : list string) :
  fun_ <> "max" -> fun_ <> "min" ->
  s (Plain obj) = inr cs ->
  exists w',
    fit_transform {| self := StepHistorical_init s fun_ suffix role; data := Grouped ks obj |}
      = (w', inl (UnboundLocalError "res")) /\
    trained (self w') = true /\
    columns (self w') = cs /\
    data w' = Grouped ks obj.
Proof.
  intros Hmax Hmin Hsel.
  apply String.eqb_neq in Hmax, Hmin.
  eexists; split.
  - unfold fit_transform, fit, transform, StepHistorical_fit, StepHistorical_transform,
      bindM, get_self, get_data, lift, set_columns, set_trained, modify; simpl.
    rewrite Hsel; simpl.
    rewrite Hmax, Hmin; simpl.
    reflexivity.
  - simpl; auto.
Qed.

End StepEdges.

Lemma X12_witness :
  Recipes.fit_transform
    {| Recipes.self := Recipes.self impute_world; Recipes.data := Plain vitals |}
  = ({| Recipes.self := Recipes.self impute_world; Recipes.data := Plain vitals |},
     inl (AttributeError "obj")).
Proof.
  apply (proj2 (proj2 (@X12_group_aware_steps_need_grouped_data toy_tabular
                         (Recipes.self impute_world) vitals I))).
Defined.

Lemma X14_witness :
  exists w',
    Recipes.fit_transform
      {| Recipes.self := @Recipes.StepHistorical_init toy_tabular all_columns "mean" None
                           "predictor";
         Recipes.data := grouped_vitals |}
      = (w', inl (UnboundLocalError "res")) /\
    Recipes.trained (Recipes.self w') = true /\
    Recipes.columns (Recipes.self w') = ["hr"; "bp"] /\
    Recipes.data w' = grouped_vitals.
Proof.
  apply (@X14_historical_with_unknown_function toy_tabular all_columns "mean" None
           "predictor" [0; 0; 1; 1] vitals ["hr"; "bp"]).
  - intros H; discriminate H.
  - intros H; discriminate H.
  - reflexivity.
Defined.

Lemma X13_witness :
  exists c',
    Recipes.transform impute_world_after_schema_change
      = (impute_world_after_schema_change, inl (KeyError c')) /\
    In c' (Recipes.columns (Recipes.self impute_world_after_schema_change)) /\
    dict_get (cols vitals) c' = None.
Proof.
  refine (proj1 (proj1 (@X13_missing_resolved_column_is_a_KeyError toy_tabular
                          impute_world_after_schema_change "spo2" _ _)
                   [0; 0; 1; 1] vitals eq_refl)
            (Some 0%Q) None None eq_refl).
  - simpl; auto.
  - reflexivity.
Defined.

(** ** Recipe steps: what a transform changes *)

Section StepFrames.
Import Recipes RecipeSpec RecipeMore.
Context {B : Tabular}.

Lemma dict_get_set_other {V : Type} (d : dict V) (k k' : string) (v : V) :
  k <> k' -> dict_get (dict_set d k v) k' = dict_get d k'.
Proof.
  intros Hne; induction d as [| [k0 v0] rest IH]; simpl.
  - destruct (String.eqb k' k) eqn:Hk; [| reflexivity].
    apply String.eqb_eq in Hk; congruence.
  - destruct (String.eqb k k0) eqn:Hk; simpl.
    + apply String.eqb_eq in Hk; subst k0.
      destruct (String.eqb k' k) eqn:Hk'; [| reflexivity].
      apply String.eqb_eq in Hk'; congruence.
    + rewrite IH; reflexivity.
Qed.

Lemma dict_set_present_key {V : Type} (d : dict V) (k : string) (v : V) :
  In k (keys d) -> keys (dict_set d k v) = keys d.
Proof.
  induction d as [| [k0 v0] rest IH]; simpl; intros Hin; [destruct Hin |].
  destruct (String.eqb k k0) eqn:Hk; simpl; [reflexivity |].
  f_equal; apply IH.
  destruct Hin as [-> | Hin]; [rewrite String.eqb_refl in Hk; discriminate | exact Hin].
Qed.

Lemma dict_get_some_key {V : Type} (d : dict V) (k : string) (v : V) :
  dict_get d k = Some v -> In k (keys d).
Proof.
  induction d as [| [k0 v0] rest IH]; simpl; intros H; [discriminate |].
  destruct (String.eqb k k0) eqn:Hk.
  - apply String.eqb_eq in Hk; left; symmetry; exact Hk.
  - right; apply IH, H.
Qed.

Lemma dict_set_key_in {V : Type} (d : dict V) (k : string) (v : V) :
  In k (keys (dict_set d k v)).
Proof.
  apply (dict_get_some_key (dict_set d k v) k (v := v)), dict_get_set.
Qed.

Lemma dict_set_keeps_keys {V : Type} (d : dict V) (k k' : string) (v : V) :
  In k' (keys d) -> In k' (keys (dict_set d k v)).
Proof.
  induction d as [| [k0 v0] rest IH]; simpl; intros Hin; [destruct Hin |].
  destruct (String.eqb k k0); simpl; [exact Hin |].
  destruct Hin as [-> | Hin]; [left; reflexivity | right; apply IH, Hin].
Qed.

Lemma getitems_present (f : frame) (cs : list string) (selected : list column) :
  getitems f cs = inr selected -> forall c, In c cs -> In c (keys (cols f)).
Proof.
  revert selected; induction cs as [| x rest IH]; simpl; intros selected H c Hin;
    [destruct Hin |].
  apply bind_ok in H; destruct H as (col & Hcol & H).
  apply bind_ok in H; destruct H as (others & Hothers & _).
  destruct Hin as [<- | Hin]; [| apply (IH _ Hothers c Hin)].
  unfold getitem in Hcol.
  destruct (dict_get (cols f) x) as [col' |] eqn:Hx; [| discriminate].
  apply (dict_get_some_key _ _ Hx).
Qed.

(** What an assignment to several columns changes. *)
Lemma setitems_frame (names : list string) :
  forall (f f' : frame) (values : list column),
    setitems f names values = inr f' ->
    roles f' = roles f /\
    (forall c, ~ In c names -> dict_get (cols f') c = dict_get (cols f) c) /\
    (forall c, In c (keys (cols f)) -> In c (keys (cols f'))) /\
    (forall c, In c names -> In c (keys (cols f'))) /\
    ((forall c, In c names -> In c (keys (cols f))) -> keys (cols f') = keys (cols f)).
Proof.
  induction names as [| x rest IH]; intros f f' [| col values] H; simpl in H;
    try discriminate.
  - injection H as <-; repeat split; auto; intros c [].
  - destruct (IH _ _ _ H) as (Hroles & Hother & Hold & Hnew & Hkeys); simpl in *.
    split; [exact Hroles |].
    split.
    { intros c Hc; rewrite Hother by tauto.
      apply dict_get_set_other; intros ->; apply Hc; left; reflexivity. }
    split; [intros c Hc; apply Hold, dict_set_keeps_keys, Hc |].
    split.
    { intros c [<- | Hc]; [apply Hold, dict_set_key_in | apply Hnew, Hc]. }
    intros Hall; rewrite Hkeys.
    + apply dict_set_present_key, Hall; left; reflexivity.
    + intros c Hc; apply dict_set_keeps_keys, Hall; right; exact Hc.
Qed.

(** X15: when the transform of a [StepImputeFill] returns, the table handed
    in (the object behind the group-by handle) is the table returned; it has
    the same column names in the same order and the same roles as before,
    every column that is not among the resolved ones is unchanged, and the
    step itself is unchanged. *)
Theorem X15_impute_touches_resolved_columns_only (w w' : world) (ret : option table)
    (value : option Q) (method : option string) (limit : option Z) :
  fields_of (self w) = IsStepImputeFill value method limit ->
  transform w = (w', inr ret) ->
  exists ks obj f',
    data w = Grouped ks obj /\
    data w' = Grouped ks f' /\
    ret = Some (Plain f') /\
    self w' = self w /\
    keys (cols f') = keys (cols obj) /\
    roles f' = roles obj /\
    (forall c, ~ In c (columns (self w)) -> dict_get (cols f') c = dict_get (cols obj) c).
Proof.
  destruct w as [[sl cs tr gr fl] d]; simpl; intros -> H.
  unfold transform, StepImputeFill_transform, bindM, get_self, get_data, lift, set_data,
    modify in H; simpl in H.
  destruct d as [f | ks obj]; simpl in H; [discriminate |].
  destruct (getitems obj cs) as [e | selected] eqn:Hget; simpl in H; [discriminate |].
  destruct (fillna ks selected value method limit) as [e | filled]; simpl in H;
    [discriminate |].
  destruct (setitems obj cs filled) as [e | f'] eqn:Hset; simpl in H; [discriminate |].
  injection H as <- <-.
  destruct (setitems_frame _ _ _ Hset) as (Hroles & Hother & _ & _ & Hkeys).
  exists ks, obj, f'; simpl.
  repeat split; auto.
  apply Hkeys; intros c Hc; apply (getitems_present _ _ Hget c Hc).
Qed.

(** X18: the transform of a [StepScale] is not atomic. It overwrites each
    column before it reads the next, so when the first fitted column is
    scaled and the second is missing from the table, the transform raises
    [KeyError] for the second with the first column already replaced in the
    caller's table. *)
Theorem X18_scale_failure_leaves_earlier_columns_scaled (w : world) (f : frame)
    (with_mean with_std : bool) (c1 c2 : string) (s1 s2 : FittedScaler)
    (rest : dict FittedScaler) (col col' : column) :
  data w = Plain f ->
  fields_of (self w) = IsStepScale with_mean with_std (Some ((c1, s1) :: (c2, s2) :: rest)) ->
  dict_get (cols f) c1 = Some col ->
  standard_scaler_transform s1 col = inr col' ->
  dict_get (cols f) c2 = None ->
  transform w = (with_column w c1 col', inl (KeyError c2)) /\
  dict_get (cols (frame_of (data (with_column w c1 col')))) c1 = Some col'.
Proof.
  destruct w as [[sl cs tr gr fl] d]; simpl; intros -> -> Hc1 Hs1 Hc2.
  assert (c1 <> c2) as Hne by (intros ->; congruence).
  split.
  - unfold transform, StepScale_transform, bindM, get_self, get_data, lift, set_data,
      modify, with_column; simpl.
    unfold bindM; simpl.
    unfold getitem; rewrite Hc1; simpl; rewrite Hs1; simpl.
    unfold getitem, setitem; simpl.
    rewrite dict_get_set_other by exact Hne.
    rewrite Hc2; reflexivity.
  - unfold with_column; simpl; apply dict_get_set.
Qed.

End StepFrames.

Lemma X15_witness :
  exists ks obj f',
    Recipes.data (fst (Recipes.fit impute_world)) = Grouped ks obj /\
    Recipes.data (fst (Recipes.transform (fst (Recipes.fit impute_world)))) = Grouped ks f' /\
    snd (Recipes.fit_transform impute_world) = inr (Some (Plain f')) /\
    Recipes.self (fst (Recipes.transform (fst (Recipes.fit impute_world))))
      = Recipes.self (fst (Recipes.fit impute_world)) /\
    keys (cols f') = keys (cols obj) /\
    roles f' = roles obj /\
    (forall c, ~ In c (Recipes.columns (Recipes.self (fst (Recipes.fit impute_world)))) ->
               dict_get (cols f') c = dict_get (cols obj) c).
Proof.
  destruct (@X15_impute_touches_resolved_columns_only toy_tabular
              (fst (Recipes.fit impute_world))
              (fst (Recipes.transform (fst (Recipes.fit impute_world))))
              (Some (Plain {| cols := [("hr", [Some 3%Q; Some 0%Q; Some 4%Q; Some 1%Q]);
                                       ("bp", [Some 0%Q; Some 2%Q; Some 0%Q; Some 5%Q])];
                              roles := [("hr", ["predictor"]); ("bp", ["predictor"])] |}))
              (Some 0%Q) None None eq_refl eq_refl)
    as (ks & obj & f' & H1 & H2 & H3 & H4 & H5 & H6 & H7).
  exists ks, obj, f'.
  refine (conj H1 (conj H2 (conj _ (conj H4 (conj H5 (conj H6 H7)))))).
  injection H3 as <-; reflexivity.
Defined.

Lemma X18_witness :
  Recipes.transform scale_world_after_schema_change
    = (RecipeMore.with_column scale_world_after_schema_change "hr"
         [Some 0%Q; None; Some (4 - 3)%Q; Some (1 - 3)%Q],
       inl (KeyError "spo2")) /\
  dict_get
    (cols (Recipes.frame_of
             (Recipes.data (RecipeMore.with_column scale_world_after_schema_change "hr"
                              [Some 0%Q; None; Some (4 - 3)%Q; Some (1 - 3)%Q])))) "hr"
  = Some [Some 0%Q; None; Some (4 - 3)%Q; Some (1 - 3)%Q].
Proof.
  apply (@X18_scale_failure_leaves_earlier_columns_scaled toy_tabular
           scale_world_after_schema_change vitals true true "hr" "spo2" 3%Q 90%Q []
           [Some 3%Q; None; Some 4%Q; Some 1%Q]); reflexivity.
Defined.

(** ** Recipe steps: derived columns and fitting again *)

Section StepDerived.
Import Recipes RecipeSpec RecipeMore.
Context {B : Tabular}.

Lemma bindM_run {W A C : Type} (m : M W A) (k : A -> M W C) (w : W) :
  bindM m k w = match m w with
                | (w', inl e) => (w', inl e)
                | (w', inr a) => k a w'
                end.
Proof. reflexivity. Qed.

Lemma get_self_run (w : world) : get_self w = (w, inr (self w)).
Proof. reflexivity. Qed.

Lemma get_data_run (w : world) : get_data w = (w, inr (data w)).
Proof. reflexivity. Qed.

Lemma lift_run {A : Type} (r : result A) (w : world) : lift r w = (w, r).
Proof. reflexivity. Qed.

Lemma set_data_run (d : table) (w : world) :
  set_data d w = ({| self := self w; data := d |}, inr tt).
Proof. reflexivity. Qed.

Lemma ret_run {A : Type} (a : A) (w : world) : ret a w = (w, inr a).
Proof. reflexivity. Qed.

Lemma with_frame_frame_of (d : table) : with_frame d (frame_of d) = d.
Proof. destruct d; reflexivity. Qed.

(** The role loop of [StepHistorical.transform] tags the names one by one. *)
Lemma role_loop_run (role : string) (names : list string) :
  forall w : world,
    for_in names (fun nc =>
      d' <~ get_data ;;
      set_data (with_frame d' (add_role (frame_of d') nc role))) w
    = ({| self := self w;
          data := with_frame (data w) (tag_all role names (frame_of (data w))) |}, Ok tt).
Proof.
  induction names as [| nc rest IH]; intros [s d]; simpl.
  - unfold ret, tag_all; simpl; rewrite with_frame_frame_of; reflexivity.
  - unfold bindM at 1; unfold bindM at 1; unfold get_data, set_data, modify; simpl.
    rewrite IH; simpl; unfold tag_all; simpl.
    destruct d; reflexivity.
Qed.

Lemma tag_all_cols (role : string) (names : list string) :
  forall f, cols (tag_all role names f) = cols f.
Proof.
  induction names as [| nc rest IH]; intros f; [reflexivity |].
  unfold tag_all in *; simpl; rewrite IH; reflexivity.
Qed.

Lemma tag_all_other (role : string) (names : list string) (c : string) :
  ~ In c names ->
  forall f, dict_get (roles (tag_all role names f)) c = dict_get (roles f) c.
Proof.
  induction names as [| nc rest IH]; intros Hc f; [reflexivity |].
  unfold tag_all in *; simpl; rewrite IH by (intros H; apply Hc; right; exact H).
  simpl; apply dict_get_set_other; intros ->; apply Hc; left; reflexivity.
Qed.

Lemma tag_all_keeps_tag (role : string) (names : list string) (c : string) :
  forall f,
    (exists rs, dict_get (roles f) c = Some (rs ++ [role])) ->
    exists rs, dict_get (roles (tag_all role names f)) c = Some (rs ++ [role]).
Proof.
  induction names as [| nc rest IH]; intros f Hf; [exact Hf |].
  unfold tag_all in *; simpl; apply IH; simpl.
  destruct (String.eqb_spec nc c) as [-> | Hne].
  - rewrite dict_get_set.
    destruct Hf as (rs & ->); exists (rs ++ [role]); reflexivity.
  - rewrite dict_get_set_other by exact Hne; exact Hf.
Qed.

Lemma tag_all_tags (role : string) (names : list string) (c : string) :
  In c names ->
  forall f, exists rs, dict_get (roles (tag_all role names f)) c = Some (rs ++ [role]).
Proof.
  induction names as [| nc rest IH]; intros Hin f; [destruct Hin |].
  destruct Hin as [-> | Hin].
  - change (tag_all role (c :: rest) f) with (tag_all role rest (add_role f c role)).
    apply tag_all_keeps_tag; simpl; rewrite dict_get_set.
    destruct (dict_get (roles f) c) as [rs |]; [exists rs | exists []]; reflexivity.
  - apply (IH Hin (add_role f nc role)).
Qed.

(** X16: when the transform of a [StepHistorical] returns, the table handed
    in is the table returned and the step is unchanged; every derived name
    [c_suffix] is a column of the table and has the step's role as the last
    of its roles; every column and every role entry under another name is
    as before, and no column disappears. *)
Theorem X16_historical_adds_tagged_columns (w w' : world) (ret : option table)
    (fun_ suffix role : string) :
  fields_of (self w) = IsStepHistorical fun_ suffix role ->
  transform w = (w', inr ret) ->
  exists ks obj f',
    data w = Grouped ks obj /\
    data w' = Grouped ks f' /\
    ret = Some (Plain f') /\
    self w' = self w /\
    (forall nc, In nc (derived_names suffix (columns (self w))) ->
       In nc (keys (cols f')) /\
       exists rs, dict_get (roles f') nc = Some (rs ++ [role])) /\
    (forall c, ~ In c (derived_names suffix (columns (self w))) ->
       dict_get (cols f') c = dict_get (cols obj) c /\
       dict_get (roles f') c = dict_get (roles obj) c) /\
    (forall c, In c (keys (cols obj)) -> In c (keys (cols f'))).
Proof.
  destruct w as [[sl cs tr gr fl] d]; simpl; intros -> H.
  unfold transform in H; rewrite bindM_run, get_self_run in H; cbn [self fields_of] in H.
  unfold StepHistorical_transform in H.
  rewrite bindM_run, get_self_run, bindM_run, get_data_run in H; cbn [self data columns] in H.
  fold (derived_names suffix cs) in H.
  rewrite bindM_run, lift_run in H.
  destruct d as [f | ks obj]; cbv beta iota delta [obj_of Ok Raise] in H; [discriminate |].
  rewrite bindM_run, lift_run in H.
  match type of H with
  | context [match ?r with inl _ => _ | inr _ => _ end] =>
      destruct r as [e | [res |]] eqn:Hres
  end; try discriminate.
  - rewrite bindM_run, lift_run in H.
    rewrite bindM_run, lift_run in H.
    destruct (setitems obj (derived_names suffix cs) res) as [e | f1] eqn:Hset;
      [discriminate |].
    rewrite bindM_run, set_data_run in H.
    rewrite bindM_run, role_loop_run in H.
    rewrite bindM_run, get_data_run, ret_run in H; cbn [self data with_frame frame_of] in H.
    injection H as <- <-; simpl.
    destruct (setitems_frame _ _ _ Hset) as (Hroles & Hother & Hold & Hnew & _).
    exists ks, obj, (tag_all role (derived_names suffix cs) f1).
    split; [reflexivity |]. split; [reflexivity |]. split; [reflexivity |].
    split; [reflexivity |].
    split.
    { intros nc Hnc; split.
      - rewrite tag_all_cols; apply Hnew, Hnc.
      - apply tag_all_tags, Hnc. }
    split.
    { intros c Hc; split.
      - rewrite tag_all_cols; apply Hother, Hc.
      - rewrite tag_all_other by exact Hc; rewrite Hroles; reflexivity. }
    intros c Hc; rewrite tag_all_cols; apply Hold, Hc.
Qed.

(** X17: fitting a [StepImputeFill], [StepScale] or [StepHistorical] again
    on the same table changes nothing: the second [fit] leaves the step and
    the table exactly as the first left them and ends the same way (it
    returns, or raises the same exception). *)
Theorem X17_fitting_again_changes_nothing (w : world) :
  refits_from_scratch (self w) ->
  fit (fst (fit w)) = (fst (fit w), snd (fit w)).
Proof.
  destruct w as [[s cols tr gr f] d]; unfold refits_from_scratch; simpl.
  destruct f as [| v m l | wm ws scs | fn sfx role | t cw ip trs]; intros Hc;
    try destruct Hc.
  - unfold fit, StepImputeFill_fit, bindM, get_self, get_data, lift, set_columns,
      set_trained, modify; simpl.
    destruct d as [f | ks obj]; simpl; [reflexivity |].
    destruct (s (Plain obj)) as [e | cs] eqn:Hs; simpl; rewrite Hs; reflexivity.
  - unfold fit, StepScale_fit, bindM, get_self, get_data, lift, set_columns, set_fields,
      set_trained, modify; simpl.
    destruct (s d) as [e | cs] eqn:Hs; simpl; [rewrite Hs; reflexivity |].
    match goal with
    | |- context [for_each ?body cs ?acc] =>
        destruct (for_each body cs acc) as [e | scalers] eqn:Hloop
    end; simpl; rewrite Hs; simpl; rewrite Hloop; reflexivity.
  - unfold fit, StepHistorical_fit, bindM, get_self, get_data, lift, set_columns,
      set_trained, modify; simpl.
    destruct d as [f | ks obj]; simpl; [reflexivity |].
    destruct (s (Plain obj)) as [e | cs] eqn:Hs; simpl; rewrite Hs; reflexivity.
Qed.

End StepDerived.

Lemma X16_witness :
  exists ks obj f',
    Recipes.data (fst (Recipes.fit historical_world)) = Grouped ks obj /\
    Recipes.data (fst (Recipes.fit_transform historical_world)) = Grouped ks f' /\
    snd (Recipes.fit_transform historical_world) = inr (Some (Plain f')) /\
    (forall nc, In nc ["hr_max"; "bp_max"] ->
       In nc (keys (cols f')) /\
       exists rs, dict_get (roles f') nc = Some (rs ++ ["predictor"])) /\
    (forall c, ~ In c ["hr_max"; "bp_max"] ->
       dict_get (cols f') c = dict_get (cols obj) c /\
       dict_get (roles f') c = dict_get (roles obj) c).
Proof.
  destruct (@X16_historical_adds_tagged_columns toy_tabular
              (fst (Recipes.fit historical_world))
              (fst (Recipes.fit_transform historical_world))
              (match snd (Recipes.fit_transform historical_world) with
               | inr r => r
               | inl _ => None
               end)
              "max" "max" "predictor" eq_refl eq_refl)
    as (ks & obj & f' & H1 & H2 & H3 & _ & H5 & H6 & _).
  exists ks, obj, f'.
  refine (conj H1 (conj H2 (conj _ (conj H5 H6)))).
  simpl in H3; injection H3 as <-; reflexivity.
Defined.

Lemma X17_witness :
  Recipes.fit (fst (Recipes.fit scale_world))
    = (fst (Recipes.fit scale_world), snd (Recipes.fit scale_world)).
Proof.
  apply (@X17_fitting_again_changes_nothing toy_tabular scale_world); exact I.
Defined.

(* ================================================================== *)
(** ** Transformer steps over the whole table *)
(* ================================================================== *)

Section StepSklearnFrames.
Import Recipes RecipeSpec RecipeMore.
Context {B : Tabular}.

Lemma setitems_length (names : list string) :
  forall (f f' : frame) (values : list column),
    setitems f names values = inr f' -> List.length values = List.length names.
Proof.
  induction names as [| x rest IH]; intros f f' [| col values] H; simpl in H;
    try discriminate; [reflexivity |].
  simpl; f_equal; apply (IH _ _ _ H).
Qed.

Lemma numbered_length (prefix : string) (n : nat) : List.length (numbered prefix n) = n.
Proof. unfold numbered; rewrite length_map, length_seq; reflexivity. Qed.

(** X19: when the transform of a [StepSklearn] that is not columnwise
    returns, the transformer was applied once, to the resolved columns of the
    table; the table handed in is the table returned, the step and the roles
    are unchanged and no column disappears. In place, the transformer gave
    exactly one column per resolved column, the column names and their order
    are as before and only resolved columns changed. Not in place, the result
    is stored under [Class_1 .. Class_n], names that depend on the
    transformer's class and the number of columns it gave but not on the
    columns it read; every column under another name is as before. *)
Theorem X19_sklearn_whole_table_transform (w w' : world) (ret : option table)
    (t : Transformer) (is_in_place : bool) (trs : option (dict Transformer)) :
  fields_of (self w) = IsStepSklearn t false is_in_place trs ->
  transform w = (w', inr ret) ->
  exists x new_cols,
    sklearn_inputs (data w) (columns (self w)) = inr x /\
    transformer_transform t (Columns x) = inr new_cols /\
    ret = Some (data w') /\
    self w' = self w /\
    roles (frame_of (data w')) = roles (frame_of (data w)) /\
    (forall c, In c (keys (cols (frame_of (data w)))) ->
               In c (keys (cols (frame_of (data w'))))) /\
    (is_in_place = true ->
     List.length new_cols = List.length (columns (self w)) /\
     keys (cols (frame_of (data w'))) = keys (cols (frame_of (data w))) /\
     forall c, ~ In c (columns (self w)) ->
               dict_get (cols (frame_of (data w'))) c = dict_get (cols (frame_of (data w))) c) /\
    (is_in_place = false ->
     (forall nc, In nc (numbered (class_name t) (List.length new_cols)) ->
                 In nc (keys (cols (frame_of (data w'))))) /\
     forall c, ~ In c (numbered (class_name t) (List.length new_cols)) ->
               dict_get (cols (frame_of (data w'))) c = dict_get (cols (frame_of (data w))) c).
Proof.
  destruct w as [[sl cs tr gr fl] d]; simpl; intros -> H.
  unfold transform in H; rewrite bindM_run, get_self_run in H; cbn [self fields_of] in H.
  unfold StepSklearn_transform in H.
  rewrite bindM_run, get_self_run in H; cbn [self columns] in H.
  rewrite bindM_run in H.
  rewrite bindM_run, get_data_run in H; cbn [self data] in H.
  rewrite bindM_run, lift_run in H.
  destruct (sklearn_inputs d cs) as [e | x] eqn:Hx; [discriminate |].
  rewrite bindM_run, lift_run in H.
  destruct (transformer_transform t (Columns x)) as [e | new_cols] eqn:Ht; [discriminate |].
  rewrite bindM_run, lift_run in H.
  match type of H with
  | context [setitems ?f ?names ?values] =>
      destruct (setitems f names values) as [e | f'] eqn:Hset
  end; [discriminate |].
  rewrite set_data_run in H.
  rewrite bindM_run, get_data_run, ret_run in H; cbn [self data] in H.
  injection H as <- <-; simpl.
  destruct (setitems_frame _ _ _ Hset) as (Hroles & Hother & Hold & Hnew & Hkeys).
  pose proof (setitems_length _ _ _ Hset) as Hlen.
  assert (Hff : frame_of (with_frame d f') = f') by (destruct d; reflexivity).
  rewrite Hff.
  exists x, new_cols.
  split; [reflexivity |]. split; [exact Ht |]. split; [reflexivity |].
  split; [reflexivity |]. split; [exact Hroles |]. split; [exact Hold |].
  split; intros ->.
  - split; [exact Hlen |]. split; [| exact Hother].
    apply Hkeys; intros c Hc.
    destruct d as [f | ks f]; simpl in Hx.
    + apply (getitems_present _ _ Hx c Hc).
    + destruct (getitems f cs); discriminate.
  - split; [exact Hnew | exact Hother].
Qed.

End StepSklearnFrames.

Lemma X19_witness :
  exists x new_cols,
    Recipes.sklearn_inputs (Recipes.data (fst (Recipes.fit sklearn_appending_world)))
      (Recipes.columns (Recipes.self (fst (Recipes.fit sklearn_appending_world)))) = inr x /\
    @transformer_transform toy_tabular 1%Q (Columns x) = inr new_cols /\
    (forall nc, In nc ["Shift_1"; "Shift_2"] ->
       In nc (keys (cols (Recipes.frame_of
                            (Recipes.data (fst (Recipes.fit_transform sklearn_appending_world))))))).
Proof.
  destruct (@X19_sklearn_whole_table_transform toy_tabular
              (fst (Recipes.fit sklearn_appending_world))
              (fst (Recipes.fit_transform sklearn_appending_world))
              (match snd (Recipes.fit_transform sklearn_appending_world) with
               | inr r => r
               | inl _ => None
               end)
              1%Q false None eq_refl eq_refl)
    as (x & new_cols & H1 & H2 & _ & _ & _ & _ & _ & H8).
  exists x, new_cols.
  refine (conj H1 (conj H2 _)).
  destruct (H8 eq_refl) as (Hnew & _).
  intros nc Hnc; apply Hnew.
  simpl in H1; injection H1 as <-.
  simpl in H2; injection H2 as <-.
  exact Hnc.
Defined.

(* ================================================================== *)
(** ** [MLWrapper]: what [train] and [test] write and read *)
(* ================================================================== *)

Section MLRuns.
Import MLWrapperRun MLMore.
Context {L : Learner}.

Ltac runM :=
  cbv beta iota zeta delta [bindM lift get_self get_files set_self set_files set_model modify
       ret raise Ok Raise attr write_model json_dump append_results
       save_weights fit_model train test load_weights];
  cbn [self files_of fst snd with_model set_metrics model logdir scaler metrics
       output_transform label_transform model_files json_files shared_files].

Ltac runM_in H :=
  cbv beta iota zeta delta [bindM lift get_self get_files set_self set_files set_model modify
       ret raise Ok Raise attr write_model json_dump append_results
       save_weights fit_model train test load_weights] in H;
  cbn [self files_of fst snd with_model set_metrics model logdir scaler metrics
       output_transform label_transform model_files json_files shared_files] in H.

(** The scrutinee on which the next step of a run depends. *)
Ltac head_scrutinee t :=
  lazymatch t with
  | match ?r with inl _ => _ | inr _ => _ end => head_scrutinee r
  | match ?r with Some _ => _ | None => _ end => head_scrutinee r
  | match ?r with pair _ _ => _ end => head_scrutinee r
  | if ?b then _ else _ => head_scrutinee b
  | (if ?b then _ else _) _ => head_scrutinee b
  | _ => t
  end.

(** One step of a run that is known to return. *)
Ltac stepM_in H :=
  lazymatch type of H with
  | ?lhs = _ =>
      let r := head_scrutinee lhs in
      tryif constr_eq r lhs then fail else
      let v := eval vm_compute in r in
      lazymatch v with
      | true => change r with true in H
      | false => change r with false in H
      | _ => first [ match goal with Heq : r = _ |- _ => rewrite Heq in H end
                   | destruct r eqn:? ]
      end
  end; runM_in H; try discriminate H.

(** One step of a run in the goal. *)
Ltac stepM :=
  lazymatch goal with
  | |- exists _ _, ?lhs = _ /\ _ =>
      let r := head_scrutinee lhs in
      tryif constr_eq r lhs then fail else
      let v := eval vm_compute in r in
      lazymatch v with
      | true => change r with true
      | false => change r with false
      | _ => destruct r eqn:?
      end
  end; runM.

Ltac use_tests :=
  repeat match goal with
         | Hb : ?b = true |- context [if ?b then _ else _] => rewrite Hb
         | Hb : ?b = false |- context [if ?b then _ else _] => rewrite Hb
         end.

Lemma path_eqb_refl (p : path) : path_eqb p p = true.
Proof. unfold path_eqb; rewrite !String.eqb_refl; reflexivity. Qed.

(** What a returning [train] did, step by step. *)
Lemma train_returns (w w' : world) (tr va : mldataset) (wt : weight) (seed pat : Z)
    (sv : bool) (u : unit) :
  train tr va wt seed pat sv w = (w', inr u) ->
  exists dir ms names m0 args vl preds res,
    logdir (self w) = Some dir /\
    metrics (set_metrics (self w) (snd (get_data_and_labels tr))) = Some ms /\
    param_names (model (self w)) = inr names /\
    (if has "class_weight" names
     then set_class_weight (model (self w)) wt = inr m0
     else m0 = model (self w)) /\
    fit_args m0 = inr args /\
    (if has "eval_set" args
     then exists m1,
         set_random_state m0 np_random_state = inr m1 /\
         fit_eval_set m1 (fst (get_data_and_labels tr)) (snd (get_data_and_labels tr))
           (fst (get_data_and_labels va)) (snd (get_data_and_labels va)) pat
         = inr (model (self w')) /\
         first_best_score (model (self w')) = inr vl
     else fit m0 (fst (get_data_and_labels tr)) (snd (get_data_and_labels tr))
          = inr (model (self w')) /\ vl = 0%Q) /\
    self w' = with_model (set_metrics (self w) (snd (get_data_and_labels tr)))
                (model (self w')) /\
    (if has "MAE" (keys ms)
     then val_pred <- predict (model (self w')) (fst (get_data_and_labels va)) ;;
          train_pred <- predict (model (self w')) (fst (get_data_and_labels tr)) ;;
          Ok (val_pred, train_pred)
     else val_pred <- predict_proba (model (self w')) (fst (get_data_and_labels va)) ;;
          train_pred <- predict_proba (model (self w')) (fst (get_data_and_labels tr)) ;;
          Ok (val_pred, train_pred)) = inr preds /\
    train_metrics (self w') ms (snd (get_data_and_labels tr)) (snd preds)
      (snd (get_data_and_labels va)) (fst preds) ([], [("loss", MFloat (Fin vl))])
    = inr res /\
    json_files (files_of w')
    = (fun q => if path_eqb q (os_path_join dir "val_metrics.json")
                then Some (snd res) else json_files (files_of w) q) /\
    shared_files (files_of w')
    = (fun q => if path_eqb q (os_path_join (up dir) "val_metrics.json")
                then DLWrapper.append_results
                       (shared_files (files_of w) (os_path_join (up dir) "val_metrics.json"))
                       (snd res) seed
                else shared_files (files_of w) q) /\
    (if sv
     then exists d,
         (if has "eval_set" args
          then booster_save_model (model (self w')) = inr d
          else joblib_dump (model (self w')) = inr d) /\
         model_files (files_of w')
         = (fun q => if path_eqb q (model_file dir (has "eval_set" args))
                     then Some d else model_files (files_of w) q)
     else model_files (files_of w') = model_files (files_of w)).
Proof.
  destruct w as [[m sc ld ot lt ms] fs]; intros H.
  runM_in H.
  repeat stepM_in H.
  all: injection H as <-; cbn [self files_of model logdir with_model set_metrics metrics
                               json_files shared_files model_files].
  all: do 8 eexists.
  all: (split; [reflexivity |]).
  all: (split; [eassumption |]).
  all: (split; [eassumption |]).
  all: (split; [use_tests; first [eassumption | reflexivity] |]).
  all: (split; [eassumption |]).
  all: (split; [use_tests; first [eexists; split; [eassumption | split; eassumption]
                                  | split; [eassumption | reflexivity]] |]).
  all: (split; [reflexivity |]).
  all: (split; [use_tests; eassumption |]).
  all: (split; [eassumption |]).
  all: (split; [reflexivity |]).
  all: (split; [reflexivity |]).
  all: try reflexivity.
  all: eexists; unfold model_file; use_tests; split; [eassumption | reflexivity].
Qed.

(** What a returning [test] did, step by step. *)
Lemma test_returns (w w' : world) (ds : mldataset) (seed : Z) (wt : weight) (u : unit) :
  test ds seed wt w = (w', inr u) ->
  exists dir ms pred res,
    logdir (self w) = Some dir /\
    metrics (set_metrics (self w) (snd (get_data_and_labels ds))) = Some ms /\
    self w' = set_metrics (self w) (snd (get_data_and_labels ds)) /\
    (if has "MAE" (keys ms) || is_booster (model (self w))
     then predict (model (self w)) (fst (get_data_and_labels ds))
     else predict_proba (model (self w)) (fst (get_data_and_labels ds))) = inr pred /\
    test_metrics (self w') ms (snd (get_data_and_labels ds)) pred [] = inr res /\
    json_files (files_of w')
    = (fun q => if path_eqb q (os_path_join dir "test_metrics.json")
                then Some res else json_files (files_of w) q) /\
    shared_files (files_of w')
    = (fun q => if path_eqb q (os_path_join (up dir) "test_metrics.json")
                then DLWrapper.append_results
                       (shared_files (files_of w) (os_path_join (up dir) "test_metrics.json"))
                       res seed
                else shared_files (files_of w) q) /\
    model_files (files_of w') = model_files (files_of w).
Proof.
  destruct w as [[m sc ld ot lt ms] fs]; intros H.
  runM_in H.
  repeat stepM_in H.
  all: injection H as <-; cbn [self files_of model logdir with_model set_metrics metrics
                               json_files shared_files model_files].
  all: do 4 eexists.
  all: (split; [reflexivity |]).
  all: (split; [eassumption |]).
  all: (split; [reflexivity |]).
  all: (split; [use_tests; eassumption |]).
  all: (split; [eassumption |]).
  all: repeat split.
Qed.

(** The metric sets of [set_metrics] have distinct names, none of them
    ["loss"]. *)
Lemma set_metrics_names_distinct (s : t) (labels : list Q) (ms : dict MLWrapper.metric_fn) :
  metrics (set_metrics s labels) = Some ms ->
  NoDup (keys ms) /\ ~ In "loss" (keys ms).
Proof.
  unfold set_metrics, MLWrapper.set_metrics; cbn [metrics].
  destruct (Nat.eqb _ 2); [| destruct (MLWrapper.first_ten_are_ints labels);
                              [| destruct (MLWrapper.scaler (view s))]];
    cbn; intros Hms; injection Hms as <-; cbn;
      (split; [repeat constructor; cbn; intuition discriminate | intuition discriminate]).
Qed.

Lemma dict_get_set_kept {V : Type} (d : dict V) (k k' : string) (v : V) :
  k <> k' -> dict_get (dict_set d k v) k' = dict_get d k'.
Proof.
  intros Hne; induction d as [| [k0 v0] rest IH]; simpl.
  - destruct (String.eqb_spec k' k) as [-> | _]; [destruct Hne |]; reflexivity.
  - destruct (String.eqb_spec k k0) as [-> | Hk0]; simpl.
    + destruct (String.eqb_spec k' k0) as [-> | _]; [destruct Hne |]; reflexivity.
    + rewrite IH; reflexivity.
Qed.

(** The metric loop of [train] adds one entry per metric, in order, to the
    validation results and keeps the entries under other names. *)
Lemma train_metrics_keys (s : t) (tl : list Q) (tp : MLWrapper.ndarray) (vl : list Q)
    (vp : MLWrapper.ndarray) (ms : dict MLWrapper.metric_fn) :
  forall acc res,
    train_metrics s ms tl tp vl vp acc = inr res ->
    NoDup (keys ms) ->
    (forall k, In k (keys ms) -> ~ In k (keys (snd acc))) ->
    keys (snd res) = keys (snd acc) ++ keys ms /\
    (forall k, ~ In k (keys ms) -> dict_get (snd res) k = dict_get (snd acc) k).
Proof.
  unfold train_metrics.
  induction ms as [| [k f] rest IH]; intros acc res H Hnd Hfresh; simpl in H.
  - injection H as <-; rewrite app_nil_r; split; [reflexivity | intros; reflexivity].
  - apply bind_ok in H; destruct H as (acc' & Hstep & H).
    apply bind_ok in Hstep; destruct Hstep as (tv & _ & Hstep).
    apply bind_ok in Hstep; destruct Hstep as (vv & _ & Hstep).
    injection Hstep as <-.
    inversion Hnd as [| k0 l0 Hk Hnd']; subst.
    assert (Hkeys : keys (dict_set (snd acc) k vv) = keys (snd acc) ++ [k]).
    { apply dict_set_fresh_key, Hfresh; left; reflexivity. }
    destruct (IH _ _ H Hnd') as (IHk & IHg).
    { cbn [snd]; intros k' Hk' Hin; rewrite Hkeys in Hin.
      apply in_app_or in Hin; destruct Hin as [Hin | [<- | []]].
      - apply (Hfresh k'); [right; exact Hk' | exact Hin].
      - apply Hk, Hk'. }
    cbn [snd] in IHk, IHg; split.
    + rewrite IHk, Hkeys, <- app_assoc; reflexivity.
    + intros k' Hk'; rewrite IHg by (intros Hin; apply Hk'; right; exact Hin).
      apply dict_get_set_kept; intros ->; apply Hk'; left; reflexivity.
Qed.

(** The metric loop of [test] adds one entry per metric, in order. *)
Lemma test_metrics_keys (s : t) (tl : list Q) (tp : MLWrapper.ndarray)
    (ms : dict MLWrapper.metric_fn) :
  forall acc res,
    test_metrics s ms tl tp acc = inr res ->
    NoDup (keys ms) ->
    (forall k, In k (keys ms) -> ~ In k (keys acc)) ->
    keys res = keys acc ++ keys ms.
Proof.
  unfold test_metrics.
  induction ms as [| [k f] rest IH]; intros acc res H Hnd Hfresh; simpl in H.
  - injection H as <-; rewrite app_nil_r; reflexivity.
  - apply bind_ok in H; destruct H as (acc' & Hstep & H).
    apply bind_ok in Hstep; destruct Hstep as (v & _ & Hstep).
    injection Hstep as <-.
    inversion Hnd as [| k0 l0 Hk Hnd']; subst.
    assert (Hkeys : keys (dict_set acc k v) = keys acc ++ [k]).
    { apply dict_set_fresh_key, Hfresh; left; reflexivity. }
    rewrite (IH _ _ H Hnd').
    + rewrite Hkeys, <- app_assoc; reflexivity.
    + intros k' Hk' Hin; rewrite Hkeys in Hin.
      apply in_app_or in Hin; destruct Hin as [Hin | [<- | []]].
      * apply (Hfresh k'); [right; exact Hk' | exact Hin].
      * apply Hk, Hk'.
Qed.

(** X20: [__init__] does not set the log directory, and both [train] and
    [test] read it only after the model was fitted, the predictions made and
    the metrics computed. On a wrapper whose log directory was never set
    neither method returns, whatever the data and the arguments, and neither
    writes any file. *)
Theorem X20_ml_wrapper_needs_logdir (w : world) :
  logdir (self w) = None ->
  (forall (tr va : mldataset) (wt : weight) (seed pat : Z) (sv : bool),
      exists w' e, train tr va wt seed pat sv w = (w', inl e) /\
                   files_of w' = files_of w) /\
  (forall (ds : mldataset) (seed : Z) (wt : weight),
      exists w' e, test ds seed wt w = (w', inl e) /\ files_of w' = files_of w).
Proof.
  destruct w as [[m sc ld ot lt ms] fs]; cbn [self logdir files_of]; intros ->; split.
  - intros tr va wt seed pat sv; runM; repeat stepM;
      (eexists; eexists; split; reflexivity).
  - intros ds seed wt; runM; repeat stepM;
      (eexists; eexists; split; reflexivity).
Qed.

(** X21: the records [MLWrapper] writes have a fixed schema. When [train]
    returns, [val_metrics.json] in the log directory starts with ["loss"]
    and then has one entry per metric that [set_metrics] chose for the
    training labels, in that order; the loss is the model's first best score
    when its [fit] takes [eval_set] and the constant 0 otherwise; and the
    same dict is appended for the seed to the shared file one directory up.
    When [test] returns, [test_metrics.json] has one entry per metric chosen
    for the test labels and no ["loss"], and is appended to its shared file
    likewise. *)
Theorem X21_ml_records_schema (w w' : world) (seed : Z) (wt : weight) (u : unit) :
  (forall (tr va : mldataset) (pat : Z) (sv : bool),
      train tr va wt seed pat sv w = (w', inr u) ->
      exists dir ms res lgbm vl,
        logdir (self w) = Some dir /\
        metrics (set_metrics (self w) (snd (get_data_and_labels tr))) = Some ms /\
        json_files (files_of w') (os_path_join dir "val_metrics.json") = Some res /\
        keys res = "loss" :: keys ms /\
        dict_get res "loss" = Some (MFloat (Fin vl)) /\
        takes_eval_set (self w) wt = inr lgbm /\
        (if lgbm then first_best_score (model (self w')) = inr vl else vl = 0%Q) /\
        shared_files (files_of w') (os_path_join (up dir) "val_metrics.json")
        = DLWrapper.append_results
            (shared_files (files_of w) (os_path_join (up dir) "val_metrics.json")) res seed) /\
  (forall ds : mldataset,
      test ds seed wt w = (w', inr u) ->
      exists dir ms res,
        logdir (self w) = Some dir /\
        metrics (set_metrics (self w) (snd (get_data_and_labels ds))) = Some ms /\
        json_files (files_of w') (os_path_join dir "test_metrics.json") = Some res /\
        keys res = keys ms /\
        shared_files (files_of w') (os_path_join (up dir) "test_metrics.json")
        = DLWrapper.append_results
            (shared_files (files_of w) (os_path_join (up dir) "test_metrics.json")) res seed).
Proof.
  split.
  - intros tr va pat sv H.
    apply train_returns in H.
    destruct H
      as (dir & ms & names & m0 & args & vl & preds & res & Hdir & Hms & Hnames & Hm0
          & Hargs & Hfit & _ & _ & Hloop & Hjson & Hshared & _).
    pose proof Hms as Hnames_ok; apply set_metrics_names_distinct in Hnames_ok.
    destruct Hnames_ok as (Hnd & Hloss).
    eapply train_metrics_keys in Hloop;
      [| exact Hnd | cbn; intros k Hk [<- | []]; exact (Hloss Hk)].
    destruct Hloop as (Hkeys & Hget).
    exists dir, ms, (snd res), (has "eval_set" args), vl.
    split; [exact Hdir |]. split; [exact Hms |].
    split; [rewrite Hjson, path_eqb_refl; reflexivity |].
    split; [exact Hkeys |].
    split; [rewrite (Hget "loss" Hloss); reflexivity |].
    split.
    { unfold takes_eval_set, object_to_fit; rewrite Hnames; cbn [bind].
      destruct (has "class_weight" names); [rewrite Hm0 | subst m0];
        cbn [bind Ok]; rewrite Hargs; reflexivity. }
    split.
    { destruct (has "eval_set" args).
      - destruct Hfit as (m1 & _ & _ & Hvl); exact Hvl.
      - destruct Hfit as (_ & Hvl); exact Hvl. }
    rewrite Hshared, path_eqb_refl; reflexivity.
  - intros ds H.
    apply test_returns in H.
    destruct H
      as (dir & ms & pred & res & Hdir & Hms & _ & _ & Hloop & Hjson & Hshared & _).
    pose proof Hms as Hnames_ok; apply set_metrics_names_distinct in Hnames_ok.
    destruct Hnames_ok as (Hnd & _).
    exists dir, ms, res.
    split; [exact Hdir |]. split; [exact Hms |].
    split; [rewrite Hjson, path_eqb_refl; reflexivity |].
    split; [eapply test_metrics_keys in Hloop; [exact Hloop | exact Hnd | intros k _ []] |].
    rewrite Hshared, path_eqb_refl; reflexivity.
Qed.

(** X22: [train] and [load_weights] agree on the format of the model file.
    When [train] returns with [save_weights] true, it wrote exactly one model
    file into the log directory: [model.txt], holding what the booster saves,
    when the [fit] it called takes [eval_set], and [model.joblib], holding
    the joblib dump of the model, otherwise; the other of the two is as it
    was. [load_weights] on the file written reads it with the matching
    loader, [lightgbm.Booster] for the first and [joblib.load] for the
    second, and replaces [self.model] by what the loader returns. *)
Theorem X22_saved_model_is_read_by_its_format (w w' : world) (tr va : mldataset)
    (wt : weight) (seed pat : Z) (u : unit) :
  train tr va wt seed pat true w = (w', inr u) ->
  exists dir lgbm d,
    logdir (self w') = Some dir /\
    takes_eval_set (self w) wt = inr lgbm /\
    (if lgbm then booster_save_model (model (self w')) = inr d
     else joblib_dump (model (self w')) = inr d) /\
    model_files (files_of w') (model_file dir lgbm) = Some d /\
    model_files (files_of w') (model_file dir (negb lgbm))
    = model_files (files_of w) (model_file dir (negb lgbm)) /\
    load_weights (model_file dir lgbm) w'
    = match (if lgbm then booster_from_file (Some d) else joblib_load d) with
      | inr m => (with_loaded w' m, inr tt)
      | inl e => (w', inl e)
      end.
Proof.
  intros H; apply train_returns in H.
  destruct H
    as (dir & ms & names & m0 & args & vl & preds & res & Hdir & _ & Hnames & Hm0
        & Hargs & _ & Hself & _ & _ & _ & _ & d & Hdump & Hfiles).
  exists dir, (has "eval_set" args), d.
  split; [rewrite Hself; exact Hdir |].
  split.
  { unfold takes_eval_set, object_to_fit; rewrite Hnames; cbn [bind].
    destruct (has "class_weight" names); [rewrite Hm0 | subst m0];
      cbn [bind Ok]; rewrite Hargs; reflexivity. }
  split; [exact Hdump |].
  split; [rewrite Hfiles, path_eqb_refl; reflexivity |].
  split.
  { rewrite Hfiles; unfold model_file, path_eqb, os_path_join; cbn [parent name].
    rewrite String.eqb_refl; destruct (has "eval_set" args); reflexivity. }
  destruct w' as [s' fs']; cbn [files_of] in Hfiles.
  unfold load_weights, with_loaded.
  cbv beta iota zeta delta [bindM lift get_self get_files set_self set_files set_model
                            modify ret raise Ok Raise];
    cbn [self files_of]; rewrite Hfiles, path_eqb_refl.
  destruct (has "eval_set" args); cbn.
  - destruct (booster_from_file (Some d)); reflexivity.
  - destruct (joblib_load d); reflexivity.
Qed.

(** X23: the [weight] argument reaches the model only through its
    [class_weight] parameter. For a model without that parameter [train]
    behaves the same for any two weights, and [test] never uses its weight
    argument at all. *)
Theorem X23_ml_weight_only_sets_class_weight (w : world) (wt wt' : weight) :
  (forall names, param_names (model (self w)) = inr names ->
     has "class_weight" names = false ->
     forall (tr va : mldataset) (seed pat : Z) (sv : bool),
       train tr va wt seed pat sv w = train tr va wt' seed pat sv w) /\
  (forall (ds : mldataset) (seed : Z), test ds seed wt w = test ds seed wt' w).
Proof.
  split; [| reflexivity].
  intros names Hnames Hcw tr va seed pat sv.
  destruct w as [[m sc ld ot lt ms] fs]; cbn [self model] in Hnames.
  unfold train.
  cbv beta iota zeta delta [bindM lift get_self set_self modify Ok];
    cbn [self files_of model with_model set_metrics metrics].
  destruct (attr _ "metrics"); [reflexivity |].
  rewrite Hnames, Hcw; reflexivity.
Qed.

End MLRuns.

Lemma X20_witness :
  exists w' e,
    MLWrapperRun.train binary_rows binary_rows WNone 0%Z 10%Z true
      (ml_world_without_logdir (ToyRidge false)) = (w', inl e) /\
    MLWrapperRun.files_of w' = no_ml_files.
Proof.
  apply (@X20_ml_wrapper_needs_logdir toy_learner (ml_world_without_logdir (ToyRidge false))).
  reflexivity.
Defined.

Lemma X21_witness :
  exists dir ms res lgbm vl,
    MLWrapperRun.logdir (MLWrapperRun.self (ml_world (ToyLGBM false))) = Some dir /\
    MLWrapperRun.metrics
      (MLWrapperRun.set_metrics (MLWrapperRun.self (ml_world (ToyLGBM false)))
         (snd (MLWrapperRun.get_data_and_labels binary_rows))) = Some ms /\
    MLWrapperRun.json_files
      (MLWrapperRun.files_of
         (fst (MLWrapperRun.train binary_rows binary_rows WNone 0%Z 10%Z true
                 (ml_world (ToyLGBM false)))))
      (MLWrapperRun.os_path_join dir "val_metrics.json") = Some res /\
    keys res = "loss" :: keys ms /\
    dict_get res "loss" = Some (MFloat (Fin vl)) /\
    MLMore.takes_eval_set (MLWrapperRun.self (ml_world (ToyLGBM false))) WNone = inr lgbm.
Proof.
  destruct (proj1 (@X21_ml_records_schema toy_learner (ml_world (ToyLGBM false))
                     (fst (MLWrapperRun.train binary_rows binary_rows WNone 0%Z 10%Z true
                             (ml_world (ToyLGBM false))))
                     0%Z WNone tt)
              binary_rows binary_rows 10%Z true eq_refl)
    as (dir & ms & res & lgbm & vl & H1 & H2 & H3 & H4 & H5 & H6 & _).
  exists dir, ms, res, lgbm, vl.
  exact (conj H1 (conj H2 (conj H3 (conj H4 (conj H5 H6))))).
Defined.

Lemma X22_witness :
  exists dir lgbm d,
    MLMore.takes_eval_set (MLWrapperRun.self (ml_world (ToyRidge false))) WNone = inr lgbm /\
    MLWrapperRun.model_files
      (MLWrapperRun.files_of
         (fst (MLWrapperRun.train binary_rows binary_rows WNone 0%Z 10%Z true
                 (ml_world (ToyRidge false)))))
      (MLMore.model_file dir lgbm) = Some d.
Proof.
  destruct (@X22_saved_model_is_read_by_its_format toy_learner (ml_world (ToyRidge false))
              (fst (MLWrapperRun.train binary_rows binary_rows WNone 0%Z 10%Z true
                      (ml_world (ToyRidge false))))
              binary_rows binary_rows WNone 0%Z 10%Z tt eq_refl)
    as (dir & lgbm & d & _ & H2 & _ & H4 & _).
  exists dir, lgbm, d.
  exact (conj H2 H4).
Defined.

Lemma X23_witness :
  MLWrapperRun.train binary_rows binary_rows (WStr "balanced") 0%Z 10%Z true
    (ml_world (ToyRidge false))
  = MLWrapperRun.train binary_rows binary_rows WNone 0%Z 10%Z true
      (ml_world (ToyRidge false)).
Proof.
  apply (proj1 (@X23_ml_weight_only_sets_class_weight toy_learner (ml_world (ToyRidge false))
                  (WStr "balanced") WNone) ["alpha"]); reflexivity.
Defined.
